(** * The CI controller of the sample platform (mod_ci/controllers.py)

    A shallow embedding of the scheduling and progress-tracking logic of
    [mod_ci/controllers.py]: the decision phase of [kvm_processor], the
    manifest's choice of reference file, the pull-request branch of
    [start_ci], [progress_reporter] with its request handlers, and
    [set_avg_time].

    Conventions of the embedding.
    - A database table is the list of its rows in primary-key order, so that
      [.first()] is the head of the filtered list and [db.add] appends.
      [GeneralData] is a key/value table and is a finite map.
    - Instants are integers counting microseconds (the resolution of
      [datetime]); a [timedelta] is a difference of instants.
    - Python floats are modelled by exact rationals ([Qc]); [str] followed
      by [float] is the identity on them, [int] truncates towards zero.
    - A Python exception is an explicit result carrying the last committed
      database. *)

From Stdlib Require Import ZArith QArith Qcanon Qround String Lia.
From stdpp Require Import base option list sorting gmap strings.

Open Scope string_scope.
Open Scope list_scope.
Open Scope Z_scope.

(** ** Data model

    Modelled from the spec: the model classes ([Test], [TestProgress],
    [Kvm], [Fork], [RegressionTest], ...) and the enumerations are declared
    in mod_test.models, mod_ci.models, mod_regression.models and
    mod_customized.models, which are not among the sources.  Each record has
    the fields that the controller reads or passes to the constructor, with
    the meaning section 3 gives them; the [got] of a [TestResultFile] is
    null unless the constructor is given one. *)

Inductive TestStatus := preparation | building | testing | completed | canceled.

Inductive TestPlatform := linux | windows.

Module TestType.
Inductive t := commit | pull_request.
End TestType.

#[global] Instance TestStatus_eq_dec : EqDecision TestStatus.
Proof. solve_decision. Defined.
#[global] Instance TestPlatform_eq_dec : EqDecision TestPlatform.
Proof. solve_decision. Defined.
#[global] Instance TestType_eq_dec : EqDecision TestType.t.
Proof. solve_decision. Defined.

(** [platform.value] *)
Definition platform_value (p : TestPlatform) : string :=
  match p with linux => "linux" | windows => "windows" end.

(** Modelled from the spec: [TestStatus.from_string] is declared in
    mod_test.models; it gives the status that the string names (the names
    of section 4.3) and raises on any other string. *)
Definition from_string (s : string) : option TestStatus :=
  if String.eqb s "preparation" then Some preparation
  else if String.eqb s "building" then Some building
  else if String.eqb s "testing" then Some testing
  else if String.eqb s "completed" then Some completed
  else if String.eqb s "canceled" then Some canceled
  else None.

Module Test.
Record t := mk {
  id : Z;
  platform : TestPlatform;
  test_type : TestType.t;
  fork_id : Z;
  branch : string;
  commit : string;
  pr_nr : Z;
  token : string
}.
End Test.

(** [datetime.datetime]: the wall-clock reading in microseconds, and the
    UTC offset of its [tzinfo] when it has one. *)
Module datetime.
Record t := mk { wall : Z; tzinfo : option Z }.

Definition naive (wall : Z) : t := mk wall None.

(** [d.replace(tzinfo=None)] *)
Definition replace_tzinfo_None (d : t) : t := mk (wall d) None.

(** [a - b]: a [timedelta], or [TypeError] when exactly one is aware. *)
Definition sub (a b : t) : option Z :=
  match tzinfo a, tzinfo b with
  | None, None => Some (wall a - wall b)
  | Some oa, Some ob => Some ((wall a - oa) - (wall b - ob))
  | _, _ => None
  end.
End datetime.

Module TestProgress.
Record t := mk {
  test_id : Z;
  status : TestStatus;
  message : string;
  timestamp : datetime.t
}.
End TestProgress.

Module Kvm.
Record t := mk {
  name : string;
  test_id : Z;
  timestamp : Z;
  timestamp_prep_finished : option Z;
  timestamp_build_finished : option Z
}.
End Kvm.

Module Fork.
Record t := mk { id : Z; github : string }.
End Fork.

Module MaintenanceMode.
Record t := mk { platform : TestPlatform; disabled : bool }.
End MaintenanceMode.

Module RegressionTest.
Record t := mk {
  id : Z;
  command : string;
  input_type : string;
  output_type : string;
  sample_filename : string;
  sample_sha : string;
  expected_rc : Z
}.
End RegressionTest.

(** A category with the ids its link table gives it. *)
Module Category.
Record t := mk { id : Z; name : string; regression_ids : list Z }.
End Category.

(** A row of [CustomizedTest]: a regression test in the scope of a test. *)
Module CustomizedTest.
Record t := mk { test_id : Z; regression_id : Z }.
End CustomizedTest.

Module RegressionTestOutput.
Record t := mk {
  id : Z;
  regression_id : Z;
  correct : string;
  ignore : bool
}.
End RegressionTestOutput.

Module TestResult.
Record t := mk {
  test_id : Z;
  regression_test_id : Z;
  runtime : Z;
  exit_code : Z;
  expected_rc : Z
}.
End TestResult.

Module TestResultFile.
Record t := mk {
  test_id : Z;
  regression_test_id : Z;
  regression_test_output_id : Z;
  expected : string;
  got : option string
}.
End TestResultFile.

(** A [GeneralData.value]: the column is a string; [Number x] is the string
    [str(x)] of a number, [Text s] a string that is not a numeral. *)
Inductive value := Text (s : string) | Number (x : Qc).

(** The job store. *)
Record Db := mkDb {
  tests : list Test.t;
  progress : list TestProgress.t;
  kvm : list Kvm.t;
  forks : list Fork.t;
  maintenance : list MaintenanceMode.t;
  categories : list Category.t;
  customized : list CustomizedTest.t;
  regression_tests : list RegressionTest.t;
  regression_outputs : list RegressionTestOutput.t;
  results : list TestResult.t;
  result_files : list TestResultFile.t;
  general_data : gmap string value
}.

Definition with_tests (db : Db) (v : list Test.t) : Db :=
  mkDb v (progress db) (kvm db) (forks db) (maintenance db) (categories db)
       (customized db) (regression_tests db)
       (regression_outputs db) (results db) (result_files db) (general_data db).

Definition with_progress (db : Db) (v : list TestProgress.t) : Db :=
  mkDb (tests db) v (kvm db) (forks db) (maintenance db) (categories db)
       (customized db) (regression_tests db)
       (regression_outputs db) (results db) (result_files db) (general_data db).

Definition with_kvm (db : Db) (v : list Kvm.t) : Db :=
  mkDb (tests db) (progress db) v (forks db) (maintenance db) (categories db)
       (customized db) (regression_tests db)
       (regression_outputs db) (results db) (result_files db) (general_data db).

Definition with_result_files (db : Db) (v : list TestResultFile.t) : Db :=
  mkDb (tests db) (progress db) (kvm db) (forks db) (maintenance db) (categories db)
       (customized db) (regression_tests db)
       (regression_outputs db) (results db) v (general_data db).

Definition with_general_data (db : Db) (v : gmap string value) : Db :=
  mkDb (tests db) (progress db) (kvm db) (forks db) (maintenance db) (categories db)
       (customized db) (regression_tests db)
       (regression_outputs db) (results db) (result_files db) v.

(** [query.filter(p).first()] *)
Definition query_first {A : Type} (p : A -> bool) (rows : list A) : option A :=
  head (List.filter p rows).

(** Exceptions the modelled code can raise. *)
Inductive PyError :=
  | AttributeError | TypeError | KeyError | ValueError
  | ZeroDivisionError | IntegrityError | ApiError.

(** The result of a handler: it returns a value, or raises; either way the
    database is the one last committed. *)
Inductive result (A : Type) :=
  | Ok (db : Db) (a : A)
  | Raise (db : Db) (e : PyError).
Arguments Ok {A} db a.
Arguments Raise {A} db e.

Definition db_of {A : Type} (r : result A) : Db :=
  match r with Ok db _ => db | Raise db _ => db end.

Definition bind {A B : Type} (r : result A) (k : Db -> A -> result B) : result B :=
  match r with Ok db a => k db a | Raise db e => Raise db e end.

(** ** Running statistics: [set_avg_time] *)

(** [timedelta.total_seconds()] of a difference of instants. *)
Definition total_seconds (us : Z) : Qc := Q2Qc (us # 1000000).

Definition Z2Qc (z : Z) : Qc := Q2Qc (inject_Z z).

(** [float(v)] on a stored value. *)
Definition float_of_value (v : value) : option Qc :=
  match v with Number x => Some x | Text _ => None end.

(** [int(x)] on a float: truncation towards zero. *)
Definition int_of_float (x : Qc) : Z := Z.quot (Qnum x) (Zpos (Qden x)).

(** [int(v)] on a stored value: only the numeral of an integer parses. *)
Definition int_of_value (v : value) : option Z :=
  match v with
  | Number x => if decide (Qden x = 1%positive) then Some (Qnum x) else None
  | Text _ => None
  end.

Definition set_avg_time (db : Db) (platform : TestPlatform)
    (process_type : string) (time_taken : Qc) : result unit :=
  let val_key := ("avg_" ++ process_type ++ "_time_" ++ platform_value platform)%string in
  let count_key := ("avg_" ++ process_type ++ "_count_" ++ platform_value platform)%string in
  match general_data db !! count_key with
  | None =>
      (* adding average data the first time *)
      match general_data db !! val_key with
      | Some _ => Raise db IntegrityError
      | None =>
          Ok (with_general_data db
                (<[val_key := Number time_taken]>
                   (<[count_key := Number (Z2Qc 1)]> (general_data db)))) tt
      end
  | Some current_avg_count =>
      match general_data db !! val_key with
      | None => Raise db AttributeError
      | Some current_average =>
          match int_of_value current_avg_count, float_of_value current_average with
          | Some avg_count, Some average =>
              let avg_value := int_of_float average in
              if decide (avg_count + 1 = 0) then Raise db ZeroDivisionError else
              let new_average :=
                ((Z2Qc avg_value * Z2Qc avg_count + time_taken) / Z2Qc (avg_count + 1))%Qc in
              Ok (with_general_data db
                    (<[val_key := Number new_average]>
                       (<[count_key := Number (Z2Qc (avg_count + 1))]> (general_data db)))) tt
          | _, _ => Raise db ValueError
          end
      end
  end.

(** Feeding a list of samples, one call per sample. *)
Fixpoint feed_samples (db : Db) (platform : TestPlatform) (process_type : string)
    (samples : list Qc) : result unit :=
  match samples with
  | [] => Ok db tt
  | s :: rest =>
      bind (set_avg_time db platform process_type s)
           (fun db' _ => feed_samples db' platform process_type rest)
  end.

Definition empty_db : Db := mkDb [] [] [] [] [] [] [] [] [] [] [] ∅.

(** ** Configuration and requests *)

Record Config := mkConfig {
  repository_owner : string;
  repository : string;
  KVM_MAX_RUNTIME : Z
}.

(** [Status] *)
Inductive Status := PENDING | SUCCESS | ERROR | FAILURE.

(** Calls to the collaborators outside the job store, in the order made.
    The target URL of a status is the page of a test, given by its id. *)
Inductive Action :=
  | GithubStatus (commit : string) (state : Status) (description context : string)
                 (target : Z)
  | CommentPr (test_id : Z) (state : Status) (pr_nr : Z) (platform_name : string)
  | UpdateBuildBadge (state : Status) (test_id : Z)
  | StartPlatforms (delay : Z) (platform : TestPlatform)
  | VmDestroy.

(** [request.form] as the handlers read it: a key that is absent is [None]
    (reading it raises), and the ids are the integers the queries compare
    them with.  [file] is the secured name of the uploaded file and
    [file_sha256] the digest of its content. *)
Record Request := mkRequest {
  form_type : option string;
  form_status : option string;
  form_message : option string;
  form_test_id : option Z;
  form_test_file_id : option Z;
  form_runTime : option Z;
  form_exitCode : option Z;
  file : option string;
  file_sha256 : string
}.

(** [test.progress]: the events of a test, oldest first. *)
Definition test_progress (db : Db) (test_id : Z) : list TestProgress.t :=
  List.filter (fun p => TestProgress.test_id p =? test_id) (progress db).

(** [test.fork] *)
Definition test_fork (db : Db) (test : Test.t) : option Fork.t :=
  query_first (fun f => Fork.id f =? Test.fork_id test) (forks db).

(** [sub in s] on strings. *)
Definition contains (sub s : string) : bool :=
  match String.index 0 sub s with Some _ => true | None => false end.

Definition is_main_repo (config : Config) (repo_url : string) : bool :=
  contains (repository_owner config ++ "/" ++ repository config)%string repo_url.

(** Replace, resp. delete, the first row that satisfies [p]: an UPDATE or
    DELETE of the row that [query_first p] returned. *)
Fixpoint update_first {A : Type} (p : A -> bool) (f : A -> A) (rows : list A) : list A :=
  match rows with
  | [] => []
  | r :: rest => if p r then f r :: rest else r :: update_first p f rest
  end.

Fixpoint delete_first {A : Type} (p : A -> bool) (rows : list A) : list A :=
  match rows with
  | [] => []
  | r :: rest => if p r then rest else r :: delete_first p rest
  end.

(** ** The progress steps of [TestStatus]

    [TestStatus.progress_step] is defined in mod_test.models, which is not
    among the sources.  The controller uses its results in three ways:
    membership in [[TestStatus.completed, TestStatus.canceled]] (an equality
    test against members of the enumeration), [>] and [<].  These are the
    operations of the interface. *)
Class ProgressStep := {
  Step : Type;
  progress_step : TestStatus -> Step;
  step_eq : Step -> TestStatus -> bool;
  step_lt : Step -> Step -> bool;
  step_gt : Step -> Step -> bool
}.

(** The rank of a status in the forward sequence; [canceled] has none. *)
Definition rank (s : TestStatus) : option Z :=
  match s with
  | preparation => Some 0
  | building => Some 1
  | testing => Some 2
  | completed => Some 3
  | canceled => None
  end.

(** Modelled from the spec: what [TestStatus.progress_step] and the
    comparisons of its results mean (section 4.3): the steps of ranked
    statuses are ordered by rank, and a step compares equal to a member of
    the enumeration only if it is the step of that member.  Whether the
    step of [completed] or [canceled] compares equal to the member itself
    is not assumed: the spec does not say what a step is, and scenario T2
    of section 8 has a report recorded after [completed]. *)
Class ProgressStepSpec `{ProgressStep} := {
  step_eq_sound s t : step_eq (progress_step s) t = true -> s = t;
  step_lt_spec s t a b :
    rank s = Some a -> rank t = Some b ->
    step_lt (progress_step s) (progress_step t) = (a <? b);
  step_gt_spec s t a b :
    rank s = Some a -> rank t = Some b ->
    step_gt (progress_step s) (progress_step t) = (b <? a)
}.

(** ** The progress ingestor: [progress_type_request] *)

Definition set_prep_finished (t : Z) (k : Kvm.t) : Kvm.t :=
  Kvm.mk (Kvm.name k) (Kvm.test_id k) (Kvm.timestamp k) (Some t)
         (Kvm.timestamp_build_finished k).

Definition set_build_finished (t : Z) (k : Kvm.t) : Kvm.t :=
  Kvm.mk (Kvm.name k) (Kvm.test_id k) (Kvm.timestamp k)
         (Kvm.timestamp_prep_finished k) (Some t).

(** [db.add(progress); db.commit()] *)
Definition add_progress (db : Db) (p : TestProgress.t) : Db :=
  with_progress db (progress db ++ [p]).

Definition add_progress_all (db : Db) (ps : list TestProgress.t) : Db :=
  with_progress db (progress db ++ ps).

(** Lines 796-836: decide what to record and record it.  [None] is the
    early [return False]; otherwise the status and the event recorded.
    [now] is the reading of [datetime.datetime.now()], [stamp] the default
    timestamp of a new [TestProgress]. *)
Definition record_progress `{ProgressStep} (db : Db) (test : Test.t)
    (request : Request) (now : Z) (stamp : datetime.t)
    : result (option (TestStatus * TestProgress.t)) :=
  match form_status request with
  | None => Raise db KeyError
  | Some status_name =>
  match from_string status_name with
  | None => Raise db ValueError
  | Some status =>
  let current_status := progress_step status in
  match form_message request with
  | None => Raise db KeyError
  | Some message =>
  let append (db : Db) (status : TestStatus) (message : string) :=
    let progress := TestProgress.mk (Test.id test) status message stamp in
    Ok (add_progress db progress) (Some (status, progress)) in
  match last (test_progress db (Test.id test)) with
  | None => append db status message
  | Some last_event =>
      let last_status := progress_step (TestProgress.status last_event) in
      if step_eq last_status completed || step_eq last_status canceled then Ok db None
      else
        let '(status, message) :=
          if step_gt last_status current_status
          then (canceled, "Duplicate Entries") else (status, message) in
        if step_lt last_status current_status then
          (* get KVM start time for finding KVM preparation time *)
          let for_test := fun k => Kvm.test_id k =? Test.id test in
          let kvm_entry := query_first for_test (kvm db) in
          if decide (status = building) then
            match kvm_entry with
            | None => Raise db AttributeError
            | Some k =>
                let db1 := with_kvm db (update_first for_test (set_prep_finished now) (kvm db)) in
                let time_diff := total_seconds (now - Kvm.timestamp k) in
                bind (set_avg_time db1 (Test.platform test) "prep" time_diff)
                     (fun db2 _ => append db2 status message)
            end
          else if decide (status = testing) then
            match kvm_entry with
            | None => Raise db AttributeError
            | Some k =>
                let db1 := with_kvm db (update_first for_test (set_build_finished now) (kvm db)) in
                match Kvm.timestamp_prep_finished k with
                | None => Raise db1 TypeError
                | Some prep_finished =>
                    let time_diff := total_seconds (now - prep_finished) in
                    bind (set_avg_time db1 (Test.platform test) "build" time_diff)
                         (fun db2 _ => append db2 status message)
                end
            end
          else append db status message
        else append db status message
  end end end end.

(** [Test.commit == commit.value] *)
Definition value_is_text (v : value) (s : string) : bool :=
  match v with Text s' => String.eqb s s' | Number _ => false end.

(** Lines 840-850: a completed commit test of the main repository that is
    newer than the pinned one becomes the pinned one. *)
Definition update_fetch_commit (config : Config) (db : Db) (test : Test.t)
    (status : TestStatus) : result unit :=
  if decide (status = completed) then
    match test_fork db test with
    | None => Raise db AttributeError
    | Some fork =>
        if is_main_repo config (Fork.github fork) then
          let commit_name := ("fetch_commit_" ++ platform_value (Test.platform test))%string in
          match general_data db !! commit_name with
          | None => Raise db AttributeError
          | Some commit =>
              let fetch_commit :=
                query_first (fun t => value_is_text commit (Test.commit t)
                                      && bool_decide (Test.platform t = Test.platform test))
                            (tests db) in
              if decide (Test.test_type test = TestType.commit) then
                match fetch_commit with
                | None => Raise db AttributeError
                | Some pinned =>
                    if Test.id test >? Test.id pinned
                    then Ok (with_general_data db
                               (<[commit_name := Text (Test.commit test)]> (general_data db))) tt
                    else Ok db tt
                end
              else Ok db tt
          end
        else Ok db tt
    end
  else Ok db tt.

Definition is_terminal (s : TestStatus) : bool :=
  bool_decide (s = completed) || bool_decide (s = canceled).

Definition in_ids (x : Z) (ids : list Z) : bool := existsb (Z.eqb x) ids.

(** The span of a group of timestamps: last minus first, in whole seconds. *)
Definition span_seconds (parts : list datetime.t) : Z :=
  match head parts, last parts with
  | Some start, Some end_ => Z.quot (datetime.wall end_ - datetime.wall start) 1000000
  | _, _ => 0
  end.

(** Lines 861-887: the average over the history of the platform, taken when
    no average is stored yet. *)
Definition cold_average (db : Db) (platform : TestPlatform) : Z :=
  let platform_tests :=
    map Test.id (List.filter (fun t => bool_decide (Test.platform t = platform)) (tests db)) in
  let finished_tests :=
    map TestProgress.test_id
        (List.filter (fun p => is_terminal (TestProgress.status p)
                               && in_ids (TestProgress.test_id p) platform_tests)
                     (progress db)) in
  let finished_tests_progress :=
    List.filter (fun p => in_ids (TestProgress.test_id p) finished_tests
                          && bool_decide (TestProgress.status p ∈ [preparation; completed; canceled]))
                (progress db) in
  let times :=
    map (fun id => map TestProgress.timestamp
                     (List.filter (fun p => TestProgress.test_id p =? id) finished_tests_progress))
        (remove_dups (map TestProgress.test_id finished_tests_progress)) in
  let total_time := fold_left (fun acc parts => acc + span_seconds parts) times 0 in
  if decide (length times = 0%nat) then 0 else total_time / Z.of_nat (length times).

(** Modelled from the spec: [Test.progress_data] is defined in
    mod_test.models; its ['start'] and ['end'] are the timestamps of the
    first and of the last event of the test (section 4.5: the just-finished
    test's (start, end) span). *)
Definition progress_data (db : Db) (test : Test.t) : option (datetime.t * datetime.t) :=
  match head (test_progress db (Test.id test)), last (test_progress db (Test.id test)) with
  | Some first_event, Some last_event =>
      Some (TestProgress.timestamp first_event, TestProgress.timestamp last_event)
  | _, _ => None
  end.

(** [x // y] on floats, for [y] not zero. *)
Definition floor_div (x y : Qc) : Qc := Z2Qc (Qfloor (x / y)%Qc).

(** [if d.tzinfo is not None: d = d.replace(tzinfo=None)] *)
Definition strip_tz (d : datetime.t) : datetime.t :=
  match datetime.tzinfo d with
  | Some _ => datetime.replace_tzinfo_None d
  | None => d
  end.

(** Lines 895-912: the stored average is updated from the span of the test
    that just finished. *)
Definition warm_average (db : Db) (test : Test.t) (var_average : string)
    (current_average : value) : result unit :=
  let all_results := Z.of_nat (length (results db)) in
  let regression_test_count := Z.of_nat (length (regression_tests db)) in
  if decide (regression_test_count = 0) then Raise db ZeroDivisionError else
  let number_test := (Z2Qc all_results / Z2Qc regression_test_count)%Qc in
  match float_of_value current_average with
  | None => Raise db ValueError
  | Some average =>
  let updated_average := (average * (number_test - 1))%Qc in
  match progress_data db test with
  | None => Raise db AttributeError
  | Some (start_time, end_time) =>
  let end_time := strip_tz end_time in
  let start_time := strip_tz start_time in
  match datetime.sub end_time start_time with
  | None => Raise db TypeError
  | Some last_running_test =>
  let updated_average := (updated_average + total_seconds last_running_test)%Qc in
  if decide (number_test = 0%Qc) then Raise db ZeroDivisionError else
  Ok (with_general_data db
        (<[var_average := Number (floor_div updated_average number_test)]> (general_data db))) tt
  end end end.

(** Lines 853-920: on a terminal status, update the average running time
    and remove the Kvm entry of the test. *)
Definition finish_test (db : Db) (test : Test.t) : result unit :=
  let var_average := ("average_time_" ++ platform_value (Test.platform test))%string in
  bind (match general_data db !! var_average with
        | None =>
            let average_time := cold_average db (Test.platform test) in
            Ok (with_general_data db
                  (<[var_average := Number (Z2Qc average_time)]> (general_data db))) tt
        | Some current_average => warm_average db test var_average current_average
        end)
       (fun db _ =>
          Ok (with_kvm db (delete_first (fun k => Kvm.test_id k =? Test.id test) (kvm db))) tt).

(** Lines 937-951: the two counts that decide the outcome. *)
Definition crashes (db : Db) (test : Test.t) : nat :=
  length (List.filter
            (fun r => (TestResult.test_id r =? Test.id test)
                      && negb (TestResult.exit_code r =? TestResult.expected_rc r))
            (results db)).

Definition results_zero_rc (db : Db) : list Z :=
  map RegressionTest.id
      (List.filter (fun rt => RegressionTest.expected_rc rt =? 0) (regression_tests db)).

Definition mismatches (db : Db) (test : Test.t) : nat :=
  length (List.filter
            (fun f => (TestResultFile.test_id f =? Test.id test)
                      && in_ids (TestResultFile.regression_test_id f) (results_zero_rc db)
                      && bool_decide (TestResultFile.got f <> None))
            (result_files db)).

(** [update_build_badge]: the badge is copied for commit tests of the main
    repository. *)
Definition update_build_badge (config : Config) (db : Db) (state : Status)
    (test : Test.t) : result (list Action) :=
  if decide (Test.test_type test = TestType.commit) then
    match test_fork db test with
    | None => Raise db AttributeError
    | Some fork =>
        if is_main_repo config (Fork.github fork)
        then Ok db [UpdateBuildBadge state (Test.id test)]
        else Ok db []
    end
  else Ok db [].

(** Lines 955-961: the outcome of a completed test. *)
Definition outcome (db : Db) (test : Test.t) : Status * string :=
  if (0 <? Z.of_nat (crashes db test)) || (0 <? Z.of_nat (mismatches db test))
  then (FAILURE, "Not all tests completed successfully, please check")
  else (SUCCESS, "Tests completed").

(** Lines 922-967: the state and message posted for a status, and the calls
    made on the way. *)
Definition final_state (config : Config) (db : Db) (test : Test.t)
    (status : TestStatus) (progress : TestProgress.t)
    : result (Status * string * list Action) :=
  if decide (status = canceled) then
    Ok db (ERROR, "Tests aborted due to an error; please check", [])
  else if decide (status = completed) then
    let '(state, message) := outcome db test in
    let comment :=
      if decide (Test.test_type test = TestType.pull_request)
      then [CommentPr (Test.id test) state (Test.pr_nr test) (platform_value (Test.platform test))]
      else [] in
    bind (update_build_badge config db state test)
         (fun db badge => Ok db (state, message, comment ++ badge))
  else Ok db (PENDING, TestProgress.message progress, []).

Definition progress_type_request `{ProgressStep} (config : Config) (db : Db)
    (test : Test.t) (request : Request) (now : Z) (stamp : datetime.t)
    : result (bool * list Action) :=
  bind (record_progress db test request now stamp) (fun db recorded =>
  match recorded with
  | None => Ok db (false, [])
  | Some (status, progress) =>
      bind (update_fetch_commit config db test status) (fun db _ =>
      bind (if is_terminal status then finish_test db test else Ok db tt) (fun db _ =>
      bind (final_state config db test status progress) (fun db '(state, message, calls) =>
      let context := ("CI - " ++ platform_value (Test.platform test))%string in
      let post := GithubStatus (Test.commit test) state message context (Test.id test) in
      Ok db (true, calls ++ [post]
                   ++ if is_terminal status
                      then [StartPlatforms 60 (Test.platform test)] else []))))
  end).

(** ** The other request types and the dispatcher: [progress_reporter] *)

Definition equality_type_request (db : Db) (test : Test.t) (request : Request)
    : result unit :=
  match form_test_id request, form_test_file_id request with
  | Some rt_id, Some test_file_id =>
      let rto := query_first (fun o => RegressionTestOutput.id o =? test_file_id)
                             (regression_outputs db) in
      match rto with
      | None =>
          (* Equality posted on a file that's ignored presumably *)
          Ok db tt
      | Some rto =>
          let result_file :=
            TestResultFile.mk (Test.id test) rt_id (RegressionTestOutput.id rto)
                              (RegressionTestOutput.correct rto) None in
          Ok (with_result_files db (result_files db ++ [result_file])) tt
      end
  | _, _ => Raise db KeyError
  end.

(** The log file is stored on disk; the job store is not touched. *)
Definition upload_log_type_request (db : Db) (test : Test.t) (request : Request)
    : result bool :=
  match file request with
  | Some filename => if String.eqb filename "" then Ok db false else Ok db true
  | None => Ok db false
  end.

Definition upload_type_request (db : Db) (test : Test.t) (request : Request)
    : result bool :=
  match form_test_id request, form_test_file_id request with
  | Some rt_id, Some test_file_id =>
      match file request with
      | Some filename =>
          if String.eqb filename "" then Ok db false else
          let rto := query_first (fun o => RegressionTestOutput.id o =? test_file_id)
                                 (regression_outputs db) in
          match rto with
          | None => Raise db AttributeError
          | Some rto =>
              let result_file :=
                TestResultFile.mk (Test.id test) rt_id (RegressionTestOutput.id rto)
                                  (RegressionTestOutput.correct rto)
                                  (Some (file_sha256 request)) in
              Ok (with_result_files db (result_files db ++ [result_file])) true
          end
      | None => Ok db false
      end
  | _, _ => Raise db KeyError
  end.

Definition with_results (db : Db) (v : list TestResult.t) : Db :=
  mkDb (tests db) (progress db) (kvm db) (forks db) (maintenance db) (categories db)
       (customized db) (regression_tests db) (regression_outputs db) v
       (result_files db) (general_data db).

(** A second result for the same test and regression test violates the key
    of [TestResult].  The commit of the session then raises
    [sqlalchemy.exc.IntegrityError]; the [except] clause names
    [pymysql.err.IntegrityError] (line 20), another class, so that the
    error leaves the handler. *)
Definition finish_type_request (db : Db) (test : Test.t) (request : Request)
    : result unit :=
  match form_test_id request with
  | None => Raise db KeyError
  | Some rt_id =>
      match query_first (fun rt => RegressionTest.id rt =? rt_id) (regression_tests db) with
      | None => Raise db AttributeError
      | Some regression_test =>
          match form_runTime request, form_exitCode request with
          | Some run_time, Some exit_code =>
              let result :=
                TestResult.mk (Test.id test) (RegressionTest.id regression_test) run_time
                              exit_code (RegressionTest.expected_rc regression_test) in
              let duplicate :=
                existsb (fun r => (TestResult.test_id r =? Test.id test)
                                  && (TestResult.regression_test_id r
                                      =? RegressionTest.id regression_test))
                        (results db) in
              if duplicate then Raise db IntegrityError
              else Ok (with_results db (results db ++ [result])) tt
          | _, _ => Raise db KeyError
          end
      end
  end.

(** The body of the HTTP response. *)
Inductive Response := OK | FAIL | EMPTY.

Definition progress_reporter `{ProgressStep} (config : Config) (db : Db)
    (test_id : Z) (token : string) (request : Request) (now : Z) (stamp : datetime.t)
    : result (Response * list Action) :=
  match query_first (fun t => Test.id t =? test_id) (tests db) with
  | Some test =>
      if String.eqb (Test.token test) token then
        match form_type request with
        | Some type =>
            if String.eqb type "progress" then
              bind (progress_type_request config db test request now stamp)
                   (fun db '(accepted, calls) =>
                      if accepted : bool then Ok db (OK, calls) else Ok db (FAIL, calls))
            else if String.eqb type "equality" then
              bind (equality_type_request db test request) (fun db _ => Ok db (OK, []))
            else if String.eqb type "logupload" then
              bind (upload_log_type_request db test request)
                   (fun db stored => if stored : bool then Ok db (OK, []) else Ok db (EMPTY, []))
            else if String.eqb type "upload" then
              bind (upload_type_request db test request)
                   (fun db stored => if stored : bool then Ok db (OK, []) else Ok db (EMPTY, []))
            else if String.eqb type "finish" then
              bind (finish_type_request db test request) (fun db _ => Ok db (OK, []))
            else Ok db (FAIL, [])
        | None => Ok db (FAIL, [])
        end
      else Ok db (FAIL, [])
  | None => Ok db (FAIL, [])
  end.

(** ** The scheduler: the decision phase of [kvm_processor]

    What the pass observes of the hypervisor and of the clock. *)
Record VmEnv := mkVmEnv {
  conn_open : bool;          (* libvirt.open returned a connection *)
  vm_found : bool;           (* conn.lookupByName found the machine *)
  vm_shutoff : bool;         (* vm.info()[0] == VIR_DOMAIN_SHUTOFF *)
  destroy_result : Z;        (* what vm.destroy() returns *)
  now : Z;                   (* datetime.datetime.now() *)
  stamp : datetime.t         (* default timestamp of a new TestProgress *)
}.

(** Why a pass returned without launching. *)
Inductive Stop :=
  | KvmNameEmpty | InMaintenance | NoConnection | NoVm
  | ShutdownFailed | NotExpired | NoTests | InvalidTest.

(** The pass returns, or goes on to revert the snapshot and prepare the
    machine for a test. *)
Inductive Pass := Return (why : Stop) | Prepare (test : Test.t).

(** [timedelta(minutes=m)] *)
Definition minutes (m : Z) : Z := m * 60000000.

(** Lines 153-175: the machine is running.  [status.test.id] is the
    [test_id] of the entry, a foreign key. *)
Definition check_running (config : Config) (db : Db) (kvm_name : string)
    (env : VmEnv) : Db * list Action * option Stop :=
  let named := fun k => String.eqb (Kvm.name k) kvm_name in
  match query_first named (kvm db) with
  | Some status =>
      if minutes (KVM_MAX_RUNTIME config) <=? now env - Kvm.timestamp status then
        let test_progress :=
          TestProgress.mk (Kvm.test_id status) canceled "Runtime exceeded" (stamp env) in
        let db' := with_kvm (add_progress db test_progress) (delete_first named (kvm db)) in
        if destroy_result env =? -1
        then (db', [VmDestroy], Some ShutdownFailed)
        else (db', [VmDestroy], None)
      else (db, [], Some NotExpired)
  | None =>
      (* No task, but VM is running! Hard reset necessary *)
      if destroy_result env =? -1
      then (db, [VmDestroy], Some ShutdownFailed)
      else (db, [VmDestroy], None)
  end.

(** Lines 177-182: a Kvm entry left for a machine that is off is deleted. *)
Definition drop_stale_entry (db : Db) (kvm_name : string) : Db :=
  let named := fun k => String.eqb (Kvm.name k) kvm_name in
  match query_first named (kvm db) with
  | Some _ => with_kvm db (delete_first named (kvm db))
  | None => db
  end.

(** [Fork.github.like('%' + tail)]: the URL ends with [tail].  The names in
    the pattern are taken to hold no wildcard. *)
Definition like_suffix (tail s : string) : bool :=
  String.prefix (String.rev tail) (String.rev s).

(** [Test.id.asc()] *)
Definition id_asc (a b : Test.t) : Prop := Test.id a <= Test.id b.

#[global] Instance id_asc_dec : RelDecision id_asc.
Proof. intros a b. unfold id_asc. apply _. Defined.

(** [query.order_by(Test.id.asc()).first()] *)
Definition oldest (rows : list Test.t) : option Test.t :=
  head (merge_sort id_asc rows).

(** Lines 185-187 *)
Definition finished_tests (db : Db) : list Z :=
  map TestProgress.test_id
      (List.filter (fun p => is_terminal (TestProgress.status p)) (progress db)).

Definition eligible (db : Db) (platform : TestPlatform) (t : Test.t) : bool :=
  negb (in_ids (Test.id t) (finished_tests db))
  && bool_decide (Test.platform t = platform).

(** Lines 184-196: the oldest unfinished test of the platform, one of the
    main repository if there is any. *)
Definition select_test (config : Config) (db : Db) (platform : TestPlatform)
    : result (option Test.t) :=
  let fork_location :=
    ("/" ++ repository_owner config ++ "/" ++ repository config ++ ".git")%string in
  match query_first (fun f => like_suffix fork_location (Fork.github f)) (forks db) with
  | None => Raise db AttributeError
  | Some fork =>
      let test :=
        oldest (List.filter (fun t => eligible db platform t
                                      && (Test.fork_id t =? Fork.id fork)) (tests db)) in
      match test with
      | Some test => Ok db (Some test)
      | None => Ok db (oldest (List.filter (eligible db platform) (tests db)))
      end
  end.

(** Lines 184-206: selection, and the removal of an invalid test. *)
Definition select_step (config : Config) (db : Db) (platform : TestPlatform)
    : result Pass :=
  bind (select_test config db platform) (fun db test =>
  match test with
  | None => Ok db (Return NoTests)
  | Some test =>
      if bool_decide (Test.test_type test = TestType.pull_request) && (Test.pr_nr test =? 0)
      then Ok (with_tests db (List.filter (fun t => negb (Test.id t =? Test.id test)) (tests db)))
              (Return InvalidTest)
      else Ok db (Prepare test)
  end).

(** Lines 128-206 of [kvm_processor]: the calls made on the hypervisor, and
    how the pass ends. *)
Definition kvm_processor (config : Config) (db : Db) (kvm_name : string)
    (platform : TestPlatform) (env : VmEnv) : list Action * result Pass :=
  if String.eqb kvm_name "" then ([], Ok db (Return KvmNameEmpty)) else
  let maintenance_mode :=
    query_first (fun m => bool_decide (MaintenanceMode.platform m = platform))
                (maintenance db) in
  if match maintenance_mode with Some m => MaintenanceMode.disabled m | None => false end
  then ([], Ok db (Return InMaintenance)) else
  if negb (conn_open env) then ([], Ok db (Return NoConnection)) else
  if negb (vm_found env) then ([], Ok db (Return NoVm)) else
  let '(db, calls, stop) :=
    if vm_shutoff env then (db, [], None) else check_running config db kvm_name env in
  match stop with
  | Some why => (calls, Ok db (Return why))
  | None => (calls, select_step config (drop_stale_entry db kvm_name) platform)
  end.

(** ** The manifest: the reference file of an output (lines 231-296)

    [filename_correct], [create_correct_filename] and [filename_expected]
    are methods of [RegressionTestOutput] in mod_regression.models; the
    manifest records which one is called, and on what. *)
Inductive reference :=
  | filename_correct (output_file : RegressionTestOutput.t)
  | create_correct_filename (output_file : RegressionTestOutput.t) (got : string).

Record FileNode := mkFileNode {
  file_ignore : bool;
  file_id : Z;
  file_correct : reference;
  file_expected : string        (* the sha given to filename_expected *)
}.

Record Entry := mkEntry {
  entry_id : Z;
  entry_command : string;
  entry_input_type : string;
  entry_input : string;
  entry_output : string;
  entry_compare : list FileNode
}.

(** [regression_test.output_files] *)
Definition output_files (db : Db) (regression_test : RegressionTest.t)
    : list RegressionTestOutput.t :=
  List.filter (fun o => RegressionTestOutput.regression_id o =? RegressionTest.id regression_test)
              (regression_outputs db).

(** Lines 266-284: the [correct] node of an output file. *)
Definition correct_reference (db : Db) (last_commit : Test.t)
    (regression_test : RegressionTest.t) (output_file : RegressionTestOutput.t)
    : reference :=
  let last_files :=
    List.filter (fun f => (TestResultFile.test_id f =? Test.id last_commit)
                          && (TestResultFile.regression_test_id f
                              =? RegressionTest.id regression_test))
                (result_files db) in
  let last_commit_files :=
    head (omap (fun f => if TestResultFile.regression_test_output_id f
                            =? RegressionTestOutput.id output_file
                         then TestResultFile.got f else None)
               last_files) in
  match last_commit_files with
  | None => filename_correct output_file
  | Some got => create_correct_filename output_file got
  end.

Definition manifest_entry (db : Db) (last_commit : Test.t)
    (regression_test : RegressionTest.t) : Entry :=
  mkEntry (RegressionTest.id regression_test)
          (RegressionTest.command regression_test)
          (RegressionTest.input_type regression_test)
          (RegressionTest.sample_filename regression_test)
          (RegressionTest.output_type regression_test)
          (map (fun output_file =>
                  mkFileNode (RegressionTestOutput.ignore output_file)
                             (RegressionTestOutput.id output_file)
                             (correct_reference db last_commit regression_test output_file)
                             (RegressionTest.sample_sha regression_test))
               (output_files db regression_test)).

(** [category.regression_tests] *)
Definition category_tests (db : Db) (category : Category.t) : list RegressionTest.t :=
  List.filter (fun rt => in_ids (RegressionTest.id rt) (Category.regression_ids category))
              (regression_tests db).

(** Modelled from the spec: [Test.get_customized_regressiontests] is defined
    in mod_test.models; it gives the customization scope of the test, the
    regression tests selected for it when it was created (section 4.2). *)
Definition get_customized_regressiontests (db : Db) (test : Test.t) : list Z :=
  map CustomizedTest.regression_id
      (List.filter (fun c => CustomizedTest.test_id c =? Test.id test) (customized db)).

(** [Category.id.desc()] *)
Definition id_desc (a b : Category.t) : Prop := Category.id b <= Category.id a.

#[global] Instance id_desc_dec : RelDecision id_desc.
Proof. intros a b. unfold id_desc. apply _. Defined.

(** The per-category files of the manifest, in the order of TestAll.xml. *)
Definition manifest (db : Db) (platform : TestPlatform) (test : Test.t)
    : result (list (string * list Entry)) :=
  let categories :=
    merge_sort id_desc (categories db) in
  let commit_name := ("fetch_commit_" ++ platform_value platform)%string in
  match general_data db !! commit_name with
  | None => Raise db AttributeError
  | Some commit_hash =>
      match query_first (fun t => value_is_text commit_hash (Test.commit t)
                                  && bool_decide (Test.platform t = platform)) (tests db) with
      | None => Raise db AttributeError
      | Some last_commit =>
          let regression_ids := get_customized_regressiontests db test in
          Ok db
             (omap (fun category =>
                      let in_scope :=
                        List.filter (fun rt => in_ids (RegressionTest.id rt) regression_ids)
                                    (category_tests db category) in
                      match in_scope with
                      | [] => None
                      | _ => Some ((Category.name category ++ ".xml")%string,
                                   map (manifest_entry db last_commit) in_scope)
                      end)
                   categories)
      end
  end.

(** ** The webhook: a closed pull request (lines 628-643 of [start_ci]) *)

(** The event and the status that the handler produces for a test. *)
Definition pr_closed_event (now : Z) (test : Test.t) : TestProgress.t :=
  TestProgress.mk (Test.id test) canceled "PR closed" (datetime.naive now).

Definition pr_closed_status (test : Test.t) : Action :=
  GithubStatus (Test.commit test) FAILURE "Tests canceled"
               ("CI - " ++ platform_value (Test.platform test))%string (Test.id test).

(** The loop over the tests of the pull request.  The events are added to
    the session, which the handler does not commit: they are returned as
    pending rows.  A pending row is visible to the queries that follow it
    (the session flushes before a query).  Posting a status can fail;
    [post_ok] tells for which tests it succeeds. *)
Fixpoint cancel_unstarted (db : Db) (post_ok : Test.t -> bool) (now : Z)
    (tests : list Test.t) (pending : list TestProgress.t) (calls : list Action)
    : list TestProgress.t * list Action * option PyError :=
  match tests with
  | [] => (pending, calls, None)
  | test :: rest =>
      (* Add cancelled status only if the test hasn't started yet *)
      if (0 <? Z.of_nat (length (test_progress (add_progress_all db pending) (Test.id test))))
      then cancel_unstarted db post_ok now rest pending calls
      else
        let pending := pending ++ [pr_closed_event now test] in
        if post_ok test
        then cancel_unstarted db post_ok now rest pending (calls ++ [pr_closed_status test])
        else (pending, calls, Some ApiError)
  end.

Definition pull_request_closed (db : Db) (pr_nr : Z) (post_ok : Test.t -> bool) (now : Z)
    : list TestProgress.t * list Action * option PyError :=
  let tests := List.filter (fun t => Test.pr_nr t =? pr_nr) (tests db) in
  cancel_unstarted db post_ok now tests [] [].

(** ** Two readings of the progress steps

    Both satisfy [ProgressStepSpec].  In the first the step of a status is
    the status itself, compared by its position in the enumeration. *)
Definition position (s : TestStatus) : Z :=
  match s with
  | preparation => 0 | building => 1 | testing => 2 | completed => 3 | canceled => 4
  end.

Definition member_steps : ProgressStep := {|
  Step := TestStatus;
  progress_step := fun s => s;
  step_eq := fun a b => bool_decide (a = b);
  step_lt := fun a b => position a <? position b;
  step_gt := fun a b => position b <? position a
|}.

(** Modelled from the spec: [TestStatus.progress_step] gives the rank of a
    status (section 4.3: preparation(0) < building(1) < testing(2) <
    completed(3)), a number, which is never equal to a member of the
    enumeration (section 8, scenario T2: a report of [building] that
    arrives after [completed] is recorded as canceled).  [canceled] has no
    rank; its step is taken below every rank. *)
Definition index_steps : ProgressStep := {|
  Step := Z;
  progress_step := fun s => default (-1) (rank s);
  step_eq := fun _ _ => false;
  step_lt := Z.ltb;
  step_gt := fun a b => b <? a
|}.

(** ** Sample data *)

Definition sample_config : Config := mkConfig "CCExtractor" "ccextractor" 120.

Definition main_fork : Fork.t := Fork.mk 1 "https://github.com/CCExtractor/ccextractor.git".
Definition user_fork : Fork.t := Fork.mk 2 "https://github.com/someone/ccextractor.git".

Definition sample_test (id : Z) (platform : TestPlatform) (type : TestType.t)
    (fork_id pr_nr : Z) : Test.t :=
  Test.mk id platform type fork_id "master" "abcdef" pr_nr "secret".

Definition progress_request (status message : string) : Request :=
  mkRequest (Some "progress") (Some status) (Some message) None None None None None "".

Definition equality_request (test_id test_file_id : Z) : Request :=
  mkRequest (Some "equality") None None (Some test_id) (Some test_file_id) None None None "".

Definition event (test_id : Z) (status : TestStatus) (wall : Z) : TestProgress.t :=
  TestProgress.mk test_id status "" (datetime.naive wall).

Definition status_target (call : Action) : option Z :=
  match call with GithubStatus _ _ _ _ target => Some target | _ => None end.

(** A store with one pull request (number 12) tested on both platforms, the
    Linux test already started, and one output file known. *)
Definition pr_db : Db :=
  mkDb [sample_test 1 linux TestType.pull_request 2 12;
        sample_test 2 windows TestType.pull_request 2 12]
       [event 1 preparation 0] [] [main_fork; user_fork] [] [] []
       [RegressionTest.mk 5 "-out=srt" "file" "file" "sample.ts" "sha" 0]
       [RegressionTestOutput.mk 9 5 "cafe" false] [] [] ∅.


(** ** Notions used in the statements *)

(** The tables that the progress ingestor only reads. *)
Definition catalog (db : Db) :=
  (tests db, forks db, maintenance db, categories db, customized db,
   regression_tests db, regression_outputs db, results db, result_files db).

(** A result of the test whose exit code is not the expected one. *)
Definition crashed (db : Db) (test : Test.t) : Prop :=
  exists r, r ∈ results db /\ TestResult.test_id r = Test.id test
            /\ TestResult.exit_code r <> TestResult.expected_rc r.

(** A result file of the test with a non-null [got], for a regression test
    whose expected exit code is 0. *)
Definition mismatched (db : Db) (test : Test.t) : Prop :=
  exists f, f ∈ result_files db /\ TestResultFile.test_id f = Test.id test
            /\ TestResultFile.got f <> None
            /\ exists rt, rt ∈ regression_tests db
                          /\ RegressionTest.id rt = TestResultFile.regression_test_id f
                          /\ RegressionTest.expected_rc rt = 0.

(** A completed test with no result at all, and one with a mismatch. *)
Definition clean_db : Db :=
  mkDb [sample_test 7 linux TestType.pull_request 2 12]
       [event 7 preparation 0; event 7 building 10; event 7 testing 20]
       [] [main_fork; user_fork] [] [] []
       [RegressionTest.mk 5 "-out=srt" "file" "file" "sample.ts" "sha" 0]
       [RegressionTestOutput.mk 9 5 "cafe" false] [] [] ∅.

Definition mismatch_db : Db :=
  with_result_files clean_db [TestResultFile.mk 7 5 9 "cafe" (Some "beef")].







(** A store whose pinned Linux commit is that of test 3, which recorded one
    passing file, resp. one differing file, for output 9 of regression
    test 5; test 7 is a later test with that regression test in scope. *)
Definition rt5 : RegressionTest.t :=
  RegressionTest.mk 5 "-out=srt" "file" "file" "sample.ts" "sha" 0.

Definition out9 : RegressionTestOutput.t := RegressionTestOutput.mk 9 5 "cafe" false.

Definition baseline_test : Test.t :=
  Test.mk 3 linux TestType.commit 1 "master" "c0ffee" 0 "secret3".

Definition manifest_db (got : option string) : Db :=
  mkDb [baseline_test; sample_test 7 linux TestType.pull_request 2 12]
       [event 3 preparation 0; event 3 completed 10]
       [] [main_fork; user_fork] [] [Category.mk 1 "General" [5]]
       [CustomizedTest.mk 7 5] [rt5] [out9] [] [TestResultFile.mk 3 5 9 "cafe" got]
       (<["fetch_commit_linux" := Text "c0ffee"]> ∅).

(** No event of the test has a terminal status. *)
Definition unfinished (db : Db) (t : Test.t) : Prop :=
  forall e, e ∈ progress db -> TestProgress.test_id e = Test.id t ->
            TestProgress.status e <> completed /\ TestProgress.status e <> canceled.

(** A test that the scheduler may pick for the platform. *)
Definition candidate (db : Db) (platform : TestPlatform) (t : Test.t) : Prop :=
  t ∈ tests db /\ Test.platform t = platform /\ unfinished db t.

(** A queue for Linux: test 4 of a fork, test 5 of the main repository,
    test 3 finished; the machine is running test 5 since instant 0. *)
Definition queue_db : Db :=
  mkDb [sample_test 3 linux TestType.commit 1 0; sample_test 4 linux TestType.pull_request 2 12;
        sample_test 5 linux TestType.commit 1 0; sample_test 6 windows TestType.commit 1 0]
       [event 3 preparation 0; event 3 completed 10; event 5 preparation 20]
       [Kvm.mk "linux-vm" 5 0 None None] [user_fork; main_fork] [] [] [] [] [] [] [] ∅.

Definition running_env (now : Z) : VmEnv :=
  mkVmEnv true true false 0 now (datetime.naive now).

(** The cancellation recorded for an entry whose run time is exceeded. *)
Definition runtime_exceeded (status : Kvm.t) (env : VmEnv) : TestProgress.t :=
  TestProgress.mk (Kvm.test_id status) canceled "Runtime exceeded" (stamp env).

(** The statuses recorded for a test, oldest first. *)
Definition statuses (db : Db) (test_id : Z) : list TestStatus :=
  map TestProgress.status (test_progress db test_id).

(** A terminal status is followed by nothing. *)
Definition closed_at_end (l : list TestStatus) : Prop :=
  forall before s after, l = before ++ s :: after -> is_terminal s = true -> after = [].

(** A test that has reached [testing], and one that is completed. *)
Definition testing_db : Db :=
  mkDb [sample_test 7 linux TestType.pull_request 2 12]
       [event 7 preparation 0; event 7 building 10; event 7 testing 20]
       [Kvm.mk "linux-vm" 7 0 (Some 10) (Some 20)] [main_fork; user_fork]
       [] [] [] [] [] [] [] ∅.

(** A test that has only reported [preparation], with no Kvm entry. *)
Definition prepared_db : Db := with_progress clean_db [event 7 preparation 0].

Definition completed_db : Db :=
  with_progress testing_db (progress testing_db ++ [event 7 completed 30]).

(** ** Further sample data *)

(** A request that uploads a file, resp. reports the end of a regression
    test. *)
Definition upload_request (test_id test_file_id : Z) (filename digest : string) : Request :=
  mkRequest (Some "upload") None None (Some test_id) (Some test_file_id) None None
            (Some filename) digest.

Definition finish_request (test_id run_time exit_code : Z) : Request :=
  mkRequest (Some "finish") None None (Some test_id) None (Some run_time) (Some exit_code)
            None "".

(** ** Notions used in the further statements *)

(** The keys of a phase-time accumulator. *)
Definition avg_time_key (process_type : string) (platform : TestPlatform) : string :=
  ("avg_" ++ process_type ++ "_time_" ++ platform_value platform)%string.

Definition avg_count_key (process_type : string) (platform : TestPlatform) : string :=
  ("avg_" ++ process_type ++ "_count_" ++ platform_value platform)%string.

(** The sum of a list of samples. *)
Definition Qc_sum (samples : list Qc) : Qc := fold_right Qcplus 0%Qc samples.

(** The event that a report records for a test. *)
Definition reported_event (test : Test.t) (status : TestStatus) (message : string)
    (stamp : datetime.t) : TestProgress.t :=
  TestProgress.mk (Test.id test) status message stamp.

(** The Kvm entries of a test. *)
Definition for_test (test : Test.t) (k : Kvm.t) : bool := Kvm.test_id k =? Test.id test.

(** A test that has reached [preparation] on a machine started at instant
    5000000, resp. that skipped [building]. *)
Definition leased_db : Db :=
  with_kvm prepared_db [Kvm.mk "linux-vm" 7 5000000 None None].

(** The accumulator of a phase holds [n] samples: it does not exist yet, or
    its counter is [n] and it has an average. *)
Definition samples_held (db : Db) (process_type : string) (platform : TestPlatform)
    (n : Z) : Prop :=
  (n = 0 /\ general_data db !! avg_count_key process_type platform = None
   /\ general_data db !! avg_time_key process_type platform = None)
  \/ (1 <= n
      /\ general_data db !! avg_count_key process_type platform = Some (Number (Z2Qc n))
      /\ exists a, general_data db !! avg_time_key process_type platform = Some (Number a)).

(** What a Kvm entry says of the lease of a machine: the machine, the test
    and the instant the lease started. *)
Definition lease (k : Kvm.t) : string * Z * Z :=
  (Kvm.name k, Kvm.test_id k, Kvm.timestamp k).

(** The key of the pinned baseline commit of a platform. *)
Definition fetch_commit_key (platform : TestPlatform) : string :=
  ("fetch_commit_" ++ platform_value platform)%string.

(** The test that a pin names: [Test.query.filter(and_(Test.commit ==
    commit.value, Test.platform == platform)).first()]. *)
Definition pinned_test (db : Db) (platform : TestPlatform) (commit : value) : option Test.t :=
  query_first (fun t => value_is_text commit (Test.commit t)
                        && bool_decide (Test.platform t = platform)) (tests db).

Definition main_commit_db : Db :=
  with_general_data
    (with_tests clean_db [sample_test 3 linux TestType.commit 1 0;
                          Test.mk 8 linux TestType.commit 1 "master" "fedcba" 0 "tok8"])
    (<["fetch_commit_linux" := Text "abcdef"]> (general_data clean_db)).

(** A pull-request test without the number of its pull request. *)
Definition invalid (t : Test.t) : Prop :=
  Test.test_type t = TestType.pull_request /\ Test.pr_nr t = 0.

(** The platform is not in maintenance: its first row, if any, is not
    disabled. *)
Definition enabled (db : Db) (platform : TestPlatform) : Prop :=
  forall m, query_first (fun m => bool_decide (MaintenanceMode.platform m = platform))
                        (maintenance db) = Some m ->
            MaintenanceMode.disabled m = false.

(** A queue whose oldest Linux test is a pull-request test without number. *)
Definition invalid_db : Db :=
  with_tests queue_db (sample_test 2 linux TestType.pull_request 1 0 :: tests queue_db).

(** [len(test.progress) > 0] does not hold: the test has no event. *)
Definition unstarted (db : Db) (t : Test.t) : bool :=
  match test_progress db (Test.id t) with [] => true | _ :: _ => false end.

(** The tests of a pull request that have no event. *)
Definition unstarted_tests (db : Db) (pr_nr : Z) : list Test.t :=
  List.filter (unstarted db) (List.filter (fun t => Test.pr_nr t =? pr_nr) (tests db)).

(** ** The maintenance switch: [toggle_maintenance] and [in_maintenance_mode] *)

(** Modelled from the spec: [TestPlatform.from_string] is declared in
    mod_test.models; it gives the platform that the string names (the
    platforms of section 3 by their [value]) and raises [ValueError] on any
    other string. *)
Definition platform_from_string (s : string) : option TestPlatform :=
  if String.eqb s "linux" then Some linux
  else if String.eqb s "windows" then Some windows
  else None.

Definition with_maintenance (db : Db) (v : list MaintenanceMode.t) : Db :=
  mkDb (tests db) (progress db) (kvm db) (forks db) v (categories db)
       (customized db) (regression_tests db)
       (regression_outputs db) (results db) (result_files db) (general_data db).

(** [MaintenanceMode.query.filter(MaintenanceMode.platform == platform)] *)
Definition of_platform (platform : TestPlatform) (m : MaintenanceMode.t) : bool :=
  bool_decide (MaintenanceMode.platform m = platform).

(** What the JSON answer of [toggle_maintenance] says: the platform was not
    found, or the platform and whether it is in maintenance now. *)
Inductive Toggled := PlatformNotFound | InMaintenanceNow (platform : TestPlatform) (yes : bool).

(** ['success'] is [true], ['failed'] is [false]. *)
Definition toggle_maintenance (db : Db) (platform status : string) : Db * (bool * Toggled) :=
  let disabled := String.eqb status "True" in
  match platform_from_string platform with
  | None => (db, (false, PlatformNotFound))
  | Some platform =>
      match query_first (of_platform platform) (maintenance db) with
      | Some _ =>
          (with_maintenance db
             (update_first (of_platform platform)
                           (fun m => MaintenanceMode.mk (MaintenanceMode.platform m) disabled)
                           (maintenance db)),
           (true, InMaintenanceNow platform disabled))
      | None => (db, (false, PlatformNotFound))
      end
  end.

(** [str(status.disabled)] *)
Definition str_bool (b : bool) : string := if b then "True" else "False".

Definition in_maintenance_mode (db : Db) (platform : string) : Db * string :=
  match platform_from_string platform with
  | None => (db, "ERROR")
  | Some platform =>
      match query_first (of_platform platform) (maintenance db) with
      | Some status => (db, str_bool (MaintenanceMode.disabled status))
      | None =>
          (with_maintenance db (maintenance db ++ [MaintenanceMode.mk platform false]),
           str_bool false)
      end
  end.

(** ** Queueing: [queue_test] and [add_customized_regression_tests] *)

Definition with_customized (db : Db) (v : list CustomizedTest.t) : Db :=
  mkDb (tests db) (progress db) (kvm db) (forks db) (maintenance db) (categories db)
       v (regression_tests db)
       (regression_outputs db) (results db) (result_files db) (general_data db).

(** Lines 1401-1413.  [RegressionTest.active] is a column that the record
    of a regression test does not hold; it is the argument [active].  The
    rows are added and committed. *)
Definition add_customized_regression_tests (active : RegressionTest.t -> bool) (db : Db)
    (test_id : Z) : Db :=
  with_customized db
    (customized db
     ++ map (fun regression_test =>
               CustomizedTest.mk test_id (RegressionTest.id regression_test))
            (List.filter active (regression_tests db))).

(** Lines 433-485.  The ids of the two tests are given by the database when
    the tests are committed and their tokens by the constructor: they are
    arguments.  [gh_commit] tells whether a status endpoint is given; a
    failure to post is caught, so that the posts are the calls made. *)
Definition queue_test (config : Config) (active : RegressionTest.t -> bool) (db : Db)
    (gh_commit : bool) (commit : string) (test_type : TestType.t) (branch : string)
    (pr_nr : Z) (linux_id windows_id : Z) (linux_token windows_token : string)
    : result (list Action) :=
  let fork_url :=
    ("/" ++ repository_owner config ++ "/" ++ repository config ++ ".git")%string in
  match query_first (fun f => like_suffix fork_url (Fork.github f)) (forks db) with
  | None => Raise db AttributeError
  | Some fork =>
      let branch :=
        if decide (test_type = TestType.pull_request) then "pull_request" else branch in
      let linux_test :=
        Test.mk linux_id linux test_type (Fork.id fork) branch commit pr_nr linux_token in
      let windows_test :=
        Test.mk windows_id windows test_type (Fork.id fork) branch commit pr_nr
                windows_token in
      let db := with_tests db (tests db ++ [linux_test; windows_test]) in
      let db := add_customized_regression_tests active db linux_id in
      let db := add_customized_regression_tests active db windows_id in
      let post := fun platform test_id =>
        GithubStatus commit PENDING "Tests queued"
                     ("CI - " ++ platform_value platform)%string test_id in
      Ok db (if gh_commit then [post linux linux_id; post windows windows_id] else [])
  end.

(** The row of the main repository in the Fork table, as [queue_test] and
    the scheduler look it up. *)
Definition main_fork_row (config : Config) (db : Db) : option Fork.t :=
  query_first (fun f => like_suffix ("/" ++ repository_owner config ++ "/"
                                     ++ repository config ++ ".git")%string (Fork.github f))
              (forks db).

(** The test of a platform among the two that [queue_test] creates. *)
Definition queued_id (platform : TestPlatform) (linux_id windows_id : Z) : Z :=
  match platform with linux => linux_id | windows => windows_id end.

(** ** The webhook: a push (lines 579-600 of [start_ci])

    [after] is [payload['after']] when the payload has it, [ref_sha] the
    head of master that the repository reports.  The pins that are missing
    are created from the value of [last_commit] before it is updated; a
    missing [last_commit] row raises before anything is committed. *)
Definition pin_if_missing (last_commit : value) (data : gmap string value)
    (platform : TestPlatform) : gmap string value :=
  let commit_name := ("fetch_commit_" ++ platform_value platform)%string in
  match data !! commit_name with
  | None => <[commit_name := last_commit]> data
  | Some _ => data
  end.

Definition push_event (config : Config) (active : RegressionTest.t -> bool) (db : Db)
    (after : option string) (ref_sha : string) (linux_id windows_id : Z)
    (linux_token windows_token : string) : result (list Action) :=
  match after with
  | None => Ok db []
  | Some commit_hash =>
      match general_data db !! "last_commit" with
      | None => Raise db AttributeError
      | Some last_commit =>
          let data := foldl (pin_if_missing last_commit) (general_data db) [linux; windows] in
          let db := with_general_data db (<["last_commit" := Text ref_sha]> data) in
          queue_test config active db true commit_hash TestType.commit "master" 0
                     linux_id windows_id linux_token windows_token
      end
  end.

(** A store that has seen no push yet: the head of master is known, no
    commit is pinned. *)
Definition fresh_db : Db :=
  with_general_data pr_db (<["last_commit" := Text "0ld"]> ∅).

(** ** Blocked users: [blocked_users] and the opened pull request

    Modelled from the spec: [BlockedUsers] is declared in mod_ci.models; a
    row holds the id of the user and a comment.  The table is kept beside
    the job store. *)
Module BlockedUsers.
Record t := mk { user_id : Z; comment : string }.
End BlockedUsers.

(** [BlockedUsers.query.filter(BlockedUsers.user_id == user_id).first()] *)
Definition blocked_row (blocked : list BlockedUsers.t) (user_id : Z)
    : option BlockedUsers.t :=
  query_first (fun u => BlockedUsers.user_id u =? user_id) blocked.

(** How the handler of an opened, synchronized or reopened pull request
    ends (lines 606-626 of [start_ci]): without a head commit, on a blocked
    user after the error status is posted on the commit, or with the tests
    queued. *)
Inductive Opened :=
  | NoHeadSha
  | UserBlocked (commit : string) (description : string)
  | TestsQueued (calls : list Action).

(** [head_sha] is [payload['pull_request']['head']['sha']] when the payload
    has it; [post_ok] tells whether the error status can be posted (the
    error of a failed post is not caught). *)
Definition pull_request_opened (config : Config) (active : RegressionTest.t -> bool)
    (db : Db) (blocked : list BlockedUsers.t) (head_sha : option string)
    (user_id pr_nr : Z) (post_ok : bool) (linux_id windows_id : Z)
    (linux_token windows_token : string) : result Opened :=
  match head_sha with
  | None => Ok db NoHeadSha
  | Some commit_hash =>
      match blocked_row blocked user_id with
      | Some _ =>
          if post_ok
          then Ok db (UserBlocked commit_hash
                        "CI start aborted. You may be blocked from accessing this functionality")
          else Raise db ApiError
      | None =>
          bind (queue_test config active db true commit_hash TestType.pull_request "master"
                           pr_nr linux_id windows_id linux_token windows_token)
               (fun db calls => Ok db (TestsQueued calls))
      end
  end.

(** An open pull request as the repository lists it: [pull['user']['id']]
    and [pull['number']]. *)
Record Pull := mkPull { pull_user : Z; pull_number : Z }.

Definition blacklisted_status (test : Test.t) : Action :=
  GithubStatus (Test.commit test) FAILURE "Tests canceled since user blacklisted"
               ("CI - " ++ platform_value (Test.platform test))%string (Test.id test).

(** Lines 1284-1300: the tests of one pull request.  Each event is
    committed when it is added; a failure to post the status is caught, so
    that the posts are the calls made. *)
Fixpoint cancel_queued (db : Db) (now : Z) (tests : list Test.t) (calls : list Action)
    : Db * list Action :=
  match tests with
  | [] => (db, calls)
  | test :: rest =>
      (* Add canceled status only if the test hasn't started yet *)
      if (0 <? Z.of_nat (length (test_progress db (Test.id test))))
      then cancel_queued db now rest calls
      else cancel_queued (add_progress db (pr_closed_event now test)) now rest
                         (calls ++ [blacklisted_status test])
  end.

(** Lines 1280-1300: the pull requests of the repository. *)
Fixpoint cancel_pulls (db : Db) (user_id : Z) (now : Z) (pulls : list Pull)
    (calls : list Action) : Db * list Action :=
  match pulls with
  | [] => (db, calls)
  | pull :: rest =>
      if negb (pull_user pull =? user_id) then cancel_pulls db user_id now rest calls
      else
        let tests := List.filter (fun t => Test.pr_nr t =? pull_number pull) (tests db) in
        let '(db, calls) := cancel_queued db now tests calls in
        cancel_pulls db user_id now rest calls
  end.

(** What is flashed to the administrator. *)
Inductive Flash := AlreadyBlocked | BlockedNow | NoSuchUser | RemovedNow.

(** Lines 1264-1304: the form that adds a user, when it validates.
    [pulls] is the list of pull requests of the repository, or [None] when
    fetching it fails (the error is caught). *)
Definition add_blocked_user (db : Db) (blocked : list BlockedUsers.t)
    (user_id : Z) (comment : string) (pulls : option (list Pull)) (now : Z)
    : Db * list BlockedUsers.t * Flash * list Action :=
  match blocked_row blocked user_id with
  | Some _ => (db, blocked, AlreadyBlocked, [])
  | None =>
      let blocked := blocked ++ [BlockedUsers.mk user_id comment] in
      match pulls with
      | None => (db, blocked, BlockedNow, [])
      | Some pulls =>
          let '(db, calls) := cancel_pulls db user_id now pulls [] in
          (db, blocked, BlockedNow, calls)
      end
  end.

(** Lines 1306-1317: the form that removes a user, when it validates. *)
Definition remove_blocked_user (blocked : list BlockedUsers.t) (user_id : Z)
    : list BlockedUsers.t * Flash :=
  match blocked_row blocked user_id with
  | None => (blocked, NoSuchUser)
  | Some _ => (delete_first (fun u => BlockedUsers.user_id u =? user_id) blocked, RemovedNow)
  end.

(** The tests canceled for a blocked user: the store gets their
    cancellation events, and a status is posted for each. *)
Definition canceled_for (db : Db) (now : Z) (new : list Test.t) : Db :=
  add_progress_all db (map (pr_closed_event now) new).

(** * Properties *)

(** ** Queries *)

Lemma query_first_Some {A : Type} (p : A -> bool) (rows : list A) (x : A) :
  query_first p rows = Some x -> x ∈ rows /\ p x = true.
Proof.
  unfold query_first. intros Hx.
  assert (Hin : In x (List.filter p rows)).
  { destruct (List.filter p rows); simplify_eq/=. by left. }
  apply filter_In in Hin as [Hin Hp]. by rewrite list_elem_of_In.
Qed.

Lemma query_first_None {A : Type} (p : A -> bool) (rows : list A) :
  query_first p rows = None <-> forall x, x ∈ rows -> p x = false.
Proof.
  unfold query_first. split.
  - intros Hnone x Hx. destruct (p x) eqn:Hp; [|done].
    assert (Hin : In x (List.filter p rows)).
    { apply filter_In. by rewrite <- list_elem_of_In. }
    destruct (List.filter p rows); [done|discriminate].
  - intros Hall. destruct (List.filter p rows) as [|x l] eqn:Hf; [done|].
    assert (Hin : In x (List.filter p rows)) by (rewrite Hf; by left).
    apply filter_In in Hin as [Hin Hp]. rewrite Hall in Hp; [done|].
    by apply list_elem_of_In.
Qed.

Lemma query_first_is_Some {A : Type} (p : A -> bool) (rows : list A) (x : A) :
  x ∈ rows -> p x = true -> exists y, query_first p rows = Some y.
Proof.
  intros Hx Hp. destruct (query_first p rows) as [y|] eqn:Hq; [by exists y|].
  rewrite query_first_None in Hq. rewrite (Hq x Hx) in Hp. discriminate.
Qed.

Lemma elem_of_filter_bool {A : Type} (p : A -> bool) (rows : list A) (x : A) :
  x ∈ List.filter p rows <-> x ∈ rows /\ p x = true.
Proof. rewrite !list_elem_of_In. apply filter_In. Qed.

Lemma in_ids_spec (x : Z) (ids : list Z) : in_ids x ids = true <-> x ∈ ids.
Proof.
  unfold in_ids. rewrite existsb_exists. split.
  - intros (y & Hy & Heq). apply Z.eqb_eq in Heq. subst. by apply list_elem_of_In.
  - intros Hx. exists x. split; [by apply list_elem_of_In|apply Z.eqb_refl].
Qed.

(** ** Numbers *)

Lemma Z2Qc_this (z : Z) : this (Z2Qc z) = inject_Z z.
Proof. unfold Z2Qc, Q2Qc. simpl. apply Qred_identity. cbn. apply Z.gcd_1_r. Qed.

Lemma int_of_value_Z2Qc (z : Z) : int_of_value (Number (Z2Qc z)) = Some z.
Proof. unfold int_of_value. by rewrite Z2Qc_this. Qed.


(** ** The phase-time accumulator *)

(** What one later call stores: the new sample joins the stored average
    after the latter has been cut to an integer. *)
Lemma set_avg_time_update (db : Db) (platform : TestPlatform) (process_type : string)
    (time_taken average : Qc) (n : Z) :
  let val_key := ("avg_" ++ process_type ++ "_time_" ++ platform_value platform)%string in
  let count_key := ("avg_" ++ process_type ++ "_count_" ++ platform_value platform)%string in
  general_data db !! count_key = Some (Number (Z2Qc n)) ->
  general_data db !! val_key = Some (Number average) ->
  n + 1 <> 0 ->
  set_avg_time db platform process_type time_taken =
    Ok (with_general_data db
          (<[val_key := Number ((Z2Qc (int_of_float average) * Z2Qc n + time_taken)
                                / Z2Qc (n + 1))%Qc]>
             (<[count_key := Number (Z2Qc (n + 1))]> (general_data db)))) tt.
Proof.
  intros val_key count_key Hcount Hval Hn. unfold set_avg_time.
  fold val_key count_key. rewrite Hcount, Hval, int_of_value_Z2Qc. simpl.
  by destruct (decide (n + 1 = 0)).
Qed.

Lemma int_of_float_Z2Qc (z : Z) : int_of_float (Z2Qc z) = z.
Proof. unfold int_of_float. rewrite Z2Qc_this. simpl. apply Z.quot_1_r. Qed.

(** When the stored average is an integer, the call is a step of the
    running mean. *)
Lemma set_avg_time_integer_average (db : Db) (platform : TestPlatform)
    (process_type : string) (time_taken : Qc) (m n : Z) :
  let val_key := ("avg_" ++ process_type ++ "_time_" ++ platform_value platform)%string in
  let count_key := ("avg_" ++ process_type ++ "_count_" ++ platform_value platform)%string in
  general_data db !! count_key = Some (Number (Z2Qc n)) ->
  general_data db !! val_key = Some (Number (Z2Qc m)) ->
  n + 1 <> 0 ->
  set_avg_time db platform process_type time_taken =
    Ok (with_general_data db
          (<[val_key := Number ((Z2Qc m * Z2Qc n + time_taken) / Z2Qc (n + 1))%Qc]>
             (<[count_key := Number (Z2Qc (n + 1))]> (general_data db)))) tt.
Proof.
  intros val_key count_key Hcount Hval Hn.
  rewrite (set_avg_time_update db platform process_type time_taken (Z2Qc m) n Hcount Hval Hn).
  by rewrite int_of_float_Z2Qc.
Qed.

(** C2: feeding the samples 1, 2, 3 to the preparation-time accumulator of a
    fresh store leaves the average 5/3 with counter 3, not the mean 2 of the
    samples: the stored average 3/2 was cut to 1 by [int(float(...))] before
    the third sample was added. *)
Theorem set_avg_time_truncates_stored_average :
  exists db,
    feed_samples empty_db linux "prep" [Z2Qc 1; Z2Qc 2; Z2Qc 3] = Ok db tt
    /\ general_data db !! "avg_prep_time_linux" = Some (Number (Q2Qc (5 # 3)))
    /\ general_data db !! "avg_prep_count_linux" = Some (Number (Z2Qc 3))
    /\ Q2Qc (5 # 3) <> ((Z2Qc 1 + Z2Qc 2 + Z2Qc 3) / Z2Qc 3)%Qc.
Proof.
  eexists. split; [vm_compute; reflexivity|].
  split; [reflexivity|]. split; [reflexivity|].
  intros Heq. apply (f_equal this) in Heq. vm_compute in Heq. discriminate.
Qed.

(** ** Equality reports *)

(** C10: an authenticated equality report whose [test_file_id] matches no
    regression-test output changes nothing in the store and is answered
    [OK]; a report whose output is known is answered [OK] as well, after one
    result file with a null [got] has been added. *)
Theorem equality_for_unknown_output_is_dropped `{ProgressStep} (config : Config)
    (db : Db) (test_id : Z) (token : string) (request : Request) (now : Z)
    (stamp : datetime.t) (test : Test.t) (rt_id test_file_id : Z) :
  query_first (fun t => Test.id t =? test_id) (tests db) = Some test ->
  Test.token test = token ->
  form_type request = Some "equality" ->
  form_test_id request = Some rt_id ->
  form_test_file_id request = Some test_file_id ->
  ((forall o, o ∈ regression_outputs db -> RegressionTestOutput.id o <> test_file_id) ->
   progress_reporter config db test_id token request now stamp = Ok db (OK, []))
  /\ (forall rto,
        query_first (fun o => RegressionTestOutput.id o =? test_file_id)
                    (regression_outputs db) = Some rto ->
        progress_reporter config db test_id token request now stamp =
          Ok (with_result_files db
                (result_files db
                 ++ [TestResultFile.mk (Test.id test) rt_id (RegressionTestOutput.id rto)
                                       (RegressionTestOutput.correct rto) None]))
             (OK, [])).
Proof.
  intros Htest Htoken Htype Hrt Hfile. unfold progress_reporter.
  rewrite Htest, Htype. subst token. rewrite String.eqb_refl. simpl.
  unfold equality_type_request. rewrite Hrt, Hfile. split.
  - intros Hunknown.
    assert (Hnone : query_first (fun o => RegressionTestOutput.id o =? test_file_id)
                                (regression_outputs db) = None).
    { apply query_first_None. intros o Ho. apply Z.eqb_neq. by apply Hunknown. }
    by rewrite Hnone.
  - intros rto Hrto. by rewrite Hrto.
Qed.

Lemma equality_for_unknown_output_is_dropped_witness :
  progress_reporter (H := member_steps) sample_config pr_db 1 "secret"
                    (equality_request 5 77) 0 (datetime.naive 0)
  = Ok pr_db (OK, []).
Proof.
  refine (proj1 (equality_for_unknown_output_is_dropped (H := member_steps)
                   sample_config pr_db 1 "secret" (equality_request 5 77) 0
                   (datetime.naive 0) (sample_test 1 linux TestType.pull_request 2 12)
                   5 77 _ _ _ _ _) _); try reflexivity.
  intros o Ho. apply list_elem_of_In in Ho. simpl in Ho.
  destruct Ho as [<-|[]]. simpl. lia.
Defined.

(** ** A closed pull request *)

Lemma test_progress_pending (db : Db) (pending : list TestProgress.t) (id : Z) :
  test_progress (add_progress_all db pending) id
  = test_progress db id
    ++ List.filter (fun p => TestProgress.test_id p =? id) pending.
Proof. unfold test_progress, add_progress_all. simpl. apply List.filter_app. Qed.

Lemma cancel_unstarted_produces (db : Db) (post_ok : Test.t -> bool) (now : Z)
    (tests : list Test.t) :
  forall pending calls pending' calls' err,
    cancel_unstarted db post_ok now tests pending calls = (pending', calls', err) ->
    exists new posts,
      pending' = pending ++ new /\ calls' = calls ++ posts
      /\ Forall (fun p => exists t, t ∈ tests /\ test_progress db (Test.id t) = []
                                    /\ p = pr_closed_event now t) new
      /\ Forall (fun c => exists t, t ∈ tests /\ test_progress db (Test.id t) = []
                                    /\ c = pr_closed_status t) posts.
Proof.
  induction tests as [|test rest IH]; intros pending calls pending' calls' err Hrun.
  - simpl in Hrun. simplify_eq. exists [], []. by rewrite !app_nil_r.
  - simpl in Hrun.
    assert (Hweaken : forall (X : Type) (f : Test.t -> X) (l : list X),
      Forall (fun x => exists t, t ∈ rest /\ test_progress db (Test.id t) = [] /\ x = f t) l ->
      Forall (fun x => exists t, t ∈ test :: rest /\ test_progress db (Test.id t) = []
                                 /\ x = f t) l).
    { intros X f l Hl. eapply Forall_impl; [exact Hl|].
      intros x (t & Ht & Hx). exists t. split; [by right|done]. }
    destruct (0 <? Z.of_nat (length (test_progress (add_progress_all db pending) (Test.id test))))
      eqn:Hstarted.
    + destruct (IH _ _ _ _ _ Hrun) as (new & posts & -> & -> & Hnew & Hposts).
      exists new, posts. split; [done|]. split; [done|]. split; by apply Hweaken.
    + assert (Hnone : test_progress db (Test.id test) = []).
      { apply Z.ltb_ge in Hstarted. rewrite test_progress_pending in Hstarted.
        destruct (test_progress db (Test.id test)); [done|]. simpl in Hstarted. lia. }
      assert (Hhere : forall (X : Type) (f : Test.t -> X),
        exists t, t ∈ test :: rest /\ test_progress db (Test.id t) = [] /\ f test = f t).
      { intros X f. exists test. split; [by left|done]. }
      destruct (post_ok test).
      * destruct (IH _ _ _ _ _ Hrun) as (new & posts & -> & -> & Hnew & Hposts).
        exists (pr_closed_event now test :: new), (pr_closed_status test :: posts).
        rewrite <- !app_assoc. split; [done|]. split; [done|].
        split; (constructor; [apply Hhere|by apply Hweaken]).
      * simplify_eq. exists [pr_closed_event now test], []. rewrite app_nil_r.
        split; [done|]. split; [done|]. split; [|constructor].
        constructor; [apply Hhere|constructor].
Qed.

(** C9: when a pull request is closed, every event added and every status
    posted is the "PR closed" cancellation, resp. the failure status, of a
    test of that pull request that has no progress event; for a test that
    has an event nothing is added and nothing is posted.  The handler reads
    the store and writes nothing else. *)
Theorem pull_request_closed_spares_started_tests (db : Db) (pr_nr : Z)
    (post_ok : Test.t -> bool) (now : Z) (pending : list TestProgress.t)
    (calls : list Action) (err : option PyError) :
  pull_request_closed db pr_nr post_ok now = (pending, calls, err) ->
  (forall p, p ∈ pending ->
     exists t, t ∈ tests db /\ Test.pr_nr t = pr_nr /\ test_progress db (Test.id t) = []
               /\ p = pr_closed_event now t)
  /\ (forall c, c ∈ calls ->
        exists t, t ∈ tests db /\ Test.pr_nr t = pr_nr /\ test_progress db (Test.id t) = []
                  /\ c = pr_closed_status t)
  /\ (forall t, t ∈ tests db -> test_progress db (Test.id t) <> [] ->
        (forall p, p ∈ pending -> TestProgress.test_id p <> Test.id t)
        /\ (forall c, c ∈ calls -> status_target c <> Some (Test.id t))).
Proof.
  intros Hrun. unfold pull_request_closed in Hrun.
  apply cancel_unstarted_produces in Hrun as (new & posts & -> & -> & Hnew & Hposts).
  simpl. rewrite Forall_forall in Hnew. rewrite Forall_forall in Hposts.
  assert (Hp : forall p, p ∈ new ->
     exists t, t ∈ tests db /\ Test.pr_nr t = pr_nr /\ test_progress db (Test.id t) = []
               /\ p = pr_closed_event now t).
  { intros p Hin. destruct (Hnew p Hin) as (t & Ht & Hnone & ->).
    apply elem_of_filter_bool in Ht as [Ht Hnr]. apply Z.eqb_eq in Hnr. by exists t. }
  assert (Hc : forall c, c ∈ posts ->
     exists t, t ∈ tests db /\ Test.pr_nr t = pr_nr /\ test_progress db (Test.id t) = []
               /\ c = pr_closed_status t).
  { intros c Hin. destruct (Hposts c Hin) as (t & Ht & Hnone & ->).
    apply elem_of_filter_bool in Ht as [Ht Hnr]. apply Z.eqb_eq in Hnr. by exists t. }
  split; [exact Hp|]. split; [exact Hc|].
  intros t Ht Hstarted. split.
  - intros p Hin Heq. destruct (Hp p Hin) as (t' & _ & _ & Hnone & ->).
    simpl in Heq. by rewrite Heq in Hnone.
  - intros c Hin Heq. destruct (Hc c Hin) as (t' & _ & _ & Hnone & ->).
    simpl in Heq. injection Heq as Heq. by rewrite Heq in Hnone.
Qed.

Lemma pull_request_closed_spares_started_tests_witness :
  pull_request_closed pr_db 12 (fun _ => true) 50
  = ([pr_closed_event 50 (sample_test 2 windows TestType.pull_request 2 12)],
     [pr_closed_status (sample_test 2 windows TestType.pull_request 2 12)], None)
  /\ forall p, p ∈ [pr_closed_event 50 (sample_test 2 windows TestType.pull_request 2 12)] ->
       TestProgress.test_id p <> 1.
Proof.
  split; [reflexivity|].
  refine (proj1 (proj2 (proj2 (pull_request_closed_spares_started_tests
            pr_db 12 (fun _ => true) 50 _ _ None _))
            (sample_test 1 linux TestType.pull_request 2 12) _ _)).
  - reflexivity.
  - apply list_elem_of_In. simpl. by left.
  - simpl. discriminate.
Defined.

(** ** What the progress ingestor leaves alone *)

Lemma set_avg_time_frame (db : Db) (platform : TestPlatform) (process_type : string)
    (time_taken : Qc) :
  let db' := db_of (set_avg_time db platform process_type time_taken) in
  catalog db' = catalog db /\ progress db' = progress db /\ kvm db' = kvm db.
Proof. unfold set_avg_time. by repeat case_match. Qed.

Lemma db_of_bind {A B : Type} (r : result A) (k : Db -> A -> result B) :
  db_of (bind r k) = match r with Ok db a => db_of (k db a) | Raise db _ => db end.
Proof. by destruct r. Qed.

Lemma record_progress_frame `{ProgressStep} (db : Db) (test : Test.t) (request : Request)
    (now : Z) (stamp : datetime.t) :
  catalog (db_of (record_progress db test request now stamp)) = catalog db.
Proof.
  unfold record_progress.
  repeat case_match; try done; rewrite db_of_bind;
    match goal with
    | |- context [set_avg_time ?d ?p ?t ?x] =>
        pose proof (set_avg_time_frame d p t x) as (Hcat & _ & _);
        destruct (set_avg_time d p t x); unfold catalog in *; simpl in *; congruence
    end.
Qed.

Lemma update_fetch_commit_frame (config : Config) (db : Db) (test : Test.t)
    (status : TestStatus) :
  let db' := db_of (update_fetch_commit config db test status) in
  catalog db' = catalog db /\ progress db' = progress db /\ kvm db' = kvm db.
Proof. unfold update_fetch_commit. by repeat case_match. Qed.

Lemma warm_average_frame (db : Db) (test : Test.t) (var_average : string) (v : value) :
  let db' := db_of (warm_average db test var_average v) in
  catalog db' = catalog db /\ progress db' = progress db /\ kvm db' = kvm db.
Proof. unfold warm_average. by repeat case_match. Qed.

Lemma finish_test_frame (db : Db) (test : Test.t) :
  let db' := db_of (finish_test db test) in
  catalog db' = catalog db /\ progress db' = progress db.
Proof.
  unfold finish_test. rewrite db_of_bind.
  destruct (general_data db !! _) as [current_average|]; [|done].
  pose proof (warm_average_frame db test
    ("average_time_" ++ platform_value (Test.platform test))%string current_average)
    as (? & ? & _).
  by destruct (warm_average _ _ _ _).
Qed.

Lemma final_state_db (config : Config) (db : Db) (test : Test.t) (status : TestStatus)
    (p : TestProgress.t) :
  db_of (final_state config db test status p) = db.
Proof.
  unfold final_state, update_build_badge.
  repeat case_match; simplify_eq/=; try done.
Qed.

Lemma outcome_catalog (db db' : Db) (test : Test.t) :
  catalog db' = catalog db -> outcome db' test = outcome db test.
Proof.
  unfold catalog, outcome, crashes, mismatches, results_zero_rc. intros Hcat.
  simplify_eq. by repeat match goal with H : _ = _ |- _ => rewrite H; clear H end.
Qed.

(** ** The outcome of a completed test *)

Lemma filter_nonempty {A : Type} (p : A -> bool) (rows : list A) :
  (0 <? Z.of_nat (length (List.filter p rows))) = true
  <-> exists x, x ∈ rows /\ p x = true.
Proof.
  rewrite Z.ltb_lt. split.
  - destruct (List.filter p rows) as [|x l] eqn:Hf; [simpl; lia|]. intros _.
    exists x. apply elem_of_filter_bool. rewrite Hf. by left.
  - intros (x & Hx & Hp).
    assert (Hin : x ∈ List.filter p rows) by by apply elem_of_filter_bool.
    destruct (List.filter p rows); [by apply not_elem_of_nil in Hin|simpl; lia].
Qed.

Lemma crashes_crashed (db : Db) (test : Test.t) :
  (0 <? Z.of_nat (crashes db test)) = true <-> crashed db test.
Proof.
  unfold crashes, crashed. rewrite filter_nonempty.
  split; intros (r & Hr & Hp); exists r; (split; [done|]).
  - apply andb_true_iff in Hp as [Hid Hrc]. apply Z.eqb_eq in Hid.
    apply negb_true_iff, Z.eqb_neq in Hrc. done.
  - destruct Hp as [Hid Hrc]. apply andb_true_iff. split; [by apply Z.eqb_eq|].
    by apply negb_true_iff, Z.eqb_neq.
Qed.

Lemma results_zero_rc_spec (db : Db) (id : Z) :
  in_ids id (results_zero_rc db) = true
  <-> exists rt, rt ∈ regression_tests db /\ RegressionTest.id rt = id
                 /\ RegressionTest.expected_rc rt = 0.
Proof.
  rewrite in_ids_spec. unfold results_zero_rc. rewrite list_elem_of_fmap. split.
  - intros (rt & -> & Hrt). apply elem_of_filter_bool in Hrt as [Hrt Hrc].
    apply Z.eqb_eq in Hrc. by exists rt.
  - intros (rt & Hrt & <- & Hrc). exists rt. split; [done|].
    apply elem_of_filter_bool. split; [done|]. by apply Z.eqb_eq.
Qed.

Lemma mismatches_mismatched (db : Db) (test : Test.t) :
  (0 <? Z.of_nat (mismatches db test)) = true <-> mismatched db test.
Proof.
  unfold mismatches, mismatched. rewrite filter_nonempty.
  split; intros (f & Hf & Hp); exists f; (split; [done|]).
  - apply andb_true_iff in Hp as [Hp Hgot]. apply andb_true_iff in Hp as [Hid Hzero].
    apply Z.eqb_eq in Hid. apply bool_decide_eq_true in Hgot.
    apply results_zero_rc_spec in Hzero. done.
  - destruct Hp as (Hid & Hgot & Hzero). rewrite !andb_true_iff.
    split; [split|]; [by apply Z.eqb_eq|by apply results_zero_rc_spec|
                     by apply bool_decide_eq_true].
Qed.

Lemma outcome_failure (db : Db) (test : Test.t) :
  fst (outcome db test) = FAILURE <-> crashed db test \/ mismatched db test.
Proof.
  rewrite <- crashes_crashed, <- mismatches_mismatched, <- orb_true_iff.
  unfold outcome. by destruct (_ || _).
Qed.

Lemma outcome_success (db : Db) (test : Test.t) :
  fst (outcome db test) = SUCCESS <-> ~ (crashed db test \/ mismatched db test).
Proof.
  rewrite <- outcome_failure. unfold outcome. destruct (_ || _); simpl; [|done].
  split; [done|]. intros Hno. by destruct Hno.
Qed.

(** C5: the state computed for a completed test is [FAILURE] exactly when
    one of its results has an exit code other than the expected one, or one
    of its result files has a non-null [got] and belongs to a regression
    test whose expected exit code is 0, and [SUCCESS] otherwise; when a
    report that records [completed] is processed to the end, the one status
    posted for the test carries this state. *)
Theorem completed_outcome `{ProgressStep} (config : Config) (db : Db) (test : Test.t) :
  (fst (outcome db test) = FAILURE <-> crashed db test \/ mismatched db test)
  /\ (fst (outcome db test) = SUCCESS <-> ~ (crashed db test \/ mismatched db test))
  /\ forall request now stamp db1 p db2 accepted calls,
       record_progress db test request now stamp = Ok db1 (Some (completed, p)) ->
       progress_type_request config db test request now stamp = Ok db2 (accepted, calls) ->
       accepted = true
       /\ GithubStatus (Test.commit test) (fst (outcome db test)) (snd (outcome db test))
                       ("CI - " ++ platform_value (Test.platform test))%string (Test.id test)
          ∈ calls
       /\ forall commit state description context target,
            GithubStatus commit state description context target ∈ calls ->
            state = fst (outcome db test).
Proof.
  split; [apply outcome_failure|]. split; [apply outcome_success|].
  intros request now stamp db1 p db2 accepted calls Hrec Hrun.
  pose proof (record_progress_frame db test request now stamp) as Hcat1.
  rewrite Hrec in Hcat1. simpl in Hcat1.
  unfold progress_type_request in Hrun. rewrite Hrec in Hrun. simpl in Hrun.
  pose proof (update_fetch_commit_frame config db1 test completed) as (Hcat2 & _ & _).
  destruct (update_fetch_commit config db1 test completed) as [db3 []|]; [|done].
  simpl in Hcat2, Hrun.
  pose proof (finish_test_frame db3 test) as (Hcat3 & _).
  destruct (finish_test db3 test) as [db4 []|]; [|done]. simpl in Hcat3, Hrun.
  assert (Hout : outcome db4 test = outcome db test).
  { apply outcome_catalog. congruence. }
  unfold final_state in Hrun. simpl in Hrun. rewrite Hout in Hrun.
  destruct (outcome db test) as [state message]. simpl.
  unfold update_build_badge in Hrun.
  clear - Hrun.
  destruct (decide (Test.test_type test = TestType.commit)) as [Hcommit|_];
    destruct (decide (Test.test_type test = TestType.pull_request)) as [Hpr|_];
    try congruence;
    try (destruct (test_fork db4 test) as [fork|]; [destruct (is_main_repo _ _)|]);
    simpl in Hrun; try discriminate; injection Hrun as <- <- <-;
    (split; [done|]);
    (split; [|intros commit state' description context target]);
    rewrite ?elem_of_app, ?elem_of_cons, ?elem_of_nil; intuition congruence.
Qed.

Lemma completed_outcome_witness :
  exists db2 calls,
    progress_type_request (H := member_steps) sample_config clean_db
      (sample_test 7 linux TestType.pull_request 2 12)
      (progress_request "completed" "done") 30 (datetime.naive 30)
    = Ok db2 (true, calls)
    /\ GithubStatus "abcdef" SUCCESS "Tests completed" "CI - linux" 7 ∈ calls.
Proof.
  eexists _, _. split; [vm_compute; reflexivity|].
  refine (proj1 (proj2 (proj2 (proj2 (completed_outcome (H := member_steps) sample_config
            clean_db (sample_test 7 linux TestType.pull_request 2 12)))
            (progress_request "completed" "done") 30 (datetime.naive 30) _ _ _ true _ _ _))).
  - vm_compute. reflexivity.
  - vm_compute. reflexivity.
Defined.

(** ** The average running time *)



Lemma sub_strip_tz (a b : datetime.t) :
  datetime.sub (strip_tz a) (strip_tz b) = Some (datetime.wall a - datetime.wall b).
Proof.
  unfold strip_tz, datetime.sub, datetime.replace_tzinfo_None.
  by destruct a as [wa [oa|]], b as [wb [ob|]].
Qed.



(** Without any result in the store the divisor is zero: the update raises
    and the Kvm entry of the test stays. *)
Remark warm_average_without_results (db : Db) (test : Test.t) (current_average : value)
    (average : Qc) (first_event last_event : TestProgress.t) :
  general_data db !! ("average_time_" ++ platform_value (Test.platform test))%string
  = Some current_average ->
  float_of_value current_average = Some average ->
  head (test_progress db (Test.id test)) = Some first_event ->
  last (test_progress db (Test.id test)) = Some last_event ->
  results db = [] ->
  finish_test db test = Raise db ZeroDivisionError.
Proof.
  intros Hstored Hfloat Hfirst Hlast Hresults. unfold finish_test. rewrite Hstored.
  unfold warm_average. rewrite Hresults.
  destruct (decide (Z.of_nat (length (regression_tests db)) = 0)) as [|_]; [done|].
  rewrite Hfloat. unfold progress_data. rewrite Hfirst, Hlast, sub_strip_tz.
  assert (Hzero : (Z2Qc (Z.of_nat (length (@nil TestResult.t)))
                   / Z2Qc (Z.of_nat (length (regression_tests db))))%Qc = 0%Qc).
  { unfold Qcdiv. apply Qcmult_0_l. }
  rewrite Hzero. by case_decide.
Qed.

(** ** The reference file of the manifest *)






(** ** The scheduler *)

Lemma elem_of_delete_first {A : Type} (p : A -> bool) (rows : list A) (x : A) :
  x ∈ delete_first p rows -> x ∈ rows.
Proof.
  induction rows as [|r rest IH]; simpl; [done|].
  destruct (p r); rewrite !elem_of_cons; intuition.
Qed.

#[local] Instance id_asc_transitive : Transitive id_asc.
Proof. unfold id_asc. intros a b c. lia. Qed.

#[local] Instance id_asc_total : Total id_asc.
Proof. unfold id_asc. intros a b. lia. Qed.

Lemma oldest_None (rows : list Test.t) : oldest rows = None <-> rows = [].
Proof.
  unfold oldest. pose proof (merge_sort_Permutation id_asc rows) as Hperm. split.
  - intros Hnone. destruct (merge_sort id_asc rows); [|done].
    by apply Permutation_nil in Hperm.
  - by intros ->.
Qed.

Lemma oldest_Some (rows : list Test.t) (t : Test.t) :
  oldest rows = Some t ->
  t ∈ rows /\ forall m, m ∈ rows -> Test.id t <= Test.id m.
Proof.
  unfold oldest. pose proof (merge_sort_Permutation id_asc rows) as Hperm.
  pose proof (StronglySorted_merge_sort id_asc rows) as Hsorted.
  destruct (merge_sort id_asc rows) as [|t' sorted]; [done|].
  intros [= ->]. split.
  - rewrite <- Hperm. by left.
  - intros m Hm. rewrite <- Hperm in Hm.
    apply StronglySorted_inv in Hsorted as [_ Hall].
    apply elem_of_cons in Hm as [->|Hm]; [done|].
    rewrite Forall_forall in Hall. by apply Hall.
Qed.

Lemma eligible_spec (db : Db) (platform : TestPlatform) (t : Test.t) :
  eligible db platform t = true <-> Test.platform t = platform /\ unfinished db t.
Proof.
  unfold eligible, unfinished, finished_tests.
  rewrite andb_true_iff, negb_true_iff, bool_decide_eq_true.
  rewrite <- not_true_iff_false, in_ids_spec, list_elem_of_fmap.
  split; intros [Hleft Hright]; (split; [|done]) || (split; [done|]).
  - intros e He Hid. destruct (is_terminal (TestProgress.status e)) eqn:Hterm.
    + destruct Hleft. exists e. split; [done|]. by apply elem_of_filter_bool.
    + unfold is_terminal in Hterm. apply orb_false_iff in Hterm as [Hc Hx].
      by apply bool_decide_eq_false in Hc, Hx.
  - intros (e & Hid & He). apply elem_of_filter_bool in He as [He Hterm].
    destruct (Hright e He (eq_sym Hid)) as [Hc Hx].
    unfold is_terminal in Hterm. apply orb_true_iff in Hterm as [Hterm|Hterm];
      by apply bool_decide_eq_true in Hterm.
Qed.

(** A pass that finds the machine shut off goes to the selection step, on
    the store without the stale Kvm entry of the machine. *)
Lemma kvm_processor_selects (config : Config) (db : Db) (kvm_name : string)
    (platform : TestPlatform) (env : VmEnv) :
  kvm_name <> "" ->
  (forall m, query_first (fun m => bool_decide (MaintenanceMode.platform m = platform))
                         (maintenance db) = Some m ->
             MaintenanceMode.disabled m = false) ->
  conn_open env = true ->
  vm_found env = true ->
  vm_shutoff env = true ->
  kvm_processor config db kvm_name platform env
  = ([], select_step config (drop_stale_entry db kvm_name) platform).
Proof.
  intros Hname Hmaint Hconn Hvm Hoff. unfold kvm_processor.
  destruct (String.eqb kvm_name "") eqn:Hempty; [by apply String.eqb_eq in Hempty|].
  destruct (query_first _ (maintenance db)) as [m|] eqn:Hm;
    [rewrite (Hmaint m eq_refl)|]; by rewrite Hconn, Hvm, Hoff.
Qed.

(** C7: the selection step picks, among the tests of the platform without a
    completed or canceled event, the one with the lowest id that belongs to
    the main repository if there is any, and otherwise the one with the
    lowest id; when no such test exists the step ends the pass ("no more
    tests") and leaves the store as it was. *)
Theorem oldest_unfinished_test_selected (config : Config) (db : Db)
    (platform : TestPlatform) (fork : Fork.t) :
  query_first (fun f => like_suffix ("/" ++ repository_owner config ++ "/"
                                     ++ repository config ++ ".git")%string (Fork.github f))
              (forks db) = Some fork ->
  let main := fun t => candidate db platform t /\ Test.fork_id t = Fork.id fork in
  ((exists t, main t) ->
   exists t, select_test config db platform = Ok db (Some t)
             /\ main t /\ forall m, main m -> Test.id t <= Test.id m)
  /\ (~ (exists t, main t) -> (exists t, candidate db platform t) ->
      exists t, select_test config db platform = Ok db (Some t)
                /\ candidate db platform t
                /\ forall m, candidate db platform m -> Test.id t <= Test.id m)
  /\ (~ (exists t, candidate db platform t) ->
      select_test config db platform = Ok db None
      /\ select_step config db platform = Ok db (Return NoTests)).
Proof.
  intros Hfork main. unfold select_step, select_test. rewrite Hfork.
  set (mains := List.filter (fun t => eligible db platform t
                                      && (Test.fork_id t =? Fork.id fork)) (tests db)).
  set (all := List.filter (eligible db platform) (tests db)).
  assert (Hmains : forall t, t ∈ mains <-> main t).
  { intros t. unfold mains, main, candidate. rewrite elem_of_filter_bool.
    rewrite andb_true_iff, eligible_spec, Z.eqb_eq. tauto. }
  assert (Hall : forall t, t ∈ all <-> candidate db platform t).
  { intros t. unfold all, candidate. rewrite elem_of_filter_bool, eligible_spec. tauto. }
  split; [|split].
  - intros (t0 & Ht0). destruct (oldest mains) as [t|] eqn:Hold.
    + apply oldest_Some in Hold as [Hin Hmin]. exists t. split; [done|].
      split; [by apply Hmains|]. intros m Hm. by apply Hmin, Hmains.
    + apply oldest_None in Hold. apply Hmains in Ht0. rewrite Hold in Ht0.
      by apply not_elem_of_nil in Ht0.
  - intros Hnomain (t0 & Ht0). destruct (oldest mains) as [t|] eqn:Hold.
    { apply oldest_Some in Hold as [Hin _]. destruct Hnomain. exists t. by apply Hmains. }
    destruct (oldest all) as [t|] eqn:Hold'.
    + apply oldest_Some in Hold' as [Hin Hmin]. exists t. split; [done|].
      split; [by apply Hall|]. intros m Hm. by apply Hmin, Hall.
    + apply oldest_None in Hold'. apply Hall in Ht0. rewrite Hold' in Ht0.
      by apply not_elem_of_nil in Ht0.
  - intros Hnone.
    assert (Hnomain : oldest mains = None).
    { destruct (oldest mains) as [t|] eqn:Hold; [|done].
      apply oldest_Some in Hold as [Hin _]. destruct Hnone. exists t.
      by apply Hmains in Hin as [Hin _]. }
    assert (Hnoall : oldest all = None).
    { destruct (oldest all) as [t|] eqn:Hold; [|done].
      apply oldest_Some in Hold as [Hin _]. destruct Hnone. exists t. by apply Hall. }
    by rewrite Hnomain, Hnoall.
Qed.

Lemma oldest_unfinished_test_selected_witness :
  select_test sample_config queue_db linux
  = Ok queue_db (Some (sample_test 5 linux TestType.commit 1 0))
  /\ exists t, select_test sample_config queue_db linux = Ok queue_db (Some t)
               /\ candidate queue_db linux t /\ Test.fork_id t = 1.
Proof.
  split; [reflexivity|].
  destruct (proj1 (oldest_unfinished_test_selected sample_config queue_db linux main_fork
                     eq_refl)) as (t & Hsel & Hmain & _).
  - exists (sample_test 5 linux TestType.commit 1 0). split; [|reflexivity].
    split; [|split; [reflexivity|]].
    + apply list_elem_of_In. simpl. tauto.
    + intros e He Hid. apply list_elem_of_In in He. simpl in He.
      destruct He as [<-|[<-|[<-|[]]]]; try discriminate. simpl. split; discriminate.
  - exists t. split; [exact Hsel|]. exact Hmain.
Defined.





(** ** The progress ingestor *)

Lemma test_progress_add (db : Db) (p : TestProgress.t) (id : Z) :
  TestProgress.test_id p = id ->
  test_progress (add_progress db p) id = test_progress db id ++ [p].
Proof.
  intros <-. unfold test_progress, add_progress. simpl.
  rewrite List.filter_app. simpl. by rewrite Z.eqb_refl.
Qed.

Section Ingestor.
Context `{Hspec : ProgressStepSpec}.

(** The test of line 803 fails for a last status that is neither
    [completed] nor [canceled]. *)
Lemma step_eq_open (s : TestStatus) :
  is_terminal s = false ->
  step_eq (progress_step s) completed || step_eq (progress_step s) canceled = false.
Proof.
  intros Hopen. apply orb_false_iff. split.
  - destruct (step_eq (progress_step s) completed) eqn:Heq; [|done].
    apply step_eq_sound in Heq. by subst.
  - destruct (step_eq (progress_step s) canceled) eqn:Heq; [|done].
    apply step_eq_sound in Heq. by subst.
Qed.

Lemma progress_type_request_progress (config : Config) (db : Db) (test : Test.t)
    (request : Request) (now : Z) (stamp : datetime.t) :
  progress (db_of (progress_type_request config db test request now stamp))
  = progress (db_of (record_progress db test request now stamp)).
Proof.
  unfold progress_type_request. rewrite db_of_bind.
  destruct (record_progress db test request now stamp) as [db1 [[status p]|]|]; [|done..].
  rewrite db_of_bind.
  pose proof (update_fetch_commit_frame config db1 test status) as (_ & Hp2 & _).
  destruct (update_fetch_commit config db1 test status) as [db2 []|]; [|done].
  simpl in Hp2. rewrite db_of_bind.
  assert (Hp3 : progress (db_of (if is_terminal status then finish_test db2 test
                                 else Ok db2 tt)) = progress db2).
  { destruct (is_terminal status); [|done]. apply finish_test_frame. }
  destruct (if is_terminal status then _ else _) as [db3 []|]; simpl in Hp3 |- *;
    [|congruence].
  rewrite db_of_bind.
  pose proof (final_state_db config db3 test status p) as Hdb.
  destruct (final_state config db3 test status p) as [db4 [[state message] calls]|];
    simpl in *; congruence.
Qed.
End Ingestor.

Lemma member_steps_spec : @ProgressStepSpec member_steps.
Proof.
  split; simpl.
  - intros s t. apply bool_decide_eq_true.
  - intros s t a b Ha Hb. destruct s, t; simplify_eq/=; reflexivity.
  - intros s t a b Ha Hb. destruct s, t; simplify_eq/=; reflexivity.
Qed.

Lemma index_steps_spec : @ProgressStepSpec index_steps.
Proof.
  split; simpl.
  - done.
  - intros s t a b Ha Hb. by rewrite Ha, Hb.
  - intros s t a b Ha Hb. by rewrite Ha, Hb.
Qed.

(** C1: with steps that are ranks, the test of line 803 compares a number
    with members of the enumeration and never holds.  A report of a ranked
    status below [completed] that arrives when the last status recorded is
    [completed] is therefore not rejected: it is recorded as canceled with
    the message "Duplicate Entries", so that [completed] is no longer the
    end of the history; the handler does not return False, and the
    reporter does not answer FAIL. *)
Theorem report_after_completed_is_recorded (config : Config) (db : Db) (test : Test.t)
    (request : Request) (now : Z) (stamp : datetime.t) (last_event : TestProgress.t)
    (name : string) (reported : TestStatus) (message : string) (b : Z) :
  last (test_progress db (Test.id test)) = Some last_event ->
  TestProgress.status last_event = completed ->
  form_status request = Some name ->
  from_string name = Some reported ->
  form_message request = Some message ->
  rank reported = Some b ->
  b < 3 ->
  let run := progress_type_request (H := index_steps) config db test request now stamp in
  let duplicate := TestProgress.mk (Test.id test) canceled "Duplicate Entries" stamp in
  progress (db_of run) = progress db ++ [duplicate]
  /\ ~ closed_at_end (statuses (db_of run) (Test.id test))
  /\ (forall db' accepted calls, run = Ok db' (accepted, calls) -> accepted = true)
  /\ (query_first (fun t => Test.id t =? Test.id test) (tests db) = Some test ->
      form_type request = Some "progress" ->
      forall db' response calls,
        progress_reporter (H := index_steps) config db (Test.id test) (Test.token test)
                          request now stamp = Ok db' (response, calls) ->
        response = OK).
Proof.
  intros Hlast Hstatus Hname Hreported Hmessage Hb Hlt run duplicate.
  assert (Hrec : record_progress (H := index_steps) db test request now stamp
                 = Ok (add_progress db duplicate) (Some (canceled, duplicate))).
  { unfold record_progress. rewrite Hname, Hreported, Hmessage, Hlast. simpl.
    rewrite Hstatus, Hb. simpl.
    by rewrite (proj2 (Z.ltb_lt b 3) Hlt), (proj2 (Z.ltb_ge 3 b)) by lia. }
  assert (Hprogress : progress (db_of run) = progress db ++ [duplicate]).
  { unfold run. rewrite progress_type_request_progress. by rewrite Hrec. }
  assert (Haccepted : forall db' accepted calls,
            run = Ok db' (accepted, calls) -> accepted = true).
  { intros db' accepted calls. unfold run, progress_type_request. rewrite Hrec. simpl.
    destruct (finish_test _ test) as [db3 []|]; simpl; [|done]. by intros [= _ <- _]. }
  split; [done|]. split; [|split; [done|]].
  - intros Hclosed.
    assert (Hevents : test_progress db (Test.id test) <> []).
    { intros Hnone. by rewrite Hnone in Hlast. }
    destruct (exists_last Hevents) as (before & e & Hsplit).
    rewrite Hsplit, last_snoc in Hlast. injection Hlast as ->.
    assert (Hstatuses : statuses (db_of run) (Test.id test)
                        = map TestProgress.status before ++ completed :: [canceled]).
    { unfold statuses, test_progress. rewrite Hprogress, List.filter_app. simpl.
      rewrite Z.eqb_refl. fold (test_progress db (Test.id test)).
      by rewrite Hsplit, !map_app, <- app_assoc, <- Hstatus. }
    by specialize (Hclosed _ _ _ Hstatuses eq_refl).
  - intros Htest Htype db' response calls. unfold progress_reporter.
    rewrite Htest, String.eqb_refl, Htype. simpl. fold run.
    destruct run as [db1 [accepted made]|] eqn:Hrun; simpl; [|done].
    rewrite (Haccepted db1 accepted made eq_refl). by intros [= _ <- _].
Qed.

Lemma report_after_completed_is_recorded_witness :
  progress (db_of (progress_type_request (H := index_steps) sample_config completed_db
                     (sample_test 7 linux TestType.pull_request 2 12)
                     (progress_request "building" "late") 40 (datetime.naive 40)))
  = progress completed_db
    ++ [TestProgress.mk 7 canceled "Duplicate Entries" (datetime.naive 40)]
  /\ ~ closed_at_end
         (statuses (db_of (progress_type_request (H := index_steps) sample_config
                             completed_db (sample_test 7 linux TestType.pull_request 2 12)
                             (progress_request "building" "late") 40 (datetime.naive 40)))
                   7).
Proof.
  destruct (report_after_completed_is_recorded sample_config completed_db
              (sample_test 7 linux TestType.pull_request 2 12)
              (progress_request "building" "late") 40 (datetime.naive 40)
              (event 7 completed 30) "building" building "late" 1
              eq_refl eq_refl eq_refl eq_refl eq_refl eq_refl)
    as (Hrecorded & Hopen & _); [lia|].
  split; [exact Hrecorded|exact Hopen].
Defined.

(** C8: a report of forward progress to [building] or [testing] reads the
    Kvm entry of the test without checking that there is one: when there is
    none the handler raises [AttributeError] and records nothing, so that a
    report which the handler processes to the end found an entry bound to
    the test. *)
Theorem forward_progress_needs_lease `{Hspec : ProgressStepSpec} (config : Config)
    (db : Db) (test : Test.t) (request : Request) (now : Z) (stamp : datetime.t)
    (last_event : TestProgress.t) (name : string) (reported : TestStatus)
    (message : string) (a b : Z) :
  last (test_progress db (Test.id test)) = Some last_event ->
  form_status request = Some name ->
  from_string name = Some reported ->
  form_message request = Some message ->
  rank (TestProgress.status last_event) = Some a ->
  rank reported = Some b ->
  a < b ->
  reported = building \/ reported = testing ->
  (query_first (fun k => Kvm.test_id k =? Test.id test) (kvm db) = None ->
   progress_type_request config db test request now stamp = Raise db AttributeError)
  /\ (forall db' accepted calls,
        progress_type_request config db test request now stamp = Ok db' (accepted, calls) ->
        exists k, k ∈ kvm db /\ Kvm.test_id k = Test.id test).
Proof.
  intros Hlast Hname Hreported Hmessage Ha Hb Hlt Hphase.
  assert (Hterm : is_terminal (TestProgress.status last_event) = false).
  { destruct (TestProgress.status last_event), reported; simplify_eq/=; try done; lia. }
  assert (Hnone : query_first (fun k => Kvm.test_id k =? Test.id test) (kvm db) = None ->
                  progress_type_request config db test request now stamp
                  = Raise db AttributeError).
  { intros Hkvm. unfold progress_type_request, record_progress.
    rewrite Hname, Hreported, Hmessage, Hlast, (step_eq_open _ Hterm).
    rewrite (step_gt_spec _ _ a b Ha Hb), (step_lt_spec _ _ a b Ha Hb).
    rewrite (proj2 (Z.ltb_lt a b) Hlt), (proj2 (Z.ltb_ge b a)) by lia.
    rewrite Hkvm. by destruct Hphase as [-> | ->]. }
  split; [exact Hnone|].
  intros db' accepted calls Hrun.
  destruct (query_first (fun k => Kvm.test_id k =? Test.id test) (kvm db)) as [k|] eqn:Hkvm.
  - apply query_first_Some in Hkvm as [Hin Hid]. apply Z.eqb_eq in Hid. by exists k.
  - rewrite (Hnone eq_refl) in Hrun. discriminate.
Qed.

Lemma forward_progress_needs_lease_witness :
  progress_type_request (H := member_steps) sample_config prepared_db
    (sample_test 7 linux TestType.pull_request 2 12)
    (progress_request "building" "compiling") 5 (datetime.naive 5)
  = Raise prepared_db AttributeError.
Proof.
  refine (proj1 (forward_progress_needs_lease (Hspec := member_steps_spec) sample_config
                   prepared_db (sample_test 7 linux TestType.pull_request 2 12)
                   (progress_request "building" "compiling") 5 (datetime.naive 5)
                   (event 7 preparation 0) "building" building "compiling" 0 1
                   _ _ _ _ _ _ _ _) _); first [reflexivity | lia | by left].
Defined.

(** * Further properties of the controller *)

(** ** The reporter *)

(** X1: a request for a test that does not exist, with a token that is not
    the test's, without a type or with a type that is not one of the five,
    is answered [FAIL]; nothing is stored and nothing is called. *)
Theorem progress_reporter_rejects `{ProgressStep} (config : Config) (db : Db)
    (test_id : Z) (token : string) (request : Request) (now : Z) (stamp : datetime.t) :
  (forall test, query_first (fun t => Test.id t =? test_id) (tests db) = Some test ->
                Test.token test <> token)
  \/ form_type request = None
  \/ (exists type, form_type request = Some type
                   /\ type ∉ ["progress"; "equality"; "logupload"; "upload"; "finish"]) ->
  progress_reporter config db test_id token request now stamp = Ok db (FAIL, []).
Proof.
  unfold progress_reporter.
  destruct (query_first _ (tests db)) as [test|] eqn:Htest; [|done].
  destruct (String.eqb (Test.token test) token) eqn:Htoken; [|done].
  apply String.eqb_eq in Htoken. intros [Hauth|[Hnone|(type & Htype & Hunknown)]].
  - by destruct (Hauth test eq_refl).
  - by rewrite Hnone.
  - rewrite Htype.
    destruct (String.eqb_spec type "progress") as [->|_]; [destruct Hunknown; set_solver|].
    destruct (String.eqb_spec type "equality") as [->|_]; [destruct Hunknown; set_solver|].
    destruct (String.eqb_spec type "logupload") as [->|_]; [destruct Hunknown; set_solver|].
    destruct (String.eqb_spec type "upload") as [->|_]; [destruct Hunknown; set_solver|].
    destruct (String.eqb_spec type "finish") as [->|_]; [destruct Hunknown; set_solver|].
    done.
Qed.

Lemma progress_reporter_rejects_witness :
  progress_reporter (H := member_steps) sample_config pr_db 1 "guess"
                    (progress_request "completed" "done") 0 (datetime.naive 0)
  = Ok pr_db (FAIL, [])
  /\ progress_reporter (H := member_steps) sample_config pr_db 1 "secret"
                       (mkRequest (Some "status") None None None None None None None "")
                       0 (datetime.naive 0)
     = Ok pr_db (FAIL, []).
Proof.
  split.
  - apply (progress_reporter_rejects (H := member_steps)). left.
    intros test [= <-]. simpl. discriminate.
  - apply (progress_reporter_rejects (H := member_steps)). right. right.
    exists "status". split; [reflexivity|].
    rewrite !elem_of_cons, elem_of_nil. intros [?|[?|[?|[?|[?|[]]]]]]; discriminate.
Defined.

(** X2: an authenticated log upload never changes the store, and is
    answered [EMPTY] exactly when no file comes with it or the secured name
    of the file is empty; an authenticated upload of a result file without
    a file, or with an empty name, is answered [EMPTY] as well and changes
    nothing. *)
Theorem uploads_without_file `{ProgressStep} (config : Config) (db : Db)
    (test : Test.t) (request : Request) (now : Z) (stamp : datetime.t) :
  query_first (fun t => Test.id t =? Test.id test) (tests db) = Some test ->
  (form_type request = Some "logupload" ->
   exists response,
     progress_reporter config db (Test.id test) (Test.token test) request now stamp
     = Ok db (response, [])
     /\ (response = EMPTY <-> file request = None \/ file request = Some "")
     /\ (response = OK <-> exists name, file request = Some name /\ name <> ""))
  /\ (form_type request = Some "upload" ->
      form_test_id request <> None -> form_test_file_id request <> None ->
      file request = None \/ file request = Some "" ->
      progress_reporter config db (Test.id test) (Test.token test) request now stamp
      = Ok db (EMPTY, [])).
Proof.
  intros Htest. unfold progress_reporter. rewrite Htest, String.eqb_refl. split.
  - intros Htype. rewrite Htype. simpl. unfold upload_log_type_request.
    destruct (file request) as [name|];
      [destruct (String.eqb_spec name "") as [->|Hname]|]; simpl.
    + exists EMPTY. split; [done|]. split; split; try done.
      * by right.
      * by intros (n & [= <-] & Hn).
    + exists OK. split; [done|]. split; split; try done.
      * by intros [[=]|[= ->]].
      * by exists name.
    + exists EMPTY. split; [done|]. split; split; try done.
      * by left.
      * by intros (n & [=] & _).
  - intros Htype Hrt Hfile Hnone. rewrite Htype. simpl. unfold upload_type_request.
    destruct (form_test_id request); [|done].
    destruct (form_test_file_id request); [|done].
    by destruct Hnone as [-> | ->].
Qed.

Lemma uploads_without_file_witness :
  progress_reporter (H := member_steps) sample_config pr_db 1 "secret"
    (mkRequest (Some "upload") None None (Some 5) (Some 9) None None None "")
    0 (datetime.naive 0)
  = Ok pr_db (EMPTY, []).
Proof.
  refine (proj2 (uploads_without_file (H := member_steps) sample_config pr_db
                   (sample_test 1 linux TestType.pull_request 2 12)
                   (mkRequest (Some "upload") None None (Some 5) (Some 9) None None None "")
                   0 (datetime.naive 0) eq_refl) eq_refl _ _ _);
    [discriminate|discriminate|by left].
Defined.

(** ** Reports and the outcome *)

Lemma mismatches_add_file (db : Db) (test : Test.t) (f : TestResultFile.t) :
  mismatches (with_result_files db (result_files db ++ [f])) test
  = Nat.add (mismatches db test)
            (if (TestResultFile.test_id f =? Test.id test)
                && in_ids (TestResultFile.regression_test_id f) (results_zero_rc db)
                && bool_decide (TestResultFile.got f <> None)
             then 1%nat else 0%nat).
Proof.
  unfold mismatches. simpl. rewrite List.filter_app, length_app. simpl.
  unfold results_zero_rc. simpl. by destruct (_ && _).
Qed.

(** X3: an authenticated upload of a result file for an output that is not
    known raises (the output is read without a check); for a known output
    it stores one result file whose [got] is the digest of the file, and
    from then on the outcome of the test is [FAILURE] if the regression
    test named in the request expects exit code 0. *)
Theorem upload_marks_mismatch `{ProgressStep} (config : Config) (db : Db)
    (test : Test.t) (request : Request) (now : Z) (stamp : datetime.t)
    (rt_id test_file_id : Z) (name : string) :
  query_first (fun t => Test.id t =? Test.id test) (tests db) = Some test ->
  form_type request = Some "upload" ->
  form_test_id request = Some rt_id ->
  form_test_file_id request = Some test_file_id ->
  file request = Some name ->
  name <> "" ->
  let known := query_first (fun o => RegressionTestOutput.id o =? test_file_id)
                           (regression_outputs db) in
  let run := progress_reporter config db (Test.id test) (Test.token test) request now stamp in
  (known = None -> run = Raise db AttributeError)
  /\ (forall rto, known = Some rto ->
        let db' := with_result_files db
                     (result_files db
                      ++ [TestResultFile.mk (Test.id test) rt_id (RegressionTestOutput.id rto)
                            (RegressionTestOutput.correct rto) (Some (file_sha256 request))]) in
        run = Ok db' (OK, [])
        /\ ((exists rt, rt ∈ regression_tests db /\ RegressionTest.id rt = rt_id
                        /\ RegressionTest.expected_rc rt = 0) ->
            fst (outcome db' test) = FAILURE)).
Proof.
  intros Htest Htype Hrt Hfile Hname Hne known run.
  assert (Hrun : run = bind (upload_type_request db test request)
                            (fun db stored => if stored : bool then Ok db (OK, [])
                                              else Ok db (EMPTY, []))).
  { unfold run, progress_reporter. by rewrite Htest, String.eqb_refl, Htype. }
  rewrite Hrun. unfold upload_type_request. rewrite Hrt, Hfile, Hname.
  destruct (String.eqb_spec name "") as [|_]; [done|]. fold known. split.
  - by intros ->.
  - intros rto ->. simpl. split; [done|]. intros (rt & Hin & Hid & Hrc).
    apply outcome_failure. right. eexists. split; [|split; [|split]].
    + simpl. apply elem_of_app. right. by left.
    + done.
    + done.
    + by exists rt.
Qed.

Lemma upload_marks_mismatch_witness :
  exists db',
    progress_reporter (H := member_steps) sample_config clean_db 7 "secret"
      (upload_request 5 9 "out.srt" "beef") 0 (datetime.naive 0)
    = Ok db' (OK, [])
    /\ fst (outcome db' (sample_test 7 linux TestType.pull_request 2 12)) = FAILURE.
Proof.
  eexists. 
  refine ((fun Hrun => conj (proj1 Hrun) (proj2 Hrun _))
            (proj2 (upload_marks_mismatch (H := member_steps) sample_config clean_db
                      (sample_test 7 linux TestType.pull_request 2 12)
                      (upload_request 5 9 "out.srt" "beef") 0 (datetime.naive 0)
                      5 9 "out.srt" eq_refl eq_refl eq_refl eq_refl eq_refl _)
                   (RegressionTestOutput.mk 9 5 "cafe" false) eq_refl)).
  - exists (RegressionTest.mk 5 "-out=srt" "file" "file" "sample.ts" "sha" 0).
    split; [by left|done].
  - discriminate.
Defined.

(** X4: an equality report never changes the outcome of any test: whatever
    the reporter does with a request of type [equality], the two counts
    that decide the outcome stay as they were. *)
Theorem equality_keeps_outcome `{ProgressStep} (config : Config) (db : Db)
    (test_id : Z) (token : string) (request : Request) (now : Z) (stamp : datetime.t)
    (test : Test.t) :
  form_type request = Some "equality" ->
  outcome (db_of (progress_reporter config db test_id token request now stamp)) test
  = outcome db test.
Proof.
  intros Htype. unfold progress_reporter.
  destruct (query_first _ (tests db)) as [reported|]; [|done].
  destruct (String.eqb (Test.token reported) token); [|done].
  rewrite Htype. simpl. unfold equality_type_request.
  destruct (form_test_id request), (form_test_file_id request); try done.
  destruct (query_first _ (regression_outputs db)) as [rto|]; [|done].
  simpl. unfold outcome. rewrite mismatches_add_file. simpl.
  rewrite andb_false_r. by rewrite Nat.add_0_r.
Qed.

Lemma equality_keeps_outcome_witness :
  outcome (db_of (progress_reporter (H := member_steps) sample_config clean_db 7 "secret"
                    (equality_request 5 9) 0 (datetime.naive 0)))
          (sample_test 7 linux TestType.pull_request 2 12)
  = (SUCCESS, "Tests completed").
Proof.
  rewrite (equality_keeps_outcome (H := member_steps) sample_config clean_db 7 "secret"
             (equality_request 5 9) 0 (datetime.naive 0)
             (sample_test 7 linux TestType.pull_request 2 12) eq_refl).
  reflexivity.
Defined.

Lemma crashes_add_result (db : Db) (test : Test.t) (r : TestResult.t) :
  crashes (with_results db (results db ++ [r])) test
  = Nat.add (crashes db test)
            (if (TestResult.test_id r =? Test.id test)
                && negb (TestResult.exit_code r =? TestResult.expected_rc r)
             then 1%nat else 0%nat).
Proof.
  unfold crashes. simpl. rewrite List.filter_app, length_app. simpl. by destruct (_ && _).
Qed.

(** X5: the first authenticated finish report of a test for a regression
    test stores a result that carries the expected exit code of the
    regression test; the outcome of the test is [FAILURE] from then on if
    the reported exit code differs from it, and is what it was before if
    the two agree.  A finish report for a regression test that does not
    exist raises. *)
Theorem finish_records_result `{ProgressStep} (config : Config) (db : Db)
    (test : Test.t) (request : Request) (now : Z) (stamp : datetime.t)
    (rt_id run_time exit_code : Z) :
  query_first (fun t => Test.id t =? Test.id test) (tests db) = Some test ->
  form_type request = Some "finish" ->
  form_test_id request = Some rt_id ->
  form_runTime request = Some run_time ->
  form_exitCode request = Some exit_code ->
  let known := query_first (fun rt => RegressionTest.id rt =? rt_id) (regression_tests db) in
  let run := progress_reporter config db (Test.id test) (Test.token test) request now stamp in
  (known = None -> run = Raise db AttributeError)
  /\ (forall rt, known = Some rt ->
        (forall r, r ∈ results db -> TestResult.test_id r = Test.id test ->
                   TestResult.regression_test_id r <> rt_id) ->
        let db' := with_results db
                     (results db
                      ++ [TestResult.mk (Test.id test) rt_id run_time exit_code
                                        (RegressionTest.expected_rc rt)]) in
        run = Ok db' (OK, [])
        /\ (exit_code <> RegressionTest.expected_rc rt -> fst (outcome db' test) = FAILURE)
        /\ (exit_code = RegressionTest.expected_rc rt -> outcome db' test = outcome db test)).
Proof.
  intros Htest Htype Hrt Htime Hcode known run.
  assert (Hrun : run = bind (finish_type_request db test request)
                            (fun db _ => Ok db (OK, []))).
  { unfold run, progress_reporter. by rewrite Htest, String.eqb_refl, Htype. }
  rewrite Hrun. unfold finish_type_request. rewrite Hrt. fold known. split.
  - by intros ->.
  - intros rt Hknown Hfirst. rewrite Hknown, Htime, Hcode.
    apply query_first_Some in Hknown as [_ Hid]. apply Z.eqb_eq in Hid. rewrite Hid.
    assert (Hnodup : existsb (fun r => (TestResult.test_id r =? Test.id test)
                                       && (TestResult.regression_test_id r =? rt_id))
                             (results db) = false).
    { apply not_true_iff_false. intros Hex. apply existsb_exists in Hex as (r & Hin & Hr).
      apply andb_true_iff in Hr as [Ht Hr]. apply Z.eqb_eq in Ht, Hr.
      apply list_elem_of_In in Hin. by destruct (Hfirst r Hin Ht). }
    rewrite Hnodup. simpl. split; [done|]. split.
    + intros Hne. apply outcome_failure. left. eexists. split; [|split].
      * simpl. apply elem_of_app. right. by left.
      * done.
      * done.
    + intros ->. unfold outcome. rewrite crashes_add_result. simpl.
      rewrite !Z.eqb_refl. simpl. by rewrite Nat.add_0_r.
Qed.

Lemma finish_records_result_witness :
  exists db',
    progress_reporter (H := member_steps) sample_config clean_db 7 "secret"
      (finish_request 5 3 139) 0 (datetime.naive 0)
    = Ok db' (OK, [])
    /\ fst (outcome db' (sample_test 7 linux TestType.pull_request 2 12)) = FAILURE.
Proof.
  eexists.
  refine ((fun Hrun => conj (proj1 Hrun) (proj1 (proj2 Hrun) _))
            (proj2 (finish_records_result (H := member_steps) sample_config clean_db
                      (sample_test 7 linux TestType.pull_request 2 12)
                      (finish_request 5 3 139) 0 (datetime.naive 0) 5 3 139
                      eq_refl eq_refl eq_refl eq_refl eq_refl)
                   (RegressionTest.mk 5 "-out=srt" "file" "file" "sample.ts" "sha" 0)
                   eq_refl _)).
  all: first [ by (simpl; discriminate) | by (intros r Hr; apply elem_of_nil in Hr) ].
Defined.

(** ** The phase-time accumulator, continued *)

Lemma append_inj_l (s a b : string) : (s ++ a)%string = (s ++ b)%string -> a = b.
Proof. induction s as [|c s IH]; simpl; [done|]. intros [= Heq]. by apply IH. Qed.

Lemma avg_keys_differ (process_type : string) (platform : TestPlatform) :
  avg_time_key process_type platform <> avg_count_key process_type platform.
Proof.
  unfold avg_time_key, avg_count_key. intros Heq.
  apply (append_inj_l "avg_") in Heq. apply append_inj_l in Heq. discriminate.
Qed.

(** One more sample on an accumulator that holds [n] samples. *)
Lemma set_avg_time_next (db : Db) (platform : TestPlatform) (process_type : string)
    (x a : Qc) (n : Z) :
  general_data db !! avg_count_key process_type platform = Some (Number (Z2Qc n)) ->
  general_data db !! avg_time_key process_type platform = Some (Number a) ->
  1 <= n ->
  exists db',
    set_avg_time db platform process_type x = Ok db' tt
    /\ general_data db' !! avg_count_key process_type platform = Some (Number (Z2Qc (n + 1)))
    /\ general_data db' !! avg_time_key process_type platform
       = Some (Number ((Z2Qc (int_of_float a) * Z2Qc n + x) / Z2Qc (n + 1))%Qc)
    /\ (forall key, key <> avg_time_key process_type platform ->
                    key <> avg_count_key process_type platform ->
                    general_data db' !! key = general_data db !! key)
    /\ catalog db' = catalog db /\ progress db' = progress db /\ kvm db' = kvm db.
Proof.
  intros Hcount Hval Hn. eexists. split.
  - apply (set_avg_time_update db platform process_type x a n Hcount Hval). lia.
  - fold (avg_time_key process_type platform) (avg_count_key process_type platform).
    pose proof (avg_keys_differ process_type platform) as Hne. simpl.
    split; [by rewrite lookup_insert_ne, lookup_insert_eq|].
    split; [by rewrite lookup_insert_eq|].
    split; [|done]. intros key Hk1 Hk2. by rewrite !lookup_insert_ne.
Qed.

Lemma set_avg_time_first (db : Db) (platform : TestPlatform) (process_type : string)
    (x : Qc) :
  general_data db !! avg_count_key process_type platform = None ->
  general_data db !! avg_time_key process_type platform = None ->
  exists db',
    set_avg_time db platform process_type x = Ok db' tt
    /\ general_data db' !! avg_count_key process_type platform = Some (Number (Z2Qc 1))
    /\ general_data db' !! avg_time_key process_type platform = Some (Number x)
    /\ (forall key, key <> avg_time_key process_type platform ->
                    key <> avg_count_key process_type platform ->
                    general_data db' !! key = general_data db !! key)
    /\ catalog db' = catalog db /\ progress db' = progress db /\ kvm db' = kvm db.
Proof.
  intros Hcount Hval. eexists. split.
  - unfold set_avg_time. fold (avg_time_key process_type platform)
                              (avg_count_key process_type platform).
    by rewrite Hcount, Hval.
  - pose proof (avg_keys_differ process_type platform) as Hne. simpl.
    split; [by rewrite lookup_insert_ne, lookup_insert_eq|].
    split; [by rewrite lookup_insert_eq|].
    split; [|done]. intros key Hk1 Hk2. by rewrite !lookup_insert_ne.
Qed.

Lemma feed_samples_from (platform : TestPlatform) (process_type : string)
    (samples : list Qc) :
  forall (db : Db) (a : Qc) (n : Z),
    general_data db !! avg_count_key process_type platform = Some (Number (Z2Qc n)) ->
    general_data db !! avg_time_key process_type platform = Some (Number a) ->
    1 <= n ->
    exists db' a',
      feed_samples db platform process_type samples = Ok db' tt
      /\ general_data db' !! avg_count_key process_type platform
         = Some (Number (Z2Qc (n + Z.of_nat (length samples))))
      /\ general_data db' !! avg_time_key process_type platform = Some (Number a')
      /\ (forall key, key <> avg_time_key process_type platform ->
                      key <> avg_count_key process_type platform ->
                      general_data db' !! key = general_data db !! key)
      /\ catalog db' = catalog db /\ progress db' = progress db /\ kvm db' = kvm db.
Proof.
  induction samples as [|x rest IH]; intros db a n Hcount Hval Hn.
  - exists db, a. simpl. by rewrite Z.add_0_r.
  - destruct (set_avg_time_next db platform process_type x a n Hcount Hval Hn)
      as (db1 & Hrun & Hcount1 & Hval1 & Hkeys1 & Hcat1 & Hprog1 & Hkvm1).
    destruct (IH db1 _ (n + 1) Hcount1 Hval1 ltac:(lia))
      as (db' & a' & Hfeed & Hcount' & Hval' & Hkeys' & Hcat' & Hprog' & Hkvm').
    exists db', a'. simpl. rewrite Hrun. simpl. split; [done|].
    split; [rewrite Hcount'; do 3 f_equal; lia|]. split; [done|].
    split; [|split; [|split]]; try congruence.
    intros key Hk1 Hk2. by rewrite Hkeys', Hkeys1.
Qed.

(** X6: feeding a non-empty list of samples to an accumulator that does not
    exist yet never raises and leaves the counter at the number of samples
    fed; only the two keys of the accumulator change in [GeneralData], so
    that the accumulators of the other phase and of the other platform are
    untouched, and no other table changes. *)
Theorem feed_samples_counts (db : Db) (platform : TestPlatform) (process_type : string)
    (samples : list Qc) :
  general_data db !! avg_count_key process_type platform = None ->
  general_data db !! avg_time_key process_type platform = None ->
  samples <> [] ->
  exists db' average,
    feed_samples db platform process_type samples = Ok db' tt
    /\ general_data db' !! avg_count_key process_type platform
       = Some (Number (Z2Qc (Z.of_nat (length samples))))
    /\ general_data db' !! avg_time_key process_type platform = Some (Number average)
    /\ (forall key, key <> avg_time_key process_type platform ->
                    key <> avg_count_key process_type platform ->
                    general_data db' !! key = general_data db !! key)
    /\ catalog db' = catalog db /\ progress db' = progress db /\ kvm db' = kvm db.
Proof.
  intros Hcount Hval Hsome. destruct samples as [|x rest]; [done|].
  destruct (set_avg_time_first db platform process_type x Hcount Hval)
    as (db1 & Hrun & Hcount1 & Hval1 & Hkeys1 & Hcat1 & Hprog1 & Hkvm1).
  destruct (feed_samples_from platform process_type rest db1 x 1 Hcount1 Hval1 ltac:(lia))
    as (db' & a' & Hfeed & Hcount' & Hval' & Hkeys' & Hcat' & Hprog' & Hkvm').
  exists db', a'. simpl. rewrite Hrun. simpl. split; [done|].
  split; [rewrite Hcount'; do 3 f_equal; lia|]. split; [done|].
  split; [|split; [|split]]; try congruence.
  intros key Hk1 Hk2. by rewrite Hkeys', Hkeys1.
Qed.

Lemma feed_samples_counts_witness :
  exists db' average,
    feed_samples empty_db linux "prep" [Z2Qc 4; Z2Qc 5; Z2Qc 7; Z2Qc 9] = Ok db' tt
    /\ general_data db' !! "avg_prep_count_linux" = Some (Number (Z2Qc 4))
    /\ general_data db' !! "avg_prep_time_linux" = Some (Number average)
    /\ general_data db' !! "avg_build_time_linux" = None.
Proof.
  destruct (feed_samples_counts empty_db linux "prep" [Z2Qc 4; Z2Qc 5; Z2Qc 7; Z2Qc 9])
    as (db' & average & Hrun & Hcount & Hval & Hkeys & _); try done.
  exists db', average. split; [done|]. split; [done|]. split; [done|].
  by rewrite Hkeys.
Defined.

Lemma Z2Qc_nonneg (z : Z) : 0 <= z -> (0 <= Z2Qc z)%Qc.
Proof. intros Hz. unfold Qcle. rewrite Z2Qc_this. unfold Qle. simpl. lia. Qed.

Lemma Z2Qc_pos (z : Z) : 0 < z -> (0 < Z2Qc z)%Qc.
Proof. intros Hz. unfold Qclt. rewrite Z2Qc_this. unfold Qlt. simpl. lia. Qed.

(** Cutting a non-negative float to an integer does not raise it. *)
Lemma int_of_float_le (a : Qc) : (0 <= a)%Qc -> (0 <= Z2Qc (int_of_float a) <= a)%Qc.
Proof.
  intros Ha. unfold int_of_float.
  assert (Hnum : 0 <= Qnum a).
  { unfold Qcle, Qle in Ha. simpl in Ha. lia. }
  rewrite Z.quot_div_nonneg by lia. split.
  - apply Z2Qc_nonneg. apply Z.div_pos; lia.
  - unfold Qcle. rewrite Z2Qc_this.
    pose proof (Qfloor_le a) as Hfloor. by destruct a as [[n d] Hc].
Qed.

Lemma Qcdiv_mult (p q : Qc) : q <> 0%Qc -> (p / q * q)%Qc = p.
Proof.
  intros Hq. unfold Qcdiv. rewrite <- Qcmult_assoc, Qcmult_inv_l by done.
  apply Qcmult_1_r.
Qed.

Lemma Qcdiv_nonneg (p q : Qc) : (0 <= p)%Qc -> (0 < q)%Qc -> (0 <= p / q)%Qc.
Proof.
  intros Hp Hq. apply (Qcmult_lt_0_le_reg_r _ _ q Hq).
  rewrite Qcmult_0_l, Qcdiv_mult; [done|].
  intros ->. by apply Qclt_not_eq in Hq.
Qed.

Lemma feed_samples_below_sum (platform : TestPlatform) (process_type : string)
    (samples : list Qc) :
  forall (db : Db) (a total : Qc) (n : Z),
    general_data db !! avg_count_key process_type platform = Some (Number (Z2Qc n)) ->
    general_data db !! avg_time_key process_type platform = Some (Number a) ->
    1 <= n ->
    (0 <= a)%Qc ->
    (a * Z2Qc n <= total)%Qc ->
    Forall (fun x => (0 <= x)%Qc) samples ->
    exists db' a',
      feed_samples db platform process_type samples = Ok db' tt
      /\ general_data db' !! avg_time_key process_type platform = Some (Number a')
      /\ (0 <= a')%Qc
      /\ (a' * Z2Qc (n + Z.of_nat (length samples)) <= total + Qc_sum samples)%Qc.
Proof.
  induction samples as [|x rest IH]; intros db a total n Hcount Hval Hn Ha Hsum Hpos.
  - exists db, a. simpl. by rewrite Z.add_0_r, Qcplus_0_r.
  - apply Forall_cons in Hpos as [Hx Hrest].
    destruct (set_avg_time_next db platform process_type x a n Hcount Hval Hn)
      as (db1 & Hrun & Hcount1 & Hval1 & _).
    destruct (int_of_float_le a Ha) as [Hcut0 Hcut].
    set (a1 := ((Z2Qc (int_of_float a) * Z2Qc n + x) / Z2Qc (n + 1))%Qc) in *.
    assert (Hn1 : (0 < Z2Qc (n + 1))%Qc) by (apply Z2Qc_pos; lia).
    assert (Hnum : (0 <= Z2Qc (int_of_float a) * Z2Qc n + x)%Qc).
    { apply Qcplus_nonneg_nonneg; [|done].
      apply Qcmult_nonneg_nonneg; [done|]. apply Z2Qc_nonneg. lia. }
    assert (Ha1 : (0 <= a1)%Qc) by by apply Qcdiv_nonneg.
    assert (Hsum1 : (a1 * Z2Qc (n + 1) <= total + x)%Qc).
    { unfold a1. rewrite Qcdiv_mult by (intros Hz; rewrite Hz in Hn1; by apply Qclt_not_eq in Hn1).
      apply Qcplus_le_compat; [|apply Qcle_refl].
      eapply Qcle_trans; [|exact Hsum].
      apply Qcmult_le_compat_r; [done|]. apply Z2Qc_nonneg. lia. }
    destruct (IH db1 a1 (total + x)%Qc (n + 1) Hcount1 Hval1 ltac:(lia) Ha1 Hsum1 Hrest)
      as (db' & a' & Hfeed & Hval' & Ha' & Hsum').
    exists db', a'. simpl. rewrite Hrun. simpl. split; [done|]. split; [done|].
    split; [done|]. rewrite Qcplus_assoc.
    by replace (n + Z.of_nat (S (length rest)))
      with (n + 1 + Z.of_nat (length rest)) by lia.
Qed.

(** X7: when the samples fed to a fresh accumulator are not negative, the
    stored average is not negative and, multiplied by the number of
    samples, does not exceed their sum: cutting the stored average to an
    integer before each update can only lower it, so the accumulator never
    overestimates the mean. *)
Theorem stored_average_below_mean (db : Db) (platform : TestPlatform)
    (process_type : string) (samples : list Qc) :
  general_data db !! avg_count_key process_type platform = None ->
  general_data db !! avg_time_key process_type platform = None ->
  samples <> [] ->
  Forall (fun x => (0 <= x)%Qc) samples ->
  exists db' average,
    feed_samples db platform process_type samples = Ok db' tt
    /\ general_data db' !! avg_time_key process_type platform = Some (Number average)
    /\ (0 <= average)%Qc
    /\ (average * Z2Qc (Z.of_nat (length samples)) <= Qc_sum samples)%Qc.
Proof.
  intros Hcount Hval Hsome Hpos. destruct samples as [|x rest]; [done|].
  apply Forall_cons in Hpos as [Hx Hrest].
  destruct (set_avg_time_first db platform process_type x Hcount Hval)
    as (db1 & Hrun & Hcount1 & Hval1 & _).
  destruct (feed_samples_below_sum platform process_type rest db1 x x 1 Hcount1 Hval1
              ltac:(lia) Hx) as (db' & a' & Hfeed & Hval' & Ha' & Hsum'); [|done|].
  { change (Z2Qc 1) with 1%Qc. rewrite Qcmult_1_r. apply Qcle_refl. }
  exists db', a'. simpl. rewrite Hrun. simpl. split; [done|]. split; [done|].
  split; [done|].
  by replace (Z.of_nat (S (length rest))) with (1 + Z.of_nat (length rest)) by lia.
Qed.

Lemma stored_average_below_mean_witness :
  exists db' average,
    feed_samples empty_db linux "prep" [Z2Qc 1; Z2Qc 2; Z2Qc 3] = Ok db' tt
    /\ general_data db' !! "avg_prep_time_linux" = Some (Number average)
    /\ (average * Z2Qc 3 <= Z2Qc 1 + (Z2Qc 2 + (Z2Qc 3 + 0)))%Qc.
Proof.
  destruct (stored_average_below_mean empty_db linux "prep" [Z2Qc 1; Z2Qc 2; Z2Qc 3])
    as (db' & average & Hrun & Hval & _ & Hsum); try done.
  - repeat constructor; by apply Z2Qc_nonneg.
  - by exists db', average.
Defined.

(** ** The progress ingestor, continued *)

(** X8: the first report of a test is recorded with the status and message
    it carries, whatever the status; so is a report whose rank is the rank
    last recorded, which is not treated as a duplicate.  In both cases only
    the progress table changes. *)
Theorem report_recorded_as_is `{Hspec : ProgressStepSpec} (db : Db) (test : Test.t)
    (request : Request) (now : Z) (stamp : datetime.t) (name : string)
    (reported : TestStatus) (message : string) :
  form_status request = Some name ->
  from_string name = Some reported ->
  form_message request = Some message ->
  last (test_progress db (Test.id test)) = None
  \/ (exists last_event a,
        last (test_progress db (Test.id test)) = Some last_event
        /\ TestProgress.status last_event <> completed
        /\ rank (TestProgress.status last_event) = Some a
        /\ rank reported = Some a) ->
  record_progress db test request now stamp
  = Ok (add_progress db (reported_event test reported message stamp))
       (Some (reported, reported_event test reported message stamp)).
Proof.
  intros Hname Hreported Hmessage Hlast. unfold record_progress.
  rewrite Hname, Hreported, Hmessage.
  destruct Hlast as [-> | (last_event & a & -> & Hopen & Ha & Hb)]; [done|].
  assert (Hterm : is_terminal (TestProgress.status last_event) = false).
  { by destruct (TestProgress.status last_event). }
  rewrite (step_eq_open _ Hterm), (step_gt_spec _ _ a a Ha Hb), (step_lt_spec _ _ a a Ha Hb).
  by rewrite Z.ltb_irrefl.
Qed.

Lemma report_recorded_as_is_witness :
  record_progress (H := member_steps) testing_db
    (sample_test 7 linux TestType.pull_request 2 12)
    (progress_request "testing" "still testing") 25 (datetime.naive 25)
  = Ok (add_progress testing_db
          (TestProgress.mk 7 testing "still testing" (datetime.naive 25)))
       (Some (testing, TestProgress.mk 7 testing "still testing" (datetime.naive 25))).
Proof.
  apply (report_recorded_as_is (Hspec := member_steps_spec) testing_db
           (sample_test 7 linux TestType.pull_request 2 12)
           (progress_request "testing" "still testing") 25 (datetime.naive 25)
           "testing" testing "still testing" eq_refl eq_refl eq_refl).
  right. exists (event 7 testing 20), 2. repeat split; discriminate.
Defined.

Lemma query_first_update_first {A : Type} (p : A -> bool) (f : A -> A) (rows : list A)
    (x : A) :
  query_first p rows = Some x -> p (f x) = true ->
  query_first p (update_first p f rows) = Some (f x).
Proof.
  unfold query_first. induction rows as [|r rest IH]; simpl; [done|].
  destruct (p r) eqn:Hr; simpl.
  - intros [= ->] Hfx. by rewrite Hfx.
  - intros Hx Hfx. rewrite Hr. by apply IH.
Qed.

Lemma set_avg_time_held (db : Db) (platform : TestPlatform) (process_type : string)
    (x : Qc) (n : Z) :
  samples_held db process_type platform n ->
  exists db',
    set_avg_time db platform process_type x = Ok db' tt
    /\ samples_held db' process_type platform (n + 1)
    /\ (n = 0 -> general_data db' !! avg_time_key process_type platform = Some (Number x))
    /\ catalog db' = catalog db /\ progress db' = progress db /\ kvm db' = kvm db.
Proof.
  intros [(-> & Hcount & Hval)|(Hn & Hcount & a & Hval)].
  - destruct (set_avg_time_first db platform process_type x Hcount Hval)
      as (db' & Hrun & Hcount' & Hval' & _ & Hframe).
    exists db'. split; [done|]. split; [|by split].
    right. split; [lia|]. split; [done|]. by exists x.
  - destruct (set_avg_time_next db platform process_type x a n Hcount Hval Hn)
      as (db' & Hrun & Hcount' & Hval' & _ & Hframe).
    exists db'. split; [done|]. split; [|split; [lia|done]].
    right. split; [lia|]. split; [done|]. by eexists.
Qed.

(** X9: a report of [building] for a test whose last status is
    [preparation] and that has a Kvm entry stamps the entry with the
    instant of the report as the end of the preparation, adds one sample to
    the preparation-time accumulator of the platform (the time since the
    entry was created, when the accumulator is new), and records the
    event. *)
Theorem building_report_stamps_entry `{Hspec : ProgressStepSpec} (db : Db)
    (test : Test.t) (request : Request) (now : Z) (stamp : datetime.t)
    (last_event : TestProgress.t) (message : string) (k : Kvm.t) (n : Z) :
  last (test_progress db (Test.id test)) = Some last_event ->
  TestProgress.status last_event = preparation ->
  form_status request = Some "building" ->
  form_message request = Some message ->
  query_first (for_test test) (kvm db) = Some k ->
  samples_held db "prep" (Test.platform test) n ->
  exists db',
    record_progress db test request now stamp
    = Ok db' (Some (building, reported_event test building message stamp))
    /\ query_first (for_test test) (kvm db') = Some (set_prep_finished now k)
    /\ samples_held db' "prep" (Test.platform test) (n + 1)
    /\ (n = 0 -> general_data db' !! avg_time_key "prep" (Test.platform test)
                 = Some (Number (total_seconds (now - Kvm.timestamp k))))
    /\ progress db' = progress db ++ [reported_event test building message stamp]
    /\ catalog db' = catalog db.
Proof.
  intros Hlast Hprep Hname Hmessage Hkvm Hheld. unfold record_progress.
  rewrite Hname, Hmessage, Hlast. simpl.
  rewrite Hprep, (step_eq_open preparation eq_refl). simpl.
  rewrite (step_gt_spec preparation building 0 1 eq_refl eq_refl),
    (step_lt_spec preparation building 0 1 eq_refl eq_refl).
  simpl. fold (for_test test). rewrite Hkvm.
  set (db1 := with_kvm db (update_first (for_test test) (set_prep_finished now) (kvm db))).
  assert (Hheld1 : samples_held db1 "prep" (Test.platform test) n) by exact Hheld.
  destruct (set_avg_time_held db1 (Test.platform test) "prep"
              (total_seconds (now - Kvm.timestamp k)) n Hheld1)
    as (db2 & Hrun & Hheld2 & Hfirst & Hcat & Hprog & Hkvm2).
  rewrite Hrun. simpl. eexists. split; [reflexivity|]. simpl.
  split; [|split; [exact Hheld2|split; [exact Hfirst|split; [by rewrite Hprog|]]]].
  - rewrite Hkvm2. apply query_first_update_first; [done|].
    apply query_first_Some in Hkvm as [_ Hk]. exact Hk.
  - unfold catalog in *. simpl. exact Hcat.
Qed.

Lemma building_report_stamps_entry_witness :
  exists db',
    record_progress (H := member_steps) leased_db
      (sample_test 7 linux TestType.pull_request 2 12)
      (progress_request "building" "compiling") 65000000 (datetime.naive 65000000)
    = Ok db' (Some (building, TestProgress.mk 7 building "compiling"
                                (datetime.naive 65000000)))
    /\ query_first (for_test (sample_test 7 linux TestType.pull_request 2 12)) (kvm db')
       = Some (Kvm.mk "linux-vm" 7 5000000 (Some 65000000) None)
    /\ general_data db' !! "avg_prep_time_linux" = Some (Number (total_seconds 60000000)).
Proof.
  destruct (building_report_stamps_entry (Hspec := member_steps_spec) leased_db
              (sample_test 7 linux TestType.pull_request 2 12)
              (progress_request "building" "compiling") 65000000 (datetime.naive 65000000)
              (event 7 preparation 0) "compiling"
              (Kvm.mk "linux-vm" 7 5000000 None None) 0
              eq_refl eq_refl eq_refl eq_refl eq_refl)
    as (db' & Hrun & Hkvm & _ & Hfirst & _).
  - left. by repeat split.
  - exists db'. split; [exact Hrun|]. split; [exact Hkvm|]. by apply Hfirst.
Defined.

(** X10: a report of [testing] for a test that has a Kvm entry stamps the
    entry with the instant of the report as the end of the build.  If the
    entry bears the end of the preparation, the time since then is added to
    the build-time accumulator and the event is recorded.  If it does not
    (the test never reported [building]), the handler raises after the
    stamp is stored: no event is recorded, and the same holds for every
    later report of [testing]. *)
Theorem testing_report_needs_building `{Hspec : ProgressStepSpec} (config : Config)
    (db : Db) (test : Test.t) (request : Request) (now : Z) (stamp : datetime.t)
    (last_event : TestProgress.t) (message : string) (k : Kvm.t) (a n : Z) :
  last (test_progress db (Test.id test)) = Some last_event ->
  rank (TestProgress.status last_event) = Some a ->
  a < 2 ->
  form_status request = Some "testing" ->
  form_message request = Some message ->
  query_first (for_test test) (kvm db) = Some k ->
  let stamped := with_kvm db (update_first (for_test test) (set_build_finished now) (kvm db)) in
  (Kvm.timestamp_prep_finished k = None ->
   progress_type_request config db test request now stamp = Raise stamped TypeError
   /\ last (test_progress stamped (Test.id test)) = Some last_event
   /\ query_first (for_test test) (kvm stamped) = Some (set_build_finished now k)
   /\ Kvm.timestamp_prep_finished (set_build_finished now k) = None)
  /\ (forall prep_finished,
        Kvm.timestamp_prep_finished k = Some prep_finished ->
        samples_held db "build" (Test.platform test) n ->
        exists db',
          record_progress db test request now stamp
          = Ok db' (Some (testing, reported_event test testing message stamp))
          /\ query_first (for_test test) (kvm db') = Some (set_build_finished now k)
          /\ samples_held db' "build" (Test.platform test) (n + 1)
          /\ (n = 0 -> general_data db' !! avg_time_key "build" (Test.platform test)
                       = Some (Number (total_seconds (now - prep_finished))))
          /\ progress db' = progress db ++ [reported_event test testing message stamp]).
Proof.
  intros Hlast Ha Hlt Hname Hmessage Hkvm stamped.
  assert (Hterm : is_terminal (TestProgress.status last_event) = false).
  { destruct (TestProgress.status last_event); simplify_eq/=; try done; lia. }
  assert (Hstamped : query_first (for_test test) (kvm stamped)
                     = Some (set_build_finished now k)).
  { apply query_first_update_first; [done|].
    apply query_first_Some in Hkvm as [_ Hk]. exact Hk. }
  assert (Hrec : record_progress db test request now stamp
                 = match Kvm.timestamp_prep_finished k with
                   | None => Raise stamped TypeError
                   | Some prep_finished =>
                       bind (set_avg_time stamped (Test.platform test) "build"
                               (total_seconds (now - prep_finished)))
                            (fun db2 _ =>
                               Ok (add_progress db2 (reported_event test testing message stamp))
                                  (Some (testing, reported_event test testing message stamp)))
                   end).
  { unfold record_progress. rewrite Hname, Hmessage, Hlast. simpl.
    rewrite (step_eq_open _ Hterm).
    rewrite (step_gt_spec _ testing a 2 Ha eq_refl), (step_lt_spec _ testing a 2 Ha eq_refl).
    rewrite (proj2 (Z.ltb_lt a 2) Hlt), (proj2 (Z.ltb_ge 2 a)) by lia.
    simpl. fold (for_test test). by rewrite Hkvm. }
  split.
  - intros Hnone. unfold progress_type_request. rewrite Hrec, Hnone. simpl.
    split; [done|]. split; [exact Hlast|]. split; [exact Hstamped|done].
  - intros prep_finished Hprep Hheld. rewrite Hrec, Hprep.
    assert (Hheld1 : samples_held stamped "build" (Test.platform test) n) by exact Hheld.
    destruct (set_avg_time_held stamped (Test.platform test) "build"
                (total_seconds (now - prep_finished)) n Hheld1)
      as (db2 & Hrun & Hheld2 & Hfirst & Hcat & Hprog & Hkvm2).
    rewrite Hrun. simpl. eexists. split; [reflexivity|]. simpl.
    split; [by rewrite Hkvm2|]. split; [exact Hheld2|]. split; [exact Hfirst|].
    by rewrite Hprog.
Qed.

Lemma testing_report_needs_building_witness :
  progress_type_request (H := member_steps) sample_config leased_db
    (sample_test 7 linux TestType.pull_request 2 12)
    (progress_request "testing" "running") 65000000 (datetime.naive 65000000)
  = Raise (with_kvm leased_db [Kvm.mk "linux-vm" 7 5000000 None (Some 65000000)]) TypeError.
Proof.
  refine (proj1 (proj1 (testing_report_needs_building (Hspec := member_steps_spec)
                          sample_config leased_db
                          (sample_test 7 linux TestType.pull_request 2 12)
                          (progress_request "testing" "running") 65000000
                          (datetime.naive 65000000) (event 7 preparation 0) "running"
                          (Kvm.mk "linux-vm" 7 5000000 None None) 0 0
                          eq_refl eq_refl _ eq_refl eq_refl eq_refl) eq_refl)).
  lia.
Defined.

(** The steps of a report that is processed to the end. *)
Lemma progress_type_request_steps `{ProgressStep} (config : Config) (db db1 db' : Db)
    (test : Test.t) (request : Request) (now : Z) (stamp : datetime.t)
    (status : TestStatus) (p : TestProgress.t) (b : bool) (calls : list Action) :
  record_progress db test request now stamp = Ok db1 (Some (status, p)) ->
  progress_type_request config db test request now stamp = Ok db' (b, calls) ->
  exists db2 db3 state message made,
    update_fetch_commit config db1 test status = Ok db2 tt
    /\ (if is_terminal status then finish_test db2 test else Ok db2 tt) = Ok db3 tt
    /\ final_state config db3 test status p = Ok db' (state, message, made)
    /\ b = true
    /\ calls = made
               ++ [GithubStatus (Test.commit test) state message
                     ("CI - " ++ platform_value (Test.platform test))%string (Test.id test)]
               ++ (if is_terminal status then [StartPlatforms 60 (Test.platform test)] else []).
Proof.
  intros Hrec. unfold progress_type_request. rewrite Hrec. simpl.
  destruct (update_fetch_commit config db1 test status) as [db2 []|] eqn:Hfetch;
    simpl; [|done].
  destruct (if is_terminal status then finish_test db2 test else Ok db2 tt)
    as [db3 []|] eqn:Hfinish; simpl; [|done].
  destruct (final_state config db3 test status p) as [db4 [[state message] made]|]
    eqn:Hfinal; simpl; [|done].
  intros [= <- <- <-]. by exists db2, db3, state, message, made.
Qed.

Lemma record_progress_terminal `{ProgressStep} (db db1 : Db) (test : Test.t)
    (request : Request) (now : Z) (stamp : datetime.t) (status : TestStatus)
    (p : TestProgress.t) :
  record_progress db test request now stamp = Ok db1 (Some (status, p)) ->
  is_terminal status = true ->
  db1 = add_progress db p.
Proof.
  unfold record_progress.
  destruct (form_status request) as [name|]; [|done].
  destruct (from_string name) as [reported|]; [|done].
  destruct (form_message request) as [message|]; [|done].
  destruct (last (test_progress db (Test.id test))) as [last_event|];
    [|by intros [= <- <- <-]].
  destruct (_ || _); [done|].
  destruct (step_gt _ _); destruct (step_lt _ _); simpl;
    repeat (destruct (decide _) as [->|?]; simpl);
    try done; try (by intros [= <- <- <-]);
    destruct (query_first _ _) as [k|]; try done;
    try (destruct (Kvm.timestamp_prep_finished k); try done);
    destruct (set_avg_time _ _ _ _) as [? []|]; simpl; try done;
    by intros [= <- <- <-].
Qed.

Lemma finish_test_kvm (db db' : Db) (test : Test.t) :
  finish_test db test = Ok db' tt ->
  kvm db' = delete_first (for_test test) (kvm db).
Proof.
  unfold finish_test.
  destruct (general_data db !! _) as [v|]; simpl.
  - pose proof (warm_average_frame db test
                  ("average_time_" ++ platform_value (Test.platform test))%string v)
      as (_ & _ & Hkvm).
    destruct (warm_average _ _ _ _) as [db1 []|]; simpl in *; [|done].
    intros [= <-]. simpl. by rewrite Hkvm.
  - by intros [= <-].
Qed.

Lemma elem_of_delete_first_other {A : Type} (p : A -> bool) (rows : list A) (x : A) :
  p x = false -> x ∈ rows -> x ∈ delete_first p rows.
Proof.
  intros Hx. induction rows as [|r rest IH]; simpl; [done|].
  rewrite elem_of_cons. intros [->|Hin].
  - rewrite Hx. apply elem_of_cons. by left.
  - destruct (p r); [done|]. apply elem_of_cons. right. by apply IH.
Qed.

Lemma delete_first_unique {A : Type} (p : A -> bool) (key : A -> Z) (rows : list A) (x : A) :
  (forall a b, p a = true -> p b = true -> key a = key b) ->
  NoDup (map key rows) ->
  x ∈ delete_first p rows -> p x = false.
Proof.
  intros Hkey. induction rows as [|r rest IH]; simpl; [by intros _ ?%elem_of_nil|].
  rewrite NoDup_cons. intros [Hr Hrest]. destruct (p r) eqn:Hpr.
  - intros Hin. destruct (p x) eqn:Hpx; [|done]. destruct Hr.
    rewrite (Hkey r x Hpr Hpx). apply list_elem_of_fmap. by exists x.
  - rewrite elem_of_cons. intros [->|Hin]; [done|]. by apply IH.
Qed.

(** X11: a report that records [completed] or [canceled] (also the
    [canceled] that replaces a report of a lower rank) and is processed to
    the end releases the machine: the entry of the test is deleted from the
    Kvm table, the entries of other tests stay, nothing but the event is
    added to the history, and the next pass of the platform is started with
    a delay of 60 seconds as the last call.  If the table holds at most one
    entry per test, no entry of the test is left. *)
Theorem terminal_report_frees_vm `{ProgressStep} (config : Config) (db db1 db' : Db)
    (test : Test.t) (request : Request) (now : Z) (stamp : datetime.t)
    (status : TestStatus) (p : TestProgress.t) (b : bool) (calls : list Action) :
  record_progress db test request now stamp = Ok db1 (Some (status, p)) ->
  is_terminal status = true ->
  progress_type_request config db test request now stamp = Ok db' (b, calls) ->
  kvm db' = delete_first (for_test test) (kvm db)
  /\ (forall k, Kvm.test_id k <> Test.id test -> k ∈ kvm db' <-> k ∈ kvm db)
  /\ (NoDup (map Kvm.test_id (kvm db)) ->
      forall k, k ∈ kvm db' -> Kvm.test_id k <> Test.id test)
  /\ progress db' = progress db ++ [p]
  /\ last calls = Some (StartPlatforms 60 (Test.platform test)).
Proof.
  intros Hrec Hterm Hrun.
  destruct (progress_type_request_steps config db db1 db' test request now stamp
              status p b calls Hrec Hrun)
    as (db2 & db3 & state & message & made & Hfetch & Hfinish & Hfinal & _ & ->).
  rewrite Hterm in Hfinish |- *.
  pose proof (record_progress_terminal db db1 test request now stamp status p Hrec Hterm)
    as ->.
  pose proof (update_fetch_commit_frame config (add_progress db p) test status)
    as (_ & Hprog2 & Hkvm2).
  rewrite Hfetch in Hprog2, Hkvm2. simpl in Hprog2, Hkvm2.
  pose proof (finish_test_frame db2 test) as (_ & Hprog3).
  rewrite Hfinish in Hprog3. simpl in Hprog3.
  pose proof (finish_test_kvm db2 db3 test Hfinish) as Hkvm3.
  pose proof (final_state_db config db3 test status p) as Hdb.
  rewrite Hfinal in Hdb. simpl in Hdb. subst db'.
  rewrite Hkvm3, Hkvm2, Hprog3, Hprog2.
  split; [done|]. split; [|split; [|split; [done|]]].
  - intros k Hk. split; [apply elem_of_delete_first|].
    apply elem_of_delete_first_other. unfold for_test. by apply Z.eqb_neq.
  - intros Hnodup k Hin.
    apply (delete_first_unique (for_test test) Kvm.test_id) in Hin; [|
      by unfold for_test; intros x y ->%Z.eqb_eq ->%Z.eqb_eq|done].
    unfold for_test in Hin. by apply Z.eqb_neq.
  - by rewrite !app_assoc, last_snoc.
Qed.

Lemma terminal_report_frees_vm_witness :
  exists db' calls,
    progress_type_request (H := member_steps) sample_config leased_db
      (sample_test 7 linux TestType.pull_request 2 12)
      (progress_request "canceled" "stopped") 65000000 (datetime.naive 65000000)
    = Ok db' (true, calls)
    /\ kvm db' = []
    /\ last calls = Some (StartPlatforms 60 linux).
Proof.
  eexists _, _. split; [reflexivity|].
  destruct (terminal_report_frees_vm (H := member_steps) sample_config leased_db _ _
              (sample_test 7 linux TestType.pull_request 2 12)
              (progress_request "canceled" "stopped") 65000000 (datetime.naive 65000000)
              canceled _ true _ eq_refl eq_refl eq_refl) as (Hkvm & _ & _ & _ & Hlast).
  split; [exact Hkvm|exact Hlast].
Defined.

Lemma map_update_first {A B : Type} (p : A -> bool) (f : A -> A) (g : A -> B)
    (rows : list A) :
  (forall x, g (f x) = g x) -> map g (update_first p f rows) = map g rows.
Proof.
  intros Hg. induction rows as [|r rest IH]; simpl; [done|].
  destruct (p r); simpl; [by rewrite Hg|by rewrite IH].
Qed.

Lemma record_progress_leases `{ProgressStep} (db : Db) (test : Test.t)
    (request : Request) (now : Z) (stamp : datetime.t) :
  map lease (kvm (db_of (record_progress db test request now stamp)))
  = map lease (kvm db).
Proof.
  unfold record_progress.
  destruct (form_status request) as [name|]; [|done].
  destruct (from_string name) as [reported|]; [|done].
  destruct (form_message request) as [message|]; [|done].
  destruct (last (test_progress db (Test.id test))) as [last_event|]; [|done].
  destruct (_ || _); [done|].
  destruct (step_gt _ _); destruct (step_lt _ _); simpl;
    repeat (destruct (decide _) as [?|?]; simpl); try done;
    destruct (query_first _ _) as [k|]; try done;
    try (destruct (Kvm.timestamp_prep_finished k); [|by apply map_update_first]);
    rewrite db_of_bind;
    match goal with
    | |- context [set_avg_time ?d ?pl ?ty ?x] =>
        pose proof (set_avg_time_frame d pl ty x) as (_ & _ & Hkvm);
        destruct (set_avg_time d pl ty x) as [? []|]; simpl in *; rewrite Hkvm;
        by apply map_update_first
    end.
Qed.

(** X12: a report that records a status other than [completed] and
    [canceled] and is processed to the end makes one call, the commit
    status [PENDING] with the message of the recorded event; it starts no
    pass of the scheduler, and it leaves every machine leased to the test it
    was leased to, since when it was. *)
Theorem running_report_keeps_vm `{ProgressStep} (config : Config) (db db1 db' : Db)
    (test : Test.t) (request : Request) (now : Z) (stamp : datetime.t)
    (status : TestStatus) (p : TestProgress.t) (b : bool) (calls : list Action) :
  record_progress db test request now stamp = Ok db1 (Some (status, p)) ->
  is_terminal status = false ->
  progress_type_request config db test request now stamp = Ok db' (b, calls) ->
  db' = db1
  /\ calls = [GithubStatus (Test.commit test) PENDING (TestProgress.message p)
                ("CI - " ++ platform_value (Test.platform test))%string (Test.id test)]
  /\ map lease (kvm db') = map lease (kvm db).
Proof.
  intros Hrec Hterm Hrun.
  destruct (progress_type_request_steps config db db1 db' test request now stamp
              status p b calls Hrec Hrun)
    as (db2 & db3 & state & message & made & Hfetch & Hfinish & Hfinal & _ & ->).
  rewrite Hterm in Hfinish |- *.
  pose proof (record_progress_leases db test request now stamp) as Hleases.
  rewrite Hrec in Hleases. simpl in Hleases.
  unfold update_fetch_commit in Hfetch. unfold final_state in Hfinal.
  destruct status; try done; simpl in *; by simplify_eq.
Qed.

Lemma running_report_keeps_vm_witness :
  exists db',
    progress_type_request (H := member_steps) sample_config leased_db
      (sample_test 7 linux TestType.pull_request 2 12)
      (progress_request "building" "compiling") 65000000 (datetime.naive 65000000)
    = Ok db' (true, [GithubStatus "abcdef" PENDING "compiling" "CI - linux" 7])
    /\ map lease (kvm db') = [("linux-vm", 7, 5000000)].
Proof.
  eexists. 
  destruct (running_report_keeps_vm (H := member_steps) sample_config leased_db _ _
              (sample_test 7 linux TestType.pull_request 2 12)
              (progress_request "building" "compiling") 65000000 (datetime.naive 65000000)
              building _ true _ eq_refl eq_refl eq_refl) as (_ & _ & Hleases).
  split; [reflexivity|exact Hleases].
Defined.

(** X13: the pinned baseline commit of a platform only moves forward.  When
    the bookkeeping that follows a recorded status returns, it has changed
    nothing but the pin of the test's platform, and it has changed the pin
    only for a completed commit test of the main repository whose id is
    greater than the id of the test that the pin named; the pin is then the
    commit of the test.  For a completed test of the main repository on a
    platform without a pin the bookkeeping raises, whatever the type of the
    test. *)
Theorem pin_moves_forward (config : Config) (db : Db) (test : Test.t)
    (status : TestStatus) :
  let key := fetch_commit_key (Test.platform test) in
  let run := update_fetch_commit config db test status in
  (forall db', run = Ok db' tt ->
     (forall other, other <> key -> general_data db' !! other = general_data db !! other)
     /\ catalog db' = catalog db /\ progress db' = progress db /\ kvm db' = kvm db
     /\ (general_data db' !! key = general_data db !! key
         \/ (status = completed /\ Test.test_type test = TestType.commit
             /\ exists fork old pinned,
                  test_fork db test = Some fork
                  /\ is_main_repo config (Fork.github fork) = true
                  /\ general_data db !! key = Some old
                  /\ pinned_test db (Test.platform test) old = Some pinned
                  /\ Test.id pinned < Test.id test
                  /\ general_data db' !! key = Some (Text (Test.commit test)))))
  /\ (forall fork, status = completed -> test_fork db test = Some fork ->
        is_main_repo config (Fork.github fork) = true ->
        general_data db !! key = None -> run = Raise db AttributeError).
Proof.
  intros key run. split.
  - intros db' Hrun.
    pose proof (update_fetch_commit_frame config db test status) as Hframe.
    fold run in Hframe. rewrite Hrun in Hframe. simpl in Hframe.
    destruct Hframe as (Hcat & Hprog & Hkvm).
    revert Hrun. unfold run, update_fetch_commit. fold key.
    destruct (decide (status = completed)) as [->|?];
      [|intros [= <-]; repeat split; by left].
    destruct (test_fork db test) as [fork|] eqn:Hfork; [|done].
    destruct (is_main_repo config (Fork.github fork)) eqn:Hmain;
      [|intros [= <-]; repeat split; by left].
    fold (fetch_commit_key (Test.platform test)). fold key.
    destruct (general_data db !! key) as [old|] eqn:Hold; [|done].
    destruct (decide (Test.test_type test = TestType.commit)) as [Htype|?];
      [|intros [= <-]; repeat split; by left].
    fold (pinned_test db (Test.platform test) old).
    destruct (pinned_test db (Test.platform test) old) as [pinned|] eqn:Hpinned; [|done].
    destruct (Test.id test >? Test.id pinned) eqn:Hnewer;
      [|intros [= <-]; repeat split; by left].
    intros [= <-]. simpl. split; [|split; [done|split; [done|split; [done|]]]].
    + intros other Hother. by rewrite lookup_insert_ne.
    + right. split; [done|]. split; [done|]. exists fork, old, pinned.
      repeat split; try done; [lia|]. by rewrite lookup_insert_eq.
  - intros fork -> Hfork Hmain Hnone. unfold run, update_fetch_commit.
    rewrite Hfork, Hmain. simpl. fold (fetch_commit_key (Test.platform test)).
    fold key. by rewrite Hnone.
Qed.

Lemma pin_moves_forward_witness :
  exists db',
    update_fetch_commit sample_config main_commit_db
      (Test.mk 8 linux TestType.commit 1 "master" "fedcba" 0 "tok8") completed = Ok db' tt
    /\ general_data db' !! "fetch_commit_linux" = Some (Text "fedcba")
    /\ general_data db' !! "fetch_commit_windows" = None.
Proof.
  eexists. split; [reflexivity|].
  destruct (proj1 (pin_moves_forward sample_config main_commit_db
                     (Test.mk 8 linux TestType.commit 1 "master" "fedcba" 0 "tok8")
                     completed) _ eq_refl) as (Hother & _ & _ & _ & Hpin).
  split.
  - by destruct Hpin as [Hsame|(_ & _ & fork & old & pinned & _ & _ & _ & _ & _ & Hnew)].
  - by rewrite (Hother "fetch_commit_windows").
Defined.

(** ** The scheduler, continued *)

Lemma select_step_effects (config : Config) (db : Db) (platform : TestPlatform) :
  let db' := db_of (select_step config db platform) in
  progress db' = progress db /\ kvm db' = kvm db
  /\ general_data db' = general_data db
  /\ results db' = results db /\ result_files db' = result_files db
  /\ forall t, t ∈ tests db' -> t ∈ tests db.
Proof.
  unfold select_step, select_test.
  destruct (query_first _ (forks db)) as [fork|]; [|done].
  destruct (oldest _) as [test|]; simpl.
  - destruct (_ && _); simpl; repeat split; try done.
    intros t Ht. by apply elem_of_filter_bool in Ht as [Ht _].
  - destruct (oldest _) as [test|]; simpl; [|done].
    destruct (_ && _); simpl; repeat split; try done.
    intros t Ht. by apply elem_of_filter_bool in Ht as [Ht _].
Qed.

Lemma drop_stale_entry_effects (db : Db) (kvm_name : string) :
  let db' := drop_stale_entry db kvm_name in
  progress db' = progress db /\ tests db' = tests db
  /\ general_data db' = general_data db
  /\ results db' = results db /\ result_files db' = result_files db
  /\ (forall k, k ∈ kvm db' -> k ∈ kvm db)
  /\ (forall k, k ∈ kvm db -> Kvm.name k <> kvm_name -> k ∈ kvm db').
Proof.
  unfold drop_stale_entry. destruct (query_first _ _); simpl; [|done].
  repeat split; try done.
  - intros k. apply elem_of_delete_first.
  - intros k Hk Hname. apply elem_of_delete_first_other; [|done].
    by apply String.eqb_neq.
Qed.

(** X14: whatever a pass of the scheduler finds, its decision phase makes
    at most one call on the hypervisor, the destruction of the machine, and
    none when the machine is off; it adds at most one event, the
    cancellation of the test of the machine's own entry; it creates no Kvm
    entry and keeps the entries of the other machines; it creates no test
    and changes neither GeneralData nor the results. *)
Theorem pass_effects_bounded (config : Config) (db : Db) (kvm_name : string)
    (platform : TestPlatform) (env : VmEnv) :
  let calls := fst (kvm_processor config db kvm_name platform env) in
  let db' := db_of (snd (kvm_processor config db kvm_name platform env)) in
  (calls = [] \/ calls = [VmDestroy])
  /\ (vm_shutoff env = true -> calls = [] /\ progress db' = progress db)
  /\ (progress db' = progress db
      \/ exists k, query_first (fun k => String.eqb (Kvm.name k) kvm_name) (kvm db) = Some k
                   /\ progress db' = progress db ++ [runtime_exceeded k env])
  /\ (forall k, k ∈ kvm db' -> k ∈ kvm db)
  /\ (forall k, k ∈ kvm db -> Kvm.name k <> kvm_name -> k ∈ kvm db')
  /\ (forall t, t ∈ tests db' -> t ∈ tests db)
  /\ general_data db' = general_data db
  /\ results db' = results db /\ result_files db' = result_files db.
Proof.
  intros calls db'. subst calls db'. unfold kvm_processor.
  destruct (String.eqb kvm_name ""); [by repeat split; auto|].
  destruct (match query_first _ (maintenance db) with Some _ => _ | None => _ end);
    [by repeat split; auto|].
  destruct (conn_open env); simpl; [|by repeat split; auto].
  destruct (vm_found env); simpl; [|by repeat split; auto].
  assert (Hselect : forall db1 : Db,
    let db' := db_of (select_step config (drop_stale_entry db1 kvm_name) platform) in
    progress db' = progress db1
    /\ (forall k, k ∈ kvm db' -> k ∈ kvm db1)
    /\ (forall k, k ∈ kvm db1 -> Kvm.name k <> kvm_name -> k ∈ kvm db')
    /\ (forall t, t ∈ tests db' -> t ∈ tests db1)
    /\ general_data db' = general_data db1
    /\ results db' = results db1 /\ result_files db' = result_files db1).
  { intros db1.
    pose proof (select_step_effects config (drop_stale_entry db1 kvm_name) platform)
      as (Hp & Hk & Hg & Hr & Hf & Ht).
    pose proof (drop_stale_entry_effects db1 kvm_name)
      as (Hp' & Ht' & Hg' & Hr' & Hf' & Hk1 & Hk2).
    simpl in *. rewrite Hp, Hk, Hg, Hr, Hf. repeat split; try done.
    intros t Hin. rewrite <- Ht'. by apply Ht. }
  destruct (vm_shutoff env); simpl.
  { destruct (Hselect db) as (Hp & Hk1 & Hk2 & Ht & Hg & Hr & Hf).
    repeat split; auto. }
  unfold check_running.
  destruct (query_first _ (kvm db)) as [status|] eqn:Hstatus.
  - destruct (_ <=? _); [|by repeat split; auto].
    set (named := fun k => String.eqb (Kvm.name k) kvm_name).
    set (db1 := with_kvm (add_progress db (TestProgress.mk (Kvm.test_id status) canceled
                                             "Runtime exceeded" (stamp env)))
                         (delete_first named (kvm db))).
    assert (Hkvm1 : forall k, k ∈ kvm db1 -> k ∈ kvm db).
    { intros k. apply elem_of_delete_first. }
    assert (Hkvm2 : forall k, k ∈ kvm db -> Kvm.name k <> kvm_name -> k ∈ kvm db1).
    { intros k Hk Hname. apply elem_of_delete_first_other; [|done].
      by apply String.eqb_neq. }
    destruct (destroy_result env =? -1); simpl.
    + split; [by right|]. split; [done|]. split; [right; by exists status|].
      by repeat split.
    + destruct (Hselect db1) as (Hp & Hk1 & Hk2 & Ht & Hg & Hr & Hf).
      split; [by right|]. split; [done|]. split; [right; by exists status|].
      rewrite Hg, Hr, Hf. repeat split; auto.
  - destruct (destroy_result env =? -1); simpl.
    + split; [by right|]. split; [done|]. by repeat split; auto.
    + destruct (Hselect db) as (Hp & Hk1 & Hk2 & Ht & Hg & Hr & Hf).
      split; [by right|]. split; [done|]. repeat split; auto.
Qed.

Lemma pass_effects_bounded_witness :
  fst (kvm_processor sample_config queue_db "linux-vm" linux
         (mkVmEnv true true true 0 0 (datetime.naive 0))) = []
  /\ progress (db_of (snd (kvm_processor sample_config queue_db "linux-vm" linux
                             (mkVmEnv true true true 0 0 (datetime.naive 0)))))
     = progress queue_db.
Proof.
  exact (proj1 (proj2 (pass_effects_bounded sample_config queue_db "linux-vm" linux
                         (mkVmEnv true true true 0 0 (datetime.naive 0)))) eq_refl).
Defined.

Lemma select_step_selected (config : Config) (db db' : Db) (platform : TestPlatform)
    (pass : Pass) :
  select_step config db platform = Ok db' pass ->
  pass = Return NoTests
  \/ exists test,
       candidate db platform test
       /\ (forall m, candidate db platform m -> Test.fork_id m = Test.fork_id test ->
                     Test.id test <= Test.id m)
       /\ ((invalid test /\ pass = Return InvalidTest
            /\ db' = with_tests db (List.filter (fun t => negb (Test.id t =? Test.id test))
                                                (tests db)))
           \/ (~ invalid test /\ pass = Prepare test /\ db' = db)).
Proof.
  unfold select_step, select_test.
  destruct (query_first _ (forks db)) as [fork|]; [|done].
  set (mains := List.filter (fun t => eligible db platform t
                                      && (Test.fork_id t =? Fork.id fork)) (tests db)).
  set (all := List.filter (eligible db platform) (tests db)).
  assert (Hchosen : forall test,
            candidate db platform test ->
            (forall m, candidate db platform m -> Test.fork_id m = Test.fork_id test ->
                       Test.id test <= Test.id m) ->
            (if bool_decide (Test.test_type test = TestType.pull_request)
                && (Test.pr_nr test =? 0)
             then Ok (with_tests db (List.filter (fun t => negb (Test.id t =? Test.id test))
                                                 (tests db))) (Return InvalidTest)
             else Ok db (Prepare test)) = Ok db' pass ->
            pass = Return NoTests
            \/ exists test,
                 candidate db platform test
                 /\ (forall m, candidate db platform m ->
                               Test.fork_id m = Test.fork_id test ->
                               Test.id test <= Test.id m)
                 /\ ((invalid test /\ pass = Return InvalidTest
                      /\ db' = with_tests db
                                 (List.filter (fun t => negb (Test.id t =? Test.id test))
                                              (tests db)))
                     \/ (~ invalid test /\ pass = Prepare test /\ db' = db))).
  { intros test Hcand Hmin. unfold invalid.
    destruct (bool_decide _ && _) eqn:Hinv; intros [= <- <-]; right; exists test;
      (split; [done|]); (split; [done|]).
    - left. apply andb_true_iff in Hinv as [Htype%bool_decide_eq_true Hnr%Z.eqb_eq].
      done.
    - right. split; [|done]. intros [Htype Hnr].
      by rewrite (bool_decide_eq_true_2 _ Htype), Hnr in Hinv. }
  destruct (oldest mains) as [test|] eqn:Hold; simpl.
  - apply oldest_Some in Hold as [Hin Hmin]. unfold mains in Hin.
    apply elem_of_filter_bool in Hin as [Hin Hel].
    apply andb_true_iff in Hel as [Hel Hfork%Z.eqb_eq].
    apply eligible_spec in Hel as [Hplat Hunf].
    apply Hchosen; [done|]. intros m (Hm & Hmp & Hmu) Hmf. apply Hmin. unfold mains.
    apply elem_of_filter_bool. split; [done|]. apply andb_true_iff. split.
    + by apply eligible_spec.
    + apply Z.eqb_eq. congruence.
  - destruct (oldest all) as [test|] eqn:Hall; simpl; [|intros [= <- <-]; by left].
    apply oldest_Some in Hall as [Hin Hmin]. unfold all in Hin.
    apply elem_of_filter_bool in Hin as [Hin Hel].
    apply eligible_spec in Hel as [Hplat Hunf].
    apply Hchosen; [done|]. intros m (Hm & Hmp & Hmu) _. apply Hmin. unfold all.
    apply elem_of_filter_bool. split; [done|]. by apply eligible_spec.
Qed.

Lemma kvm_processor_selection (config : Config) (db db' : Db) (kvm_name : string)
    (platform : TestPlatform) (env : VmEnv) (calls : list Action) (pass : Pass) :
  kvm_processor config db kvm_name platform env = (calls, Ok db' pass) ->
  (forall why, pass = Return why -> why = InvalidTest) ->
  exists db1,
    select_step config db1 platform = Ok db' pass
    /\ tests db1 = tests db
    /\ (progress db1 = progress db
        \/ exists k, progress db1 = progress db ++ [runtime_exceeded k env])
    /\ kvm_name <> "" /\ enabled db platform
    /\ conn_open env = true /\ vm_found env = true
    /\ calls = (if vm_shutoff env then [] else [VmDestroy]).
Proof.
  unfold kvm_processor. intros Hrun Hpass. revert Hrun.
  destruct (String.eqb_spec kvm_name "") as [->|Hname];
    [intros [= <- <- <-]; by specialize (Hpass _ eq_refl)|].
  destruct (match query_first _ (maintenance db) with Some _ => _ | None => _ end)
    eqn:Hmaint; [intros [= <- <- <-]; by specialize (Hpass _ eq_refl)|].
  assert (Henabled : enabled db platform).
  { intros m Hm. by rewrite Hm in Hmaint. }
  clear Hmaint.
  destruct (conn_open env); simpl;
    [|intros [= <- <- <-]; by specialize (Hpass _ eq_refl)].
  destruct (vm_found env); simpl;
    [|intros [= <- <- <-]; by specialize (Hpass _ eq_refl)].
  assert (Hstale : forall d, progress (drop_stale_entry d kvm_name) = progress d
                             /\ tests (drop_stale_entry d kvm_name) = tests d).
  { intros d. by pose proof (drop_stale_entry_effects d kvm_name) as (Hp & Ht & _). }
  destruct (vm_shutoff env); simpl.
  { intros [= <- Hsel]. destruct (Hstale db) as [Hp Ht].
    exists (drop_stale_entry db kvm_name).
    split; [done|]. split; [done|]. split; [by left|]. done. }
  unfold check_running. destruct (query_first _ (kvm db)) as [status|].
  - destruct (_ <=? _); [|intros [= <- <- <-]; by specialize (Hpass _ eq_refl)].
    destruct (destroy_result env =? -1);
      [intros [= <- <- <-]; by specialize (Hpass _ eq_refl)|].
    intros [= <- Hsel].
    match type of Hsel with
    | select_step _ (drop_stale_entry ?d _) _ = _ =>
        destruct (Hstale d) as [Hp Ht]; exists (drop_stale_entry d kvm_name)
    end.
    split; [done|]. split; [done|]. split; [right; by exists status|]. done.
  - destruct (destroy_result env =? -1);
      [intros [= <- <- <-]; by specialize (Hpass _ eq_refl)|].
    intros [= <- Hsel]. destruct (Hstale db) as [Hp Ht].
    exists (drop_stale_entry db kvm_name).
    split; [done|]. split; [done|]. split; [by left|]. done.
Qed.

(** X15: the test that a pass goes on to prepare is a test of the platform
    that has no completed or canceled event, also counting the cancellation
    that the pass itself may have recorded for an expired lease; it is not
    a pull-request test without number, and no unfinished test of the same
    fork and platform is older.  The pass gets there only with a machine
    name, outside maintenance, with the hypervisor connected and the
    machine found; a machine that was running has been destroyed, and no
    test row has changed. *)
Theorem pass_prepares_candidate (config : Config) (db db' : Db) (kvm_name : string)
    (platform : TestPlatform) (env : VmEnv) (calls : list Action) (test : Test.t) :
  kvm_processor config db kvm_name platform env = (calls, Ok db' (Prepare test)) ->
  candidate db' platform test
  /\ ~ invalid test
  /\ (forall m, candidate db' platform m -> Test.fork_id m = Test.fork_id test ->
                Test.id test <= Test.id m)
  /\ tests db' = tests db
  /\ kvm_name <> "" /\ enabled db platform
  /\ conn_open env = true /\ vm_found env = true
  /\ calls = (if vm_shutoff env then [] else [VmDestroy]).
Proof.
  intros Hrun.
  destruct (kvm_processor_selection config db db' kvm_name platform env calls
              (Prepare test) Hrun) as (db1 & Hsel & Htests & _ & Hrest); [done|].
  destruct (select_step_selected config db1 db' platform (Prepare test) Hsel)
    as [?|(chosen & Hcand & Hmin & [(_ & ? & _)|(Hvalid & [= <-] & ->)])]; done.
Qed.

Lemma pass_prepares_candidate_witness :
  candidate queue_db linux (sample_test 5 linux TestType.commit 1 0)
  /\ ~ invalid (sample_test 5 linux TestType.commit 1 0).
Proof.
  destruct (pass_prepares_candidate sample_config queue_db
              (with_kvm queue_db []) "linux-vm" linux
              (mkVmEnv true true true 0 0 (datetime.naive 0)) []
              (sample_test 5 linux TestType.commit 1 0) eq_refl)
    as (Hcand & Hvalid & _).
  split; [exact Hcand|exact Hvalid].
Defined.

(** X16: a pass that ends on an invalid test has selected a pull-request
    test of the platform without number, the oldest unfinished one of its
    fork, and has deleted it: the tests left are the others, in their
    order, so that a later pass cannot select it again; the pass went as
    far as a pass that prepares a test, and made no other change to the
    tests. *)
Theorem invalid_test_is_deleted (config : Config) (db db' : Db) (kvm_name : string)
    (platform : TestPlatform) (env : VmEnv) (calls : list Action) :
  kvm_processor config db kvm_name platform env = (calls, Ok db' (Return InvalidTest)) ->
  exists test,
    test ∈ tests db /\ Test.platform test = platform /\ invalid test
    /\ tests db' = List.filter (fun t => negb (Test.id t =? Test.id test)) (tests db)
    /\ (forall t, t ∈ tests db' <-> t ∈ tests db /\ Test.id t <> Test.id test)
    /\ (forall e, e ∈ progress db' -> TestProgress.test_id e = Test.id test ->
                  is_terminal (TestProgress.status e) = false)
    /\ enabled db platform
    /\ calls = (if vm_shutoff env then [] else [VmDestroy]).
Proof.
  intros Hrun.
  destruct (kvm_processor_selection config db db' kvm_name platform env calls
              (Return InvalidTest) Hrun)
    as (db1 & Hsel & Htests & _ & _ & Henabled & _ & _ & Hcalls);
    [by intros ? [= <-]|].
  destruct (select_step_selected config db1 db' platform (Return InvalidTest) Hsel)
    as [?|(test & (Hin & Hplat & Hunf) & _ & [(Hinv & _ & ->)|(_ & ? & _)])]; try done.
  exists test. simpl. rewrite <- Htests.
  split; [done|]. split; [done|]. split; [done|]. split; [done|]. split; [|split; [|done]].
  - intros t. rewrite elem_of_filter_bool, negb_true_iff, Z.eqb_neq. tauto.
  - intros e He Hid. destruct (Hunf e He Hid) as [Hc Hx].
    by destruct (TestProgress.status e).
Qed.

Lemma invalid_test_is_deleted_witness :
  exists test,
    invalid test
    /\ tests queue_db = List.filter (fun t => negb (Test.id t =? Test.id test))
                                    (tests invalid_db).
Proof.
  destruct (invalid_test_is_deleted sample_config invalid_db
              (with_kvm queue_db []) "linux-vm" linux
              (mkVmEnv true true true 0 0 (datetime.naive 0)) [] eq_refl)
    as (test & _ & _ & Hinv & Htests & _).
  exists test. split; [exact Hinv|exact Htests].
Defined.

(** ** The manifest, continued *)

(** X17: the manifest of a test holds, for each category, the regression
    tests of the category that are in the customization scope of the test,
    and nothing else: every file is named after a category and is not
    empty, every entry describes a regression test of that category that is
    in scope, and every in-scope regression test of a category has its
    entry in the file of the category.  A test with an empty scope gets an
    empty manifest.  Building the manifest changes nothing, and it raises
    when the platform has no pinned commit. *)
Theorem manifest_covers_scope (db : Db) (platform : TestPlatform) (test : Test.t) :
  let scope := get_customized_regressiontests db test in
  (general_data db !! fetch_commit_key platform = None ->
   manifest db platform test = Raise db AttributeError)
  /\ forall db' files,
       manifest db platform test = Ok db' files ->
       db' = db
       /\ (scope = [] -> files = [])
       /\ exists last_commit,
            (forall name entries, (name, entries) ∈ files ->
               entries <> []
               /\ exists category,
                    category ∈ categories db
                    /\ name = (Category.name category ++ ".xml")%string
                    /\ forall entry, entry ∈ entries ->
                         exists rt, rt ∈ regression_tests db
                                    /\ entry = manifest_entry db last_commit rt
                                    /\ RegressionTest.id rt ∈ Category.regression_ids category
                                    /\ RegressionTest.id rt ∈ scope)
            /\ (forall category rt,
                  category ∈ categories db -> rt ∈ regression_tests db ->
                  RegressionTest.id rt ∈ Category.regression_ids category ->
                  RegressionTest.id rt ∈ scope ->
                  exists entries,
                    ((Category.name category ++ ".xml")%string, entries) ∈ files
                    /\ manifest_entry db last_commit rt ∈ entries).
Proof.
  intros scope. unfold manifest. fold (fetch_commit_key platform).
  split; [by intros ->|].
  intros db' files.
  destruct (general_data db !! fetch_commit_key platform) as [commit_hash|]; [|done].
  destruct (query_first _ (tests db)) as [last_commit|]; [|done].
  fold scope. intros [= <- <-]. split; [done|].
  assert (Hin_scope : forall category rt,
            rt ∈ List.filter (fun rt => in_ids (RegressionTest.id rt) scope)
                             (category_tests db category)
            <-> rt ∈ regression_tests db
                /\ RegressionTest.id rt ∈ Category.regression_ids category
                /\ RegressionTest.id rt ∈ scope).
  { intros category rt. unfold category_tests.
    rewrite !elem_of_filter_bool, !in_ids_spec. tauto. }
  assert (Hsorted : forall category,
            category ∈ merge_sort id_desc (categories db) <-> category ∈ categories db).
  { intros category. by rewrite merge_sort_Permutation. }
  split.
  { intros Hempty. rewrite Hempty. clear Hsorted Hin_scope.
    induction (merge_sort id_desc (categories db)) as [|category rest IH]; simpl; [done|].
    replace (List.filter _ (category_tests db category)) with (@nil RegressionTest.t);
      [exact IH|].
    symmetry. induction (category_tests db category) as [|rt more IHm]; simpl; done. }
  exists last_commit. split.
  - intros name entries Hfile.
    apply list_elem_of_omap in Hfile as (category & Hcat & Hsome).
    destruct (List.filter _ (category_tests db category)) as [|rt more] eqn:Hscope; [done|].
    injection Hsome as <- <-. split; [done|].
    exists category. split; [by apply Hsorted|]. split; [done|].
    intros entry Hentry.
    change (entry ∈ manifest_entry db last_commit <$> rt :: more) in Hentry.
    apply list_elem_of_fmap in Hentry as (rt' & -> & Hrt').
    exists rt'. rewrite <- Hscope in Hrt'. apply Hin_scope in Hrt' as (? & ? & ?).
    done.
  - intros category rt Hcat Hrt Hmember Hscoped.
    assert (Hrt' : rt ∈ List.filter (fun rt => in_ids (RegressionTest.id rt) scope)
                                    (category_tests db category)) by by apply Hin_scope.
    exists (map (manifest_entry db last_commit)
                (List.filter (fun rt => in_ids (RegressionTest.id rt) scope)
                             (category_tests db category))).
    split.
    + apply list_elem_of_omap. exists category. split; [by apply Hsorted|].
      destruct (List.filter _ (category_tests db category)); [|done].
      by apply elem_of_nil in Hrt'.
    + apply list_elem_of_fmap. by exists rt.
Qed.

Lemma manifest_covers_scope_witness :
  exists entries,
    ("General.xml", entries)
    ∈ [("General.xml",
        [mkEntry 5 "-out=srt" "file" "sample.ts" "file"
                 [mkFileNode false 9 (filename_correct out9) "sha"]])]
    /\ exists last_commit, manifest_entry (manifest_db None) last_commit rt5 ∈ entries.
Proof.
  destruct (proj2 (manifest_covers_scope (manifest_db None) linux
                     (sample_test 7 linux TestType.pull_request 2 12)) _ _ eq_refl)
    as (_ & _ & last_commit & _ & Hall).
  destruct (Hall (Category.mk 1 "General" [5]) rt5) as (entries & Hfile & Hentry).
  - apply elem_of_cons. by left.
  - apply elem_of_cons. by left.
  - apply elem_of_cons. by left.
  - apply elem_of_cons. by left.
  - exists entries. split; [exact Hfile|]. by exists last_commit.
Defined.

(** ** The webhook, continued *)

Lemma filter_all_false {A : Type} (p : A -> bool) (rows : list A) :
  (forall x, x ∈ rows -> p x = false) -> List.filter p rows = [].
Proof.
  induction rows as [|r rest IH]; simpl; [done|]. intros Hall.
  rewrite (Hall r); [|by left]. apply IH. intros x Hx. apply Hall. by right.
Qed.

Lemma cancel_unstarted_all (db : Db) (post_ok : Test.t -> bool) (now : Z)
    (tests : list Test.t) :
  forall pending calls,
    NoDup (map Test.id tests) ->
    (forall p t, p ∈ pending -> t ∈ tests -> TestProgress.test_id p <> Test.id t) ->
    (forall t, t ∈ tests -> unstarted db t = true -> post_ok t = true) ->
    cancel_unstarted db post_ok now tests pending calls
    = (pending ++ map (pr_closed_event now) (List.filter (unstarted db) tests),
       calls ++ map pr_closed_status (List.filter (unstarted db) tests), None).
Proof.
  induction tests as [|test rest IH]; intros pending calls Hnodup Hfresh Hpost; simpl.
  { by rewrite !app_nil_r. }
  apply NoDup_cons in Hnodup as [Hnew Hnodup].
  rewrite test_progress_pending.
  assert (Hnone : List.filter (fun p => TestProgress.test_id p =? Test.id test) pending = []).
  { apply filter_all_false. intros p Hp. apply Z.eqb_neq.
    apply (Hfresh p test); [done|by left]. }
  rewrite Hnone, app_nil_r.
  assert (Hstarted : (0 <? Z.of_nat (length (test_progress db (Test.id test))))
                     = negb (unstarted db test)).
  { unfold unstarted. by destruct (test_progress db (Test.id test)). }
  rewrite Hstarted. destruct (unstarted db test) eqn:Hu; simpl.
  - rewrite (Hpost test); [|by left|done].
    rewrite IH; [by rewrite <- !app_assoc|done| |].
    + intros p t Hp Ht. apply elem_of_app in Hp as [Hp|Hp].
      * apply Hfresh; [done|by right].
      * apply elem_of_cons in Hp as [->|Hp]; [|by apply elem_of_nil in Hp].
        simpl. intros Heq. apply Hnew. apply list_elem_of_fmap. by exists t.
    + intros t Ht. apply Hpost. by right.
  - apply IH; [done| |].
    + intros p t Hp Ht. apply Hfresh; [done|by right].
    + intros t Ht. apply Hpost. by right.
Qed.

Lemma cancel_unstarted_stops (db : Db) (post_ok : Test.t -> bool) (now : Z)
    (tests : list Test.t) :
  forall pending calls pending' calls' e,
    cancel_unstarted db post_ok now tests pending calls = (pending', calls', Some e) ->
    e = ApiError
    /\ exists t, t ∈ tests /\ unstarted db t = true /\ post_ok t = false
                 /\ last pending' = Some (pr_closed_event now t)
                 /\ (length pending' + length calls = S (length calls' + length pending))%nat.
Proof.
  induction tests as [|test rest IH]; intros pending calls pending' calls' e; simpl;
    [done|].
  rewrite test_progress_pending.
  destruct (0 <? _) eqn:Hstarted.
  - intros Hrun. destruct (IH _ _ _ _ _ Hrun) as (-> & t & Ht & Hrest).
    split; [done|]. exists t. split; [by right|done].
  - assert (Hnone : unstarted db test = true).
    { unfold unstarted. destruct (test_progress db (Test.id test)); [done|].
      by apply Z.ltb_ge in Hstarted. }
    destruct (post_ok test) eqn:Hpost.
    + intros Hrun. destruct (IH _ _ _ _ _ Hrun) as (-> & t & Ht & Hu & Hp & Hl & Hlen).
      split; [done|]. exists t. split; [by right|]. split; [done|]. split; [done|].
      split; [done|]. rewrite !length_app in Hlen. simpl in Hlen. lia.
    + intros [= <- <- <-]. split; [done|]. exists test.
      split; [by left|]. split; [done|]. split; [done|].
      split; [by rewrite last_snoc|]. rewrite length_app. simpl. lia.
Qed.

(** X18: when a pull request is closed and test ids are unique, every test
    of the pull request that has no event gets its "PR closed" cancellation
    and its failure status, in the order of the tests and once each,
    provided every status can be posted.  If posting fails, the error
    leaves the handler: the test whose status failed has its event but no
    status, and the tests after it get neither. *)
Theorem pull_request_closed_cancels_all (db : Db) (pr_nr : Z)
    (post_ok : Test.t -> bool) (now : Z) :
  NoDup (map Test.id (tests db)) ->
  ((forall t, t ∈ unstarted_tests db pr_nr -> post_ok t = true) ->
   pull_request_closed db pr_nr post_ok now
   = (map (pr_closed_event now) (unstarted_tests db pr_nr),
      map pr_closed_status (unstarted_tests db pr_nr), None))
  /\ (forall pending calls e,
        pull_request_closed db pr_nr post_ok now = (pending, calls, Some e) ->
        e = ApiError
        /\ exists t, t ∈ unstarted_tests db pr_nr /\ post_ok t = false
                     /\ last pending = Some (pr_closed_event now t)
                     /\ length pending = S (length calls)).
Proof.
  intros Hnodup. unfold pull_request_closed, unstarted_tests. split.
  - intros Hpost. rewrite cancel_unstarted_all; [done| | |].
    + clear Hpost. induction (tests db) as [|t rest IH]; simpl; [constructor|].
      apply NoDup_cons in Hnodup as [Hnew Hnodup].
      destruct (Test.pr_nr t =? pr_nr); simpl; [|by apply IH].
      apply NoDup_cons. split; [|by apply IH].
      intros (x & Hid & Hx)%list_elem_of_fmap. apply Hnew.
      apply list_elem_of_fmap. exists x. split; [done|].
      by apply elem_of_filter_bool in Hx as [Hx _].
    + by intros p t Hp%elem_of_nil.
    + intros t Ht Hu. apply Hpost. by apply elem_of_filter_bool.
  - intros pending calls e Hrun.
    destruct (cancel_unstarted_stops _ _ _ _ _ _ _ _ _ Hrun)
      as (-> & t & Ht & Hu & Hp & Hl & Hlen).
    split; [done|]. exists t. split; [by apply elem_of_filter_bool|].
    split; [done|]. split; [done|]. simpl in Hlen. lia.
Qed.

Lemma pull_request_closed_cancels_all_witness :
  pull_request_closed pr_db 12 (fun _ => true) 50
  = ([pr_closed_event 50 (sample_test 2 windows TestType.pull_request 2 12)],
     [pr_closed_status (sample_test 2 windows TestType.pull_request 2 12)], None).
Proof.
  refine (proj1 (pull_request_closed_cancels_all pr_db 12 (fun _ => true) 50 _) _).
  - apply (bool_decide_unpack _). reflexivity.
  - done.
Defined.

(** ** The maintenance switch *)

Lemma platform_from_string_value (platform : TestPlatform) :
  platform_from_string (platform_value platform) = Some platform.
Proof. by destruct platform. Qed.

Lemma platform_from_string_Some (name : string) (platform : TestPlatform) :
  platform_from_string name = Some platform -> name = platform_value platform.
Proof.
  unfold platform_from_string.
  destruct (String.eqb_spec name "linux") as [->|_]; [by intros [= <-]|].
  destruct (String.eqb_spec name "windows") as [->|_]; [by intros [= <-]|done].
Qed.

Lemma query_first_update_other {A : Type} (p q : A -> bool) (f : A -> A) (rows : list A) :
  (forall x, q (f x) = q x) ->
  (forall x, p x = true -> q x = false) ->
  query_first q (update_first p f rows) = query_first q rows.
Proof.
  intros Hf Hpq. unfold query_first. induction rows as [|r rest IH]; simpl; [done|].
  destruct (p r) eqn:Hp; simpl.
  - by rewrite Hf, (Hpq r Hp).
  - destruct (q r); [done|exact IH].
Qed.

(** X19: switching maintenance succeeds exactly when the name is that of a
    platform which has a row in the table, and changes nothing otherwise.
    After a successful switch the platform is in maintenance exactly when
    the status given was the string [True]: [in_maintenance_mode] answers
    it without changing anything, every pass of the scheduler for the
    platform (with a machine name) returns at once for maintenance, without
    a call and without a change, if it is on, and the state of the other
    platform is what it was. *)
Theorem toggle_maintenance_round_trip (config : Config) (db : Db)
    (name status : string) :
  let db' := fst (toggle_maintenance db name status) in
  let answer := snd (toggle_maintenance db name status) in
  let on := String.eqb status "True" in
  (fst answer = true <->
   exists platform, name = platform_value platform
                    /\ exists m, query_first (of_platform platform) (maintenance db) = Some m)
  /\ (fst answer = false -> db' = db /\ snd answer = PlatformNotFound)
  /\ (fst answer = true ->
      exists platform,
        name = platform_value platform
        /\ snd answer = InMaintenanceNow platform on
        /\ in_maintenance_mode db' name = (db', str_bool on)
        /\ (forall other, other <> platform ->
              query_first (of_platform other) (maintenance db')
              = query_first (of_platform other) (maintenance db))
        /\ (on = true -> forall kvm_name env,
              kvm_name <> "" ->
              kvm_processor config db' kvm_name platform env
              = ([], Ok db' (Return InMaintenance)))
        /\ (on = false -> enabled db' platform)).
Proof.
  intros db' answer on. subst db' answer. unfold toggle_maintenance. fold on.
  destruct (platform_from_string name) as [platform|] eqn:Hname; simpl.
  2: { split; [|by split]. split; [done|]. intros (platform & -> & _).
       by rewrite platform_from_string_value in Hname. }
  apply platform_from_string_Some in Hname as ->.
  destruct (query_first (of_platform platform) (maintenance db)) as [m|] eqn:Hrow; simpl.
  2: { split; [|by split]. split; [done|]. intros (other & Hother & m & Hm).
       assert (other = platform) as -> by by destruct other, platform.
       by rewrite Hm in Hrow. }
  split; [split; [|done]; intros _; exists platform; split; [done|by exists m]|].
  split; [done|]. intros _. exists platform. split; [done|]. split; [done|].
  assert (Hnew : query_first (of_platform platform)
                   (update_first (of_platform platform)
                      (fun m => MaintenanceMode.mk (MaintenanceMode.platform m) on)
                      (maintenance db))
                 = Some (MaintenanceMode.mk (MaintenanceMode.platform m) on)).
  { apply (query_first_update_first (of_platform platform)
             (fun m => MaintenanceMode.mk (MaintenanceMode.platform m) on)
             (maintenance db) m Hrow).
    by apply query_first_Some in Hrow as [_ Hm]. }
  split; [|split; [|split]].
  - unfold in_maintenance_mode. rewrite platform_from_string_value. simpl.
    by rewrite Hnew.
  - intros other Hother. simpl. apply query_first_update_other; [done|].
    intros x Hx. unfold of_platform in *. apply bool_decide_eq_true in Hx.
    apply bool_decide_eq_false. congruence.
  - intros Hon kvm_name env Hkvm. unfold kvm_processor.
    destruct (String.eqb_spec kvm_name "") as [?|_]; [done|]. simpl.
    fold (of_platform platform). by rewrite Hnew, Hon.
  - intros Hoff m' Hm'. simpl in Hm'. fold (of_platform platform) in Hm'.
    rewrite Hnew in Hm'. injection Hm' as <-. done.
Qed.

Lemma toggle_maintenance_round_trip_witness :
  exists db',
    toggle_maintenance (with_maintenance queue_db [MaintenanceMode.mk linux false])
                       "linux" "True"
    = (db', (true, InMaintenanceNow linux true))
    /\ in_maintenance_mode db' "linux" = (db', "True")
    /\ kvm_processor sample_config db' "linux-vm" linux (running_env 0)
       = ([], Ok db' (Return InMaintenance)).
Proof.
  eexists. split; [reflexivity|].
  destruct (proj2 (proj2 (toggle_maintenance_round_trip sample_config
                            (with_maintenance queue_db [MaintenanceMode.mk linux false])
                            "linux" "True")) eq_refl)
    as (platform & Hname & Hanswer & Hquery & _ & Hpass & _).
  injection Hanswer as <-. split; [exact Hquery|].
  apply Hpass; [reflexivity|discriminate].
Defined.

(** X20: asking whether a platform is in maintenance never changes the
    state of a platform: for a name that is not a platform the answer is
    [ERROR] and nothing changes; for a platform without a row a row is
    added that says it is not, and the answer is [False]; for a platform
    with a row nothing changes.  Asking again gives the same answer and
    changes nothing, the scheduler is not kept from the platform unless it
    was before, and a switch of the platform succeeds afterwards. *)
Theorem in_maintenance_mode_settles (db : Db) (name : string) :
  let db' := fst (in_maintenance_mode db name) in
  let answer := snd (in_maintenance_mode db name) in
  (platform_from_string name = None -> db' = db /\ answer = "ERROR")
  /\ (forall platform, platform_from_string name = Some platform ->
        in_maintenance_mode db' name = (db', answer)
        /\ (answer = "True" <-> ~ enabled db platform)
        /\ (answer = "False" <-> enabled db platform)
        /\ (enabled db' platform <-> enabled db platform)
        /\ (forall other, other <> platform ->
              query_first (of_platform other) (maintenance db')
              = query_first (of_platform other) (maintenance db))
        /\ (forall status, fst (snd (toggle_maintenance db' name status)) = true)
        /\ ((exists m, query_first (of_platform platform) (maintenance db) = Some m) ->
            db' = db)).
Proof.
  intros db' answer. subst db' answer. unfold in_maintenance_mode.
  split; [by intros ->|]. intros platform Hname. rewrite Hname.
  destruct (query_first (of_platform platform) (maintenance db)) as [m|] eqn:Hrow; simpl.
  - rewrite Hrow. unfold toggle_maintenance, enabled. rewrite Hname.
    fold (of_platform platform). rewrite Hrow. simpl.
    split; [done|]. split; [|split; [|by repeat split]].
    + destruct (MaintenanceMode.disabled m) eqn:Hm; simpl.
      * split; [|done]. intros _ Hen. specialize (Hen m eq_refl). congruence.
      * split; [done|]. intros Hen. destruct Hen. by intros ? [= <-].
    + destruct (MaintenanceMode.disabled m) eqn:Hm; simpl.
      * split; [done|]. intros Hen. specialize (Hen m eq_refl). congruence.
      * split; [|done]. by intros _ ? [= <-].
  - assert (Hnew : query_first (of_platform platform)
                     (maintenance db ++ [MaintenanceMode.mk platform false])
                   = Some (MaintenanceMode.mk platform false)).
    { unfold query_first in *. rewrite List.filter_app. 
      destruct (List.filter (of_platform platform) (maintenance db)); [|done].
      simpl. unfold of_platform. simpl. by rewrite bool_decide_eq_true_2. }
    simpl. rewrite Hnew. unfold toggle_maintenance, enabled.
    rewrite Hname. simpl. fold (of_platform platform). rewrite Hnew, Hrow. simpl.
    split; [done|]. split; [split; [done|intros Hen; by destruct Hen]|].
    split; [done|]. split; [split; [done|by intros _ ? [= <-]]|].
    split; [|split; [done|by intros (m & ?)]].
    intros other Hother. unfold query_first. rewrite List.filter_app. simpl.
    unfold of_platform at 2. simpl. rewrite bool_decide_eq_false_2 by congruence.
    by rewrite app_nil_r.
Qed.

Lemma in_maintenance_mode_settles_witness :
  in_maintenance_mode (fst (in_maintenance_mode queue_db "windows")) "windows"
  = (with_maintenance queue_db [MaintenanceMode.mk windows false], "False").
Proof.
  exact (proj1 (proj2 (in_maintenance_mode_settles queue_db "windows") windows eq_refl)).
Defined.

(** ** Queueing *)

Lemma NoDup_fmap_filter {A : Type} (f : A -> Z) (p : A -> bool) (rows : list A) :
  NoDup (map f rows) -> NoDup (map f (List.filter p rows)).
Proof.
  induction rows as [|r rest IH]; simpl; [done|].
  rewrite NoDup_cons. intros [Hnew Hrest]. destruct (p r); simpl; [|by apply IH].
  apply NoDup_cons. split; [|by apply IH].
  intros (x & Hx & Hin)%list_elem_of_fmap. apply Hnew. apply list_elem_of_fmap.
  exists x. split; [done|]. by apply elem_of_filter_bool in Hin as [Hin _].
Qed.

Lemma NoDup_fmap_eq {A : Type} (f : A -> Z) (rows : list A) (x y : A) :
  NoDup (map f rows) -> x ∈ rows -> y ∈ rows -> f x = f y -> x = y.
Proof.
  induction rows as [|r rest IH]; simpl; [by intros _ ?%elem_of_nil|].
  rewrite NoDup_cons, !elem_of_cons. intros [Hnew Hrest] [->|Hx] [->|Hy] Heq; try done.
  - destruct Hnew. rewrite Heq. apply list_elem_of_fmap. by exists y.
  - destruct Hnew. rewrite <- Heq. apply list_elem_of_fmap. by exists x.
  - by apply IH.
Qed.

Lemma oldest_unique (rows : list Test.t) (t : Test.t) :
  NoDup (map Test.id rows) -> t ∈ rows ->
  (forall m, m ∈ rows -> Test.id t <= Test.id m) ->
  oldest rows = Some t.
Proof.
  intros Hnodup Hin Hmin. destruct (oldest rows) as [t'|] eqn:Hold.
  - apply oldest_Some in Hold as [Hin' Hmin']. f_equal.
    apply (NoDup_fmap_eq Test.id rows); [done..|].
    specialize (Hmin t' Hin'). specialize (Hmin' t Hin). lia.
  - apply oldest_None in Hold. rewrite Hold in Hin. by apply elem_of_nil in Hin.
Qed.

(** X21: given the row of the main repository, queueing stores exactly two
    new tests after the ones there are, the Linux one and then the Windows
    one, both for the commit, type and pull-request number given and both
    bound to the fork row of the main repository; the branch of a
    pull-request test is [pull_request] whatever branch is given.  It
    stores the scope of each new test, one row for each active regression
    test, Linux first, so that the scope of each new test is the list of
    the ids of the active regression tests.  A status is posted for each
    test exactly when a status endpoint is given.  Without the row of the
    main repository queueing raises and stores nothing. *)
Theorem queue_test_creates_pair (config : Config) (active : RegressionTest.t -> bool)
    (db : Db) (gh_commit : bool) (commit : string) (test_type : TestType.t)
    (branch : string) (pr_nr : Z) (linux_id windows_id : Z)
    (linux_token windows_token : string) :
  let run := queue_test config active db gh_commit commit test_type branch pr_nr
                        linux_id windows_id linux_token windows_token in
  let scope := List.filter active (regression_tests db) in
  (main_fork_row config db = None -> run = Raise db AttributeError)
  /\ (forall fork, main_fork_row config db = Some fork ->
        exists db' calls linux_test windows_test,
          run = Ok db' calls
          /\ tests db' = tests db ++ [linux_test; windows_test]
          /\ Test.id linux_test = linux_id /\ Test.id windows_test = windows_id
          /\ Test.platform linux_test = linux /\ Test.platform windows_test = windows
          /\ Test.token linux_test = linux_token /\ Test.token windows_test = windows_token
          /\ (forall t, t = linux_test \/ t = windows_test ->
                Test.commit t = commit /\ Test.test_type t = test_type
                /\ Test.pr_nr t = pr_nr /\ Test.fork_id t = Fork.id fork
                /\ (test_type = TestType.pull_request -> Test.branch t = "pull_request")
                /\ (test_type = TestType.commit -> Test.branch t = branch)
                /\ ((forall c, c ∈ customized db -> CustomizedTest.test_id c <> Test.id t) ->
                    linux_id <> windows_id ->
                    get_customized_regressiontests db' t = map RegressionTest.id scope))
          /\ customized db'
             = customized db
               ++ map (fun rt => CustomizedTest.mk linux_id (RegressionTest.id rt)) scope
               ++ map (fun rt => CustomizedTest.mk windows_id (RegressionTest.id rt)) scope
          /\ (gh_commit = false -> calls = [])
          /\ (gh_commit = true ->
              calls = [GithubStatus commit PENDING "Tests queued" "CI - linux" linux_id;
                       GithubStatus commit PENDING "Tests queued" "CI - windows"
                                    windows_id])
          /\ progress db' = progress db /\ kvm db' = kvm db
          /\ general_data db' = general_data db
          /\ regression_tests db' = regression_tests db).
Proof.
  intros run scope. subst run. unfold queue_test, main_fork_row.
  split; [by intros ->|]. intros fork ->.
  eexists _, _, _, _. split; [reflexivity|]. simpl.
  split; [done|]. do 6 (split; [done|]).
  split; [|split; [by rewrite <- app_assoc|split; [by intros ->|split; [by intros ->|done]]]].
  assert (Hscope : forall (id other : Z) (rows : list RegressionTest.t),
            id <> other ->
            map CustomizedTest.regression_id
                (List.filter (fun c => CustomizedTest.test_id c =? id)
                   (map (fun rt => CustomizedTest.mk id (RegressionTest.id rt)) rows))
            = map RegressionTest.id rows
            /\ List.filter (fun c => CustomizedTest.test_id c =? id)
                 (map (fun rt => CustomizedTest.mk other (RegressionTest.id rt)) rows) = []).
  { intros id other rows Hne. induction rows as [|rt rest [IH1 IH2]]; simpl; [done|].
    rewrite Z.eqb_refl. simpl. rewrite IH1, IH2.
    by destruct (Z.eqb_spec other id) as [->|_]. }
  intros t Ht.
  assert (Hfields : Test.commit t = commit /\ Test.test_type t = test_type
                    /\ Test.pr_nr t = pr_nr /\ Test.fork_id t = Fork.id fork
                    /\ (test_type = TestType.pull_request -> Test.branch t = "pull_request")
                    /\ (test_type = TestType.commit -> Test.branch t = branch)).
  { destruct Ht as [->| ->]; simpl; repeat split; try done;
      by destruct (decide (test_type = TestType.pull_request)) as [->|?]. }
  destruct Hfields as (? & ? & ? & ? & ? & ?). do 6 (split; [done|]).
  intros Hfresh Hne. unfold get_customized_regressiontests. simpl.
  fold scope. rewrite !List.filter_app, !map_app.
  rewrite (filter_all_false _ (customized db));
    [|by intros c Hc; apply Z.eqb_neq, Hfresh].
  simpl. destruct Ht as [->| ->]; simpl.
  - destruct (Hscope linux_id windows_id scope Hne) as [-> ->].
    by rewrite app_nil_r.
  - destruct (Hscope windows_id linux_id scope) as [-> ->]; [done|]. done.
Qed.

Lemma queue_test_creates_pair_witness :
  exists db',
    queue_test sample_config (fun _ => true) pr_db true "c0ffee" TestType.pull_request
               "master" 14 3 4 "t3" "t4"
    = Ok db' [GithubStatus "c0ffee" PENDING "Tests queued" "CI - linux" 3;
              GithubStatus "c0ffee" PENDING "Tests queued" "CI - windows" 4]
    /\ tests db' = tests pr_db
                   ++ [Test.mk 3 linux TestType.pull_request 1 "pull_request" "c0ffee" 14 "t3";
                       Test.mk 4 windows TestType.pull_request 1 "pull_request" "c0ffee" 14
                               "t4"]
    /\ customized db' = [CustomizedTest.mk 3 5; CustomizedTest.mk 4 5].
Proof.
  destruct (proj2 (queue_test_creates_pair sample_config (fun _ => true) pr_db true
                     "c0ffee" TestType.pull_request "master" 14 3 4 "t3" "t4")
                  main_fork eq_refl)
    as (db' & calls & linux_test & windows_test & Hrun & _).
  injection Hrun as <- <-. by eexists.
Defined.

(** X22: queueing respects the order of the scheduler.  With unique test
    ids and new ids greater than the ids in use and borne by no event, a
    test of the main repository that the scheduler would select for a
    platform is still the one selected after queueing; and where no test
    of the main repository was waiting for the platform, the scheduler
    selects the newly queued test of that platform, ahead of any test of
    another fork that was waiting. *)
Theorem queue_test_keeps_order (config : Config) (active : RegressionTest.t -> bool)
    (db db' : Db) (gh_commit : bool) (commit : string) (test_type : TestType.t)
    (branch : string) (pr_nr : Z) (linux_id windows_id : Z)
    (linux_token windows_token : string) (fork : Fork.t)
    (out : list Action) (platform : TestPlatform) :
  NoDup (map Test.id (tests db)) ->
  linux_id <> windows_id ->
  (forall t, t ∈ tests db -> Test.id t < linux_id /\ Test.id t < windows_id) ->
  (forall e, e ∈ progress db ->
             TestProgress.test_id e <> linux_id /\ TestProgress.test_id e <> windows_id) ->
  main_fork_row config db = Some fork ->
  queue_test config active db gh_commit commit test_type branch pr_nr
             linux_id windows_id linux_token windows_token = Ok db' out ->
  (forall t, select_test config db platform = Ok db (Some t) ->
             Test.fork_id t = Fork.id fork ->
             select_test config db' platform = Ok db' (Some t))
  /\ ((forall t, candidate db platform t -> Test.fork_id t <> Fork.id fork) ->
      exists t, select_test config db' platform = Ok db' (Some t)
                /\ Test.id t = queued_id platform linux_id windows_id
                /\ Test.commit t = commit /\ Test.platform t = platform).
Proof.
  intros Hnodup Hne Hids Hevents Hfork. unfold queue_test. fold (main_fork_row config db).
  rewrite Hfork. intros [= <- _].
  set (used := if decide (test_type = TestType.pull_request) then "pull_request"
               else branch).
  set (linux_test := Test.mk linux_id linux test_type (Fork.id fork) used commit pr_nr
                             linux_token).
  set (windows_test := Test.mk windows_id windows test_type (Fork.id fork) used commit
                               pr_nr windows_token).
  set (db' := add_customized_regression_tests active
                (add_customized_regression_tests active
                   (with_tests db (tests db ++ [linux_test; windows_test])) linux_id)
                windows_id).
  set (queued := match platform with linux => linux_test | windows => windows_test end).
  assert (Hnodup' : NoDup (map Test.id (tests db'))).
  { simpl. rewrite map_app. apply NoDup_app. split; [done|]. split.
    - intros x (t & -> & Ht)%list_elem_of_fmap Hx. destruct (Hids t Ht) as [Hl Hw].
      simpl in Hx. rewrite !elem_of_cons in Hx.
      destruct Hx as [Hx|[Hx|Hx%elem_of_nil]]; [lia|lia|done].
    - simpl. apply NoDup_cons. split; [|apply NoDup_singleton].
      by intros ->%list_elem_of_singleton. }
  assert (Heligible : forall t, eligible db' platform t = eligible db platform t) by done.
  assert (Hqueued : eligible db' platform queued = true).
  { apply eligible_spec. split; [by destruct platform|].
    intros e He Hid. destruct (Hevents e He) as [Hl Hw]. by destruct platform. }
  assert (Hin : forall t, t ∈ tests db' <-> t ∈ tests db \/ t = linux_test \/ t = windows_test).
  { intros t. simpl. rewrite elem_of_app, !elem_of_cons, elem_of_nil. tauto. }
  assert (Hmains : forall p : Test.t -> bool,
            (forall t, p t = true -> eligible db platform t = true) ->
            p queued = true ->
            forall t, t ∈ List.filter p (tests db) ->
                      (forall m, m ∈ List.filter p (tests db) -> Test.id t <= Test.id m) ->
                      oldest (List.filter p (tests db')) = Some t).
  { intros p Hp Hpq t Ht Hmin. apply oldest_unique.
    - by apply NoDup_fmap_filter.
    - apply elem_of_filter_bool in Ht as [Ht Hpt]. apply elem_of_filter_bool.
      split; [|done]. apply Hin. by left.
    - intros m [Hm Hpm]%elem_of_filter_bool. apply Hin in Hm as [Hm|Hm].
      + apply Hmin. by apply elem_of_filter_bool.
      + apply elem_of_filter_bool in Ht as [Ht _]. destruct (Hids t Ht) as [Hl Hw].
        destruct Hm as [-> | ->]; simpl; lia. }
  assert (Hnew : forall p : Test.t -> bool,
            (forall t, p t = true -> eligible db platform t = true) ->
            p queued = true ->
            List.filter p (tests db) = [] ->
            oldest (List.filter p (tests db')) = Some queued).
  { intros p Hp Hpq Hnone. apply oldest_unique.
    - by apply NoDup_fmap_filter.
    - apply elem_of_filter_bool. split; [|done]. apply Hin. right.
      destruct platform; [by left|by right].
    - intros m [Hm Hpm]%elem_of_filter_bool. apply Hin in Hm as [Hm|Hm].
      + assert (Hmem : m ∈ List.filter p (tests db)) by by apply elem_of_filter_bool.
        rewrite Hnone in Hmem. by apply elem_of_nil in Hmem.
      + apply Hp, eligible_spec in Hpm as [Hplat _].
        destruct Hm as [-> | ->]; simpl in Hplat; subst platform; simpl; lia. }
  set (main := fun t => eligible db platform t && (Test.fork_id t =? Fork.id fork)).
  assert (Hmain_eligible : forall t, main t = true -> eligible db platform t = true).
  { intros t Hm. by apply andb_true_iff in Hm as [Hm _]. }
  assert (Hmain_queued : main queued = true).
  { unfold main. rewrite <- Heligible, Hqueued. simpl. apply Z.eqb_eq.
    by destruct platform. }
  assert (Hselect : select_test config db' platform
                    = match oldest (List.filter main (tests db')) with
                      | Some test => Ok db' (Some test)
                      | None => Ok db' (oldest (List.filter (eligible db platform)
                                                            (tests db')))
                      end).
  { unfold select_test. change (forks db') with (forks db).
    fold (main_fork_row config db). by rewrite Hfork. }
  rewrite Hselect. split.
  - intros t Hsel Hmain. unfold select_test in Hsel.
    fold (main_fork_row config db) in Hsel. rewrite Hfork in Hsel.
    fold main in Hsel.
    destruct (oldest (List.filter main (tests db))) as [t'|] eqn:Hold.
    + injection Hsel as ->. apply oldest_Some in Hold as [Ht Hmin].
      by rewrite (Hmains main Hmain_eligible Hmain_queued t Ht Hmin).
    + injection Hsel as Hall. apply oldest_Some in Hall as [Ht _].
      apply oldest_None in Hold.
      assert (Hmem : t ∈ List.filter main (tests db)).
      { apply elem_of_filter_bool in Ht as [Ht Hel]. apply elem_of_filter_bool.
        split; [done|]. unfold main. rewrite Hel. simpl. by apply Z.eqb_eq. }
      rewrite Hold in Hmem. by apply elem_of_nil in Hmem.
  - intros Hnone. exists queued. split; [|by destruct platform].
    rewrite (Hnew main Hmain_eligible Hmain_queued); [done|].
    apply filter_all_false. intros t Ht. destruct (main t) eqn:Hmain; [|done].
    apply andb_true_iff in Hmain as [Hel Hf%Z.eqb_eq].
    apply eligible_spec in Hel as [Hplat Hunf]. by destruct (Hnone t).
Qed.

Lemma queue_test_keeps_order_witness :
  exists db',
    queue_test sample_config (fun _ => true) queue_db true "c0ffee" TestType.commit
               "master" 0 7 8 "t7" "t8" = Ok db' [GithubStatus "c0ffee" PENDING
                 "Tests queued" "CI - linux" 7; GithubStatus "c0ffee" PENDING
                 "Tests queued" "CI - windows" 8]
    /\ select_test sample_config db' linux
       = Ok db' (Some (sample_test 5 linux TestType.commit 1 0)).
Proof.
  eexists. split; [reflexivity|].
  refine (proj1 (queue_test_keeps_order sample_config (fun _ => true) queue_db _ true
                   "c0ffee" TestType.commit "master" 0 7 8 "t7" "t8" main_fork _ linux
                   _ _ _ _ eq_refl eq_refl) _ eq_refl eq_refl).
  - apply (bool_decide_unpack _). reflexivity.
  - discriminate.
  - intros t Ht. simpl in Ht. rewrite !elem_of_cons, elem_of_nil in Ht.
    destruct Ht as [->|[->|[->|[->|[]]]]]; simpl; lia.
  - intros e He. simpl in He. rewrite !elem_of_cons, elem_of_nil in He.
    destruct He as [->|[->|[->|[]]]]; simpl; lia.
Defined.

(** ** The webhook: a push *)

Lemma fetch_commit_key_inj (a b : TestPlatform) :
  fetch_commit_key a = fetch_commit_key b -> a = b.
Proof. by destruct a, b. Qed.

Lemma pin_if_missing_lookup (last_commit : value) (data : gmap string value)
    (platform : TestPlatform) :
  pin_if_missing last_commit data platform !! fetch_commit_key platform
  = Some (default last_commit (data !! fetch_commit_key platform))
  /\ forall key, key <> fetch_commit_key platform ->
                 pin_if_missing last_commit data platform !! key = data !! key.
Proof.
  unfold pin_if_missing. fold (fetch_commit_key platform).
  destruct (data !! fetch_commit_key platform) as [pin|] eqn:Hpin; simpl.
  - by split.
  - split; [by rewrite lookup_insert_eq|]. intros key Hkey. by rewrite lookup_insert_ne.
Qed.

(** X23: a push with a commit, on a store that has the [last_commit] row
    and the row of the main repository, leaves every platform with a pinned
    commit: a pin that existed is kept, a missing one becomes the commit
    that [last_commit] named before the push.  [last_commit] is then the
    head that the repository reports, no other key changes, and two commit
    tests are queued for the pushed commit on branch master.  A push
    without a commit does nothing; without the [last_commit] row the
    handler raises and stores nothing. *)
Theorem push_event_pins (config : Config) (active : RegressionTest.t -> bool) (db : Db)
    (after : option string) (ref_sha : string) (linux_id windows_id : Z)
    (linux_token windows_token : string) :
  let run := push_event config active db after ref_sha linux_id windows_id
                        linux_token windows_token in
  (after = None -> run = Ok db [])
  /\ (after <> None -> general_data db !! "last_commit" = None ->
      run = Raise db AttributeError)
  /\ (forall commit_hash last_commit fork,
        after = Some commit_hash ->
        general_data db !! "last_commit" = Some last_commit ->
        main_fork_row config db = Some fork ->
        exists db' out,
          run = Ok db' out
          /\ general_data db' !! "last_commit" = Some (Text ref_sha)
          /\ (forall platform,
                general_data db' !! fetch_commit_key platform
                = Some (default last_commit (general_data db !! fetch_commit_key platform)))
          /\ (forall key, key <> "last_commit" ->
                (forall platform, key <> fetch_commit_key platform) ->
                general_data db' !! key = general_data db !! key)
          /\ tests db'
             = tests db
               ++ [Test.mk linux_id linux TestType.commit (Fork.id fork) "master"
                           commit_hash 0 linux_token;
                   Test.mk windows_id windows TestType.commit (Fork.id fork) "master"
                           commit_hash 0 windows_token]
          /\ progress db' = progress db /\ kvm db' = kvm db).
Proof.
  intros run. subst run. unfold push_event.
  split; [by intros ->|]. split.
  { intros Hafter Hnone. destruct after; [|done]. by rewrite Hnone. }
  intros commit_hash last_commit fork -> Hlast Hfork. rewrite Hlast.
  unfold queue_test. change (forks (with_general_data db _)) with (forks db).
  fold (main_fork_row config db). rewrite Hfork. simpl.
  eexists _, _. split; [reflexivity|]. simpl.
  split; [by rewrite lookup_insert_eq|].
  set (first := pin_if_missing last_commit (general_data db) linux).
  destruct (pin_if_missing_lookup last_commit (general_data db) linux) as [Hl Hl'].
  destruct (pin_if_missing_lookup last_commit first windows) as [Hw Hw'].
  fold first in Hl, Hl'.
  split; [|split; [|done]].
  - intros platform. rewrite lookup_insert_ne by by destruct platform.
    destruct platform.
    + by rewrite Hw', Hl.
    + by rewrite Hw, Hl'.
  - intros key Hkey Hpins. rewrite lookup_insert_ne by done.
    rewrite Hw', Hl'; [done|apply Hpins|apply Hpins].
Qed.

Lemma push_event_pins_witness :
  exists db' out,
    push_event sample_config (fun _ => true) fresh_db (Some "c0ffee") "c0ffee" 3 4 "t3" "t4"
    = Ok db' out
    /\ general_data db' !! "last_commit" = Some (Text "c0ffee")
    /\ general_data db' !! "fetch_commit_linux" = Some (Text "0ld")
    /\ general_data db' !! "fetch_commit_windows" = Some (Text "0ld").
Proof.
  destruct (proj2 (proj2 (push_event_pins sample_config (fun _ => true) fresh_db
                            (Some "c0ffee") "c0ffee" 3 4 "t3" "t4"))
                  "c0ffee" (Text "0ld") main_fork eq_refl eq_refl eq_refl)
    as (db' & out & Hrun & Hlast & Hpins & _).
  exists db', out. split; [exact Hrun|]. split; [exact Hlast|].
  split; [exact (Hpins linux)|exact (Hpins windows)].
Defined.

(** ** Blocked users *)

Lemma blocked_row_app (blocked : list BlockedUsers.t) (row : BlockedUsers.t) (user_id : Z) :
  blocked_row (blocked ++ [row]) user_id
  = match blocked_row blocked user_id with
    | Some found => Some found
    | None => if BlockedUsers.user_id row =? user_id then Some row else None
    end.
Proof.
  unfold blocked_row, query_first. rewrite List.filter_app. simpl.
  destruct (List.filter _ blocked); simpl; [|done].
  by destruct (BlockedUsers.user_id row =? user_id).
Qed.

Lemma delete_first_app_new {A : Type} (p : A -> bool) (rows : list A) (x : A) :
  query_first p rows = None -> p x = true -> delete_first p (rows ++ [x]) = rows.
Proof.
  intros Hnone Hx. assert (Hall : forall y, y ∈ rows -> p y = false)
    by by apply query_first_None.
  clear Hnone. induction rows as [|r rest IH]; simpl; [by rewrite Hx|].
  rewrite (Hall r) by by left. f_equal. apply IH. intros y Hy. apply Hall. by right.
Qed.

(** X24: once the form that adds a user has been processed the user is
    blocked, whether the user was blocked before or not and whether the
    pull requests could be fetched or not, and the other users are blocked
    or not as before.  A pull request that a blocked user opens or updates
    queues no test and changes nothing in the store: the handler ends on
    the error status or on the error of posting it.  Removing a user that
    was added gives the table back as it was, and the pull requests of the
    user queue tests again, as [queue_test] does. *)
Theorem blocked_user_queues_nothing (config : Config) (active : RegressionTest.t -> bool)
    (db : Db) (blocked : list BlockedUsers.t) (user_id : Z) (comment : string)
    (pulls : option (list Pull)) (now : Z) :
  let blocked' := (add_blocked_user db blocked user_id comment pulls now).1.1.2 in
  (exists row, blocked_row blocked' user_id = Some row)
  /\ (forall other, other <> user_id -> blocked_row blocked' other = blocked_row blocked other)
  /\ (forall store head_sha pr_nr post_ok linux_id windows_id linux_token windows_token,
        let run := pull_request_opened config active store blocked' head_sha user_id pr_nr
                                       post_ok linux_id windows_id linux_token
                                       windows_token in
        db_of run = store
        /\ forall store' calls, run <> Ok store' (TestsQueued calls))
  /\ (blocked_row blocked user_id = None ->
      remove_blocked_user blocked' user_id = (blocked, RemovedNow)
      /\ forall store commit_hash pr_nr post_ok linux_id windows_id linux_token
                windows_token,
           pull_request_opened config active store blocked (Some commit_hash) user_id pr_nr
                               post_ok linux_id windows_id linux_token windows_token
           = bind (queue_test config active store true commit_hash TestType.pull_request
                              "master" pr_nr linux_id windows_id linux_token windows_token)
                  (fun db calls => Ok db (TestsQueued calls))).
Proof.
  intros blocked'.
  assert (Hblocked : blocked' = match blocked_row blocked user_id with
                                | Some _ => blocked
                                | None => blocked ++ [BlockedUsers.mk user_id comment]
                                end).
  { subst blocked'. unfold add_blocked_user.
    destruct (blocked_row blocked user_id); [done|].
    destruct pulls as [pulls|]; [|done]. by destruct (cancel_pulls _ _ _ _ _). }
  assert (Hrow : exists row, blocked_row blocked' user_id = Some row).
  { rewrite Hblocked. destruct (blocked_row blocked user_id) as [row|] eqn:Hold.
    - by exists row.
    - rewrite blocked_row_app, Hold. simpl. rewrite Z.eqb_refl. by eexists. }
  split; [done|]. split; [|split].
  - intros other Hother. rewrite Hblocked.
    destruct (blocked_row blocked user_id); [done|].
    rewrite blocked_row_app. simpl.
    destruct (blocked_row blocked other); [done|].
    by destruct (Z.eqb_spec user_id other).
  - intros store head_sha pr_nr post_ok linux_id windows_id linux_token windows_token run.
    subst run. unfold pull_request_opened. destruct Hrow as [row ->].
    destruct head_sha; [|done]. by destruct post_ok.
  - intros Hnone. rewrite Hblocked, Hnone. split.
    + unfold remove_blocked_user. rewrite blocked_row_app, Hnone. simpl.
      rewrite Z.eqb_refl. f_equal. apply delete_first_app_new; [done|].
      simpl. apply Z.eqb_refl.
    + intros. unfold pull_request_opened. by rewrite Hnone.
Qed.

Lemma blocked_user_queues_nothing_witness :
  pull_request_opened sample_config (fun _ => true) pr_db
    [BlockedUsers.mk 42 "spam"] (Some "c0ffee") 42 14 true 3 4 "t3" "t4"
  = Ok pr_db (UserBlocked "c0ffee"
                "CI start aborted. You may be blocked from accessing this functionality")
  /\ remove_blocked_user [BlockedUsers.mk 42 "spam"] 42 = ([], RemovedNow).
Proof.
  split; [reflexivity|].
  exact (proj1 (proj2 (proj2 (proj2 (blocked_user_queues_nothing sample_config
                                       (fun _ => true) pr_db [] 42 "spam" None 0)))
                      eq_refl)).
Defined.

Lemma canceled_for_app (db : Db) (now : Z) (a b : list Test.t) :
  canceled_for (canceled_for db now a) now b = canceled_for db now (a ++ b).
Proof.
  unfold canceled_for, add_progress_all. simpl. by rewrite map_app, app_assoc.
Qed.

Lemma test_progress_canceled_for (db : Db) (now : Z) (new : list Test.t) (id : Z) :
  test_progress (canceled_for db now new) id
  = test_progress db id
    ++ map (pr_closed_event now) (List.filter (fun t => Test.id t =? id) new).
Proof.
  unfold canceled_for. rewrite test_progress_pending. f_equal.
  induction new as [|t rest IH]; simpl; [done|].
  destruct (Test.id t =? id); simpl; by rewrite IH.
Qed.

Lemma test_progress_add_any (db : Db) (p : TestProgress.t) (id : Z) :
  test_progress (add_progress db p) id
  = test_progress db id ++ (if TestProgress.test_id p =? id then [p] else []).
Proof. unfold test_progress, add_progress. simpl. by rewrite List.filter_app. Qed.

Lemma cancel_queued_spec (now : Z) (tests : list Test.t) :
  forall db calls,
    exists new,
      cancel_queued db now tests calls
      = (canceled_for db now new, calls ++ map blacklisted_status new)
      /\ (forall t, t ∈ new -> t ∈ tests /\ test_progress db (Test.id t) = [])
      /\ (forall t, t ∈ tests -> test_progress db (Test.id t) = [] ->
                    exists t', t' ∈ new /\ Test.id t' = Test.id t).
Proof.
  induction tests as [|test rest IH]; intros db calls; simpl.
  { exists []. unfold canceled_for, add_progress_all. simpl. rewrite !app_nil_r.
    split; [by destruct db|]. split; [by intros t ?%elem_of_nil|by intros t ?%elem_of_nil]. }
  destruct (0 <? _) eqn:Hstarted.
  - destruct (IH db calls) as (new & -> & Hsound & Hall). exists new.
    split; [done|]. split.
    + intros t Ht. destruct (Hsound t Ht). split; [by right|done].
    + intros t [->|Ht]%elem_of_cons Hnone; [|by apply Hall].
      rewrite Hnone in Hstarted. done.
  - assert (Hnone : test_progress db (Test.id test) = []).
    { apply Z.ltb_ge in Hstarted. destruct (test_progress db (Test.id test)); [done|].
      simpl in Hstarted. lia. }
    destruct (IH (add_progress db (pr_closed_event now test))
                 (calls ++ [blacklisted_status test])) as (new & -> & Hsound & Hall).
    exists (test :: new). split; [|split].
    + change (add_progress db (pr_closed_event now test))
        with (canceled_for db now [test]).
      rewrite canceled_for_app. simpl. by rewrite <- app_assoc.
    + intros t [->|Ht]%elem_of_cons; [split; [by left|done]|].
      destruct (Hsound t Ht) as [Hin Hempty]. split; [by right|].
      rewrite test_progress_add_any in Hempty. by apply app_eq_nil in Hempty as [? _].
    + intros t Ht Hempty. destruct (Z.eq_dec (Test.id t) (Test.id test)) as [Heq|Hne].
      { exists test. split; [by left|done]. }
      apply elem_of_cons in Ht as [->|Ht]; [done|].
      destruct (Hall t Ht) as (t' & Ht' & Hid).
      * rewrite test_progress_add_any, Hempty. simpl.
        by rewrite (proj2 (Z.eqb_neq _ _)) by (simpl; congruence).
      * exists t'. split; [by right|done].
Qed.

Lemma cancel_pulls_spec (user_id now : Z) (pulls : list Pull) :
  forall db calls,
    exists new,
      cancel_pulls db user_id now pulls calls
      = (canceled_for db now new, calls ++ map blacklisted_status new)
      /\ (forall t, t ∈ new ->
            t ∈ tests db /\ test_progress db (Test.id t) = []
            /\ exists pull, pull ∈ pulls /\ pull_user pull = user_id
                            /\ Test.pr_nr t = pull_number pull)
      /\ (forall pull t, pull ∈ pulls -> pull_user pull = user_id ->
            t ∈ tests db -> Test.pr_nr t = pull_number pull ->
            test_progress db (Test.id t) = [] ->
            exists t', t' ∈ new /\ Test.id t' = Test.id t).
Proof.
  induction pulls as [|pull rest IH]; intros db calls; simpl.
  { exists []. unfold canceled_for, add_progress_all. simpl. rewrite !app_nil_r.
    split; [by destruct db|]. split; [by intros t ?%elem_of_nil|].
    by intros pull t ?%elem_of_nil. }
  destruct (Z.eqb_spec (pull_user pull) user_id) as [Huser|Hother]; simpl.
  - destruct (cancel_queued_spec now
                (List.filter (fun t => Test.pr_nr t =? pull_number pull) (tests db))
                db calls) as (first & -> & Hsound1 & Hall1).
    destruct (IH (canceled_for db now first) (calls ++ map blacklisted_status first))
      as (later & -> & Hsound2 & Hall2).
    exists (first ++ later). split; [|split].
    + by rewrite canceled_for_app, map_app, app_assoc.
    + intros t [Ht|Ht]%elem_of_app.
      * destruct (Hsound1 t Ht) as [[Hin Hnr%Z.eqb_eq]%elem_of_filter_bool Hempty].
        split; [done|]. split; [done|]. exists pull. split; [by left|done].
      * destruct (Hsound2 t Ht) as (Hin & Hempty & pull' & Hpull' & Hu & Hnr).
        split; [done|]. split.
        -- rewrite test_progress_canceled_for in Hempty.
           by apply app_eq_nil in Hempty as [? _].
        -- exists pull'. split; [by right|done].
    + intros pull' t Hpull' Hu Ht Hnr Hempty.
      destruct (test_progress (canceled_for db now first) (Test.id t)) as [|e more]
        eqn:Hnow.
      * apply elem_of_cons in Hpull' as [->|Hpull'].
        -- destruct (Hall1 t) as (t' & Ht' & Hid); [|done|].
           { apply elem_of_filter_bool. split; [done|]. by apply Z.eqb_eq. }
           exists t'. split; [|done]. apply elem_of_app. by left.
        -- destruct (Hall2 pull' t Hpull' Hu Ht Hnr Hnow) as (t' & Ht' & Hid).
           exists t'. split; [|done]. apply elem_of_app. by right.
      * rewrite test_progress_canceled_for, Hempty in Hnow. simpl in Hnow.
        destruct (List.filter (fun t0 => Test.id t0 =? Test.id t) first) as [|t' others]
          eqn:Hfilter; [done|].
        assert (Ht' : t' ∈ List.filter (fun t0 => Test.id t0 =? Test.id t) first).
        { rewrite Hfilter. by left. }
        apply elem_of_filter_bool in Ht' as [Ht' Hid%Z.eqb_eq].
        exists t'. split; [|done]. apply elem_of_app. by left.
  - destruct (IH db calls) as (new & -> & Hsound & Hall). exists new.
    split; [done|]. split.
    + intros t Ht. destruct (Hsound t Ht) as (Hin & Hempty & pull' & Hpull' & Hu & Hnr).
      split; [done|]. split; [done|]. exists pull'. split; [by right|done].
    + intros pull' t [->|Hpull']%elem_of_cons Hu Ht Hnr Hempty; [done|].
      by apply (Hall pull' t).
Qed.

(** X25: blocking a user cancels the tests that wait on the open pull
    requests of the user.  When a user who is not blocked yet is added and
    the pull requests of the repository are fetched, the store changes by
    "PR closed" cancellations only, each for a test without any event that
    belongs to an open pull request of the user, and a failure status is
    posted for each of them; every such test is canceled, so that the
    scheduler will not select it, also when posting fails.  Tests that have
    started and the pull requests of other users are left alone.  When the
    user was blocked before, or the pull requests cannot be fetched,
    nothing is canceled. *)
Theorem blocking_cancels_queued_tests (db : Db) (blocked : list BlockedUsers.t)
    (user_id : Z) (comment : string) (pulls : option (list Pull)) (now : Z) :
  let db' := (add_blocked_user db blocked user_id comment pulls now).1.1.1 in
  let calls := (add_blocked_user db blocked user_id comment pulls now).2 in
  ((exists row, blocked_row blocked user_id = Some row) \/ pulls = None ->
   db' = db /\ calls = [])
  /\ (forall open, blocked_row blocked user_id = None -> pulls = Some open ->
        exists new,
          db' = canceled_for db now new
          /\ calls = map blacklisted_status new
          /\ (forall t, t ∈ new ->
                t ∈ tests db /\ test_progress db (Test.id t) = []
                /\ exists pull, pull ∈ open /\ pull_user pull = user_id
                                /\ Test.pr_nr t = pull_number pull)
          /\ (forall pull t, pull ∈ open -> pull_user pull = user_id ->
                t ∈ tests db -> Test.pr_nr t = pull_number pull ->
                test_progress db (Test.id t) = [] ->
                ~ candidate db' (Test.platform t) t)).
Proof.
  intros db' calls. subst db' calls. unfold add_blocked_user. split.
  - intros [[row ->]| ->]; [done|]. by destruct (blocked_row blocked user_id).
  - intros open -> ->.
    destruct (cancel_pulls_spec user_id now open db []) as (new & Hrun & Hsound & Hall).
    rewrite Hrun. simpl. exists new. split; [done|]. split; [done|]. split; [done|].
    intros pull t Hpull Hu Ht Hnr Hempty (_ & _ & Hunfinished).
    destruct (Hall pull t Hpull Hu Ht Hnr Hempty) as (t' & Ht' & Hid).
    destruct (Hunfinished (pr_closed_event now t')) as [_ Hcanceled]; [|done|done].
    unfold canceled_for, add_progress_all. simpl. apply elem_of_app. right.
    apply list_elem_of_fmap. by exists t'.
Qed.

Lemma blocking_cancels_queued_tests_witness :
  exists new,
    (add_blocked_user pr_db [] 42 "spam" (Some [mkPull 42 12; mkPull 7 13]) 50).1.1.1
    = canceled_for pr_db 50 new
    /\ ~ candidate (canceled_for pr_db 50 new) windows
                   (sample_test 2 windows TestType.pull_request 2 12).
Proof.
  destruct (proj2 (blocking_cancels_queued_tests pr_db [] 42 "spam"
                     (Some [mkPull 42 12; mkPull 7 13]) 50) _ eq_refl eq_refl)
    as (new & Hdb & _ & _ & Hall).
  exists new. split; [exact Hdb|]. rewrite <- Hdb.
  apply (Hall (mkPull 42 12) (sample_test 2 windows TestType.pull_request 2 12)).
  - by left.
  - reflexivity.
  - right. by left.
  - reflexivity.
  - reflexivity.
Defined.

(** ** The progress ingestor: the end of a test *)

Lemma record_progress_event `{ProgressStep} (db db1 : Db) (test : Test.t)
    (request : Request) (now : Z) (stamp : datetime.t) (status : TestStatus)
    (p : TestProgress.t) :
  record_progress db test request now stamp = Ok db1 (Some (status, p)) ->
  TestProgress.test_id p = Test.id test /\ TestProgress.status p = status
  /\ TestProgress.timestamp p = stamp.
Proof.
  unfold record_progress.
  destruct (form_status request) as [name|]; [|done].
  destruct (from_string name) as [reported|]; [|done].
  destruct (form_message request) as [message|]; [|done].
  destruct (last (test_progress db (Test.id test))) as [last_event|];
    [|by intros [= <- <- <-]].
  destruct (_ || _); [done|].
  destruct (step_gt _ _); destruct (step_lt _ _); simpl;
    repeat (destruct (decide _) as [?|?]; simpl);
    try done; try (by intros [= <- <- <-]);
    destruct (query_first _ _) as [k|]; try done;
    try (destruct (Kvm.timestamp_prep_finished k); try done);
    destruct (set_avg_time _ _ _ _) as [? []|]; simpl; try done;
    by intros [= <- <- <-].
Qed.

(** X26: a report that records [canceled] for a test of a platform that has
    a stored average running time, at a moment when the store holds no
    result at all, fails on a division by zero after the event is recorded:
    the test is canceled in the history, but its Kvm entry is kept, no
    status is posted and no pass of the scheduler is started. *)
Theorem canceled_report_without_results `{ProgressStep} (config : Config) (db db1 : Db)
    (test : Test.t) (request : Request) (now : Z) (stamp : datetime.t)
    (p : TestProgress.t) (average : Qc) :
  record_progress db test request now stamp = Ok db1 (Some (canceled, p)) ->
  general_data db !! ("average_time_" ++ platform_value (Test.platform test))%string
  = Some (Number average) ->
  results db = [] ->
  progress_type_request config db test request now stamp
  = Raise (add_progress db p) ZeroDivisionError
  /\ kvm (add_progress db p) = kvm db
  /\ last (test_progress (add_progress db p) (Test.id test)) = Some p
  /\ TestProgress.status p = canceled.
Proof.
  intros Hrec Hstored Hresults.
  pose proof (record_progress_terminal db db1 test request now stamp canceled p Hrec eq_refl)
    as ->.
  destruct (record_progress_event db _ test request now stamp canceled p Hrec)
    as (Hid & Hstatus & _).
  assert (Hevents : test_progress (add_progress db p) (Test.id test)
                    = test_progress db (Test.id test) ++ [p]) by by apply test_progress_add.
  split; [|split; [done|split; [by rewrite Hevents, last_snoc|done]]].
  unfold progress_type_request. rewrite Hrec. simpl.
  unfold finish_test. simpl. rewrite Hstored. unfold warm_average. simpl.
  rewrite Hresults. simpl.
  destruct (decide (Z.of_nat (length (regression_tests db)) = 0)) as [|_]; [done|].
  unfold progress_data. rewrite Hevents, last_snoc.
  destruct (head (test_progress db (Test.id test) ++ [p])) as [first_event|] eqn:Hfirst.
  2: { by destruct (test_progress db (Test.id test)). }
  by rewrite sub_strip_tz.
Qed.

Lemma canceled_report_without_results_witness :
  progress_type_request (H := member_steps) sample_config
    (with_general_data leased_db (<["average_time_linux" := Number (Z2Qc 100)]> ∅))
    (sample_test 7 linux TestType.pull_request 2 12)
    (progress_request "canceled" "stopped") 65000000 (datetime.naive 65000000)
  = Raise (add_progress
             (with_general_data leased_db (<["average_time_linux" := Number (Z2Qc 100)]> ∅))
             (TestProgress.mk 7 canceled "stopped" (datetime.naive 65000000)))
          ZeroDivisionError.
Proof.
  exact (proj1 (canceled_report_without_results (H := member_steps) sample_config
                  (with_general_data leased_db
                     (<["average_time_linux" := Number (Z2Qc 100)]> ∅))
                  _ (sample_test 7 linux TestType.pull_request 2 12)
                  (progress_request "canceled" "stopped") 65000000
                  (datetime.naive 65000000) _ (Z2Qc 100) eq_refl eq_refl eq_refl)).
Defined.

(** Case analysis on the membership of a call in a list of calls. *)
Ltac split_calls :=
  repeat match goal with
         | H : _ ∈ _ ++ _ |- _ => apply elem_of_app in H as [H|H]
         | H : _ ∈ _ :: _ |- _ => apply elem_of_cons in H as [H|H]
         | H : _ ∈ [] |- _ => by apply elem_of_nil in H
         end.

(** X27: the comment on the pull request and the build badge belong to
    completion.  In a report that is processed to the end, a comment is
    posted only for a pull-request test that has just been recorded as
    completed, and it is posted for every such test; the badge is updated
    only for a commit test of the main repository that has just been
    recorded as completed.  Both carry the outcome of the test, the one
    that the commit status carries, and the report never acts on the
    hypervisor. *)
Theorem comment_and_badge_on_completion `{ProgressStep} (config : Config)
    (db db1 db' : Db) (test : Test.t) (request : Request) (now : Z) (stamp : datetime.t)
    (status : TestStatus) (p : TestProgress.t) (b : bool) (calls : list Action) :
  record_progress db test request now stamp = Ok db1 (Some (status, p)) ->
  progress_type_request config db test request now stamp = Ok db' (b, calls) ->
  (forall id state pr_nr platform, CommentPr id state pr_nr platform ∈ calls ->
     status = completed /\ Test.test_type test = TestType.pull_request
     /\ id = Test.id test /\ pr_nr = Test.pr_nr test /\ state = (outcome db' test).1)
  /\ (forall state id, UpdateBuildBadge state id ∈ calls ->
        status = completed /\ Test.test_type test = TestType.commit
        /\ id = Test.id test /\ state = (outcome db' test).1
        /\ exists fork, test_fork db test = Some fork
                        /\ is_main_repo config (Fork.github fork) = true)
  /\ (status = completed -> Test.test_type test = TestType.pull_request ->
      CommentPr (Test.id test) (outcome db' test).1 (Test.pr_nr test)
                (platform_value (Test.platform test)) ∈ calls)
  /\ (status = completed -> forall commit state message context target,
        GithubStatus commit state message context target ∈ calls ->
        state = (outcome db' test).1)
  /\ VmDestroy ∉ calls.
Proof.
  intros Hrec Hrun.
  destruct (progress_type_request_steps config db db1 db' test request now stamp
              status p b calls Hrec Hrun)
    as (db2 & db3 & state & message & made & Hfetch & Hfinish & Hfinal & _ & ->).
  assert (Hforks : forks db3 = forks db).
  { pose proof (record_progress_frame db test request now stamp) as H1.
    rewrite Hrec in H1. simpl in H1.
    pose proof (update_fetch_commit_frame config db1 test status) as (H2 & _).
    rewrite Hfetch in H2. simpl in H2.
    assert (H3 : catalog db3 = catalog db2).
    { destruct (is_terminal status); [|by injection Hfinish as <-].
      pose proof (finish_test_frame db2 test) as (H3 & _). by rewrite Hfinish in H3. }
    unfold catalog in *. congruence. }
  pose proof (final_state_db config db3 test status p) as Hdb.
  rewrite Hfinal in Hdb. simpl in Hdb. subst db'.
  revert Hfinal. unfold final_state.
  destruct (decide (status = canceled)) as [->|Hlive].
  { intros [= <- <- <-]. simpl.
    split; [intros; split_calls; by simplify_eq|].
    split; [intros; split_calls; by simplify_eq|].
    split; [done|]. split; [done|]. intros Hin. split_calls; by simplify_eq. }
  destruct (decide (status = completed)) as [->|Hrunning].
  2: { intros [= <- <- <-]. simpl.
       assert (Hterm : is_terminal status = false) by by destruct status.
       rewrite Hterm. simpl.
       split; [intros; split_calls; by simplify_eq|].
       split; [intros; split_calls; by simplify_eq|].
       split; [done|]. split; [done|]. intros Hin. split_calls; by simplify_eq. }
  destruct (outcome db3 test) as [result text] eqn:Houtcome. simpl.
  unfold update_build_badge, test_fork. rewrite Hforks. fold (test_fork db test).
  destruct (decide (Test.test_type test = TestType.pull_request)) as [Hpr|Hpr];
    destruct (decide (Test.test_type test = TestType.commit)) as [Hc|Hc];
    try congruence; simpl.
  - intros [= <- <- <-]. simpl.
    split; [intros; split_calls; by simplify_eq|].
    split; [intros; split_calls; by simplify_eq|].
    split; [intros _ _; by left|].
    split; [intros; split_calls; by simplify_eq|].
    intros Hin. split_calls; by simplify_eq.
  - destruct (test_fork db test) as [fork|] eqn:Hfork; simpl; [|done].
    destruct (is_main_repo config (Fork.github fork)) eqn:Hmain; simpl;
      intros [= <- <- <-]; simpl.
    + split; [intros; split_calls; by simplify_eq|].
      split; [intros; split_calls; simplify_eq; repeat split; try done; by exists fork|].
      split; [done|].
      split; [intros; split_calls; by simplify_eq|].
      intros Hin. split_calls; by simplify_eq.
    + split; [intros; split_calls; by simplify_eq|].
      split; [intros; split_calls; by simplify_eq|].
      split; [done|].
      split; [intros; split_calls; by simplify_eq|].
      intros Hin. split_calls; by simplify_eq.
  - destruct (Test.test_type test); congruence.
Qed.

Lemma comment_and_badge_on_completion_witness :
  exists db' calls,
    progress_type_request (H := member_steps) sample_config testing_db
      (sample_test 7 linux TestType.pull_request 2 12)
      (progress_request "completed" "done") 30000000 (datetime.naive 30000000)
    = Ok db' (true, calls)
    /\ CommentPr 7 (outcome db' (sample_test 7 linux TestType.pull_request 2 12)).1 12
                 "linux" ∈ calls.
Proof.
  eexists _, _. split; [reflexivity|].
  refine (proj1 (proj2 (proj2 (comment_and_badge_on_completion (H := member_steps)
            sample_config testing_db _ _ (sample_test 7 linux TestType.pull_request 2 12)
            (progress_request "completed" "done") 30000000 (datetime.naive 30000000)
            completed _ true _ eq_refl eq_refl))) eq_refl eq_refl).
Defined.

(** ** Finished tests *)

Lemma record_progress_keeps `{ProgressStep} (db : Db) (test : Test.t)
    (request : Request) (now : Z) (stamp : datetime.t) :
  exists new,
    progress (db_of (record_progress db test request now stamp)) = progress db ++ new.
Proof.
  assert (Hsame : forall rows : list TestProgress.t, exists new, rows = rows ++ new).
  { intros rows. exists []. by rewrite app_nil_r. }
  assert (Hadd : forall (rows : list TestProgress.t) p, exists new, rows ++ [p] = rows ++ new).
  { intros rows p. by exists [p]. }
  unfold record_progress.
  destruct (form_status request) as [name|]; [|apply Hsame].
  destruct (from_string name) as [reported|]; [|apply Hsame].
  destruct (form_message request) as [message|]; [|apply Hsame].
  destruct (last (test_progress db (Test.id test))) as [last_event|]; [|apply Hadd].
  destruct (_ || _); [apply Hsame|].
  destruct (step_gt _ _); destruct (step_lt _ _); simpl;
    repeat (destruct (decide _) as [?|?]; simpl);
    try apply Hsame; try apply Hadd;
    destruct (query_first _ _) as [k|]; try apply Hsame;
    try (destruct (Kvm.timestamp_prep_finished k); [|apply Hsame]);
    rewrite db_of_bind;
    match goal with
    | |- context [set_avg_time ?d ?pl ?ty ?x] =>
        pose proof (set_avg_time_frame d pl ty x) as (_ & Hprogress & _);
        destruct (set_avg_time d pl ty x) as [? []|]; simpl in *; rewrite Hprogress;
        first [apply Hadd | apply Hsame]
    end.
Qed.

Lemma kvm_processor_keeps_events (config : Config) (db : Db) (kvm_name : string)
    (platform : TestPlatform) (env : VmEnv) :
  exists new,
    progress (db_of (snd (kvm_processor config db kvm_name platform env)))
    = progress db ++ new.
Proof.
  assert (Hsame : exists new : list TestProgress.t, progress db = progress db ++ new).
  { exists []. by rewrite app_nil_r. }
  assert (Hselect : forall db1 : Db,
            progress (db_of (select_step config (drop_stale_entry db1 kvm_name) platform))
            = progress db1).
  { intros db1.
    pose proof (select_step_effects config (drop_stale_entry db1 kvm_name) platform)
      as (Hp & _).
    pose proof (drop_stale_entry_effects db1 kvm_name) as (Hp' & _).
    simpl in *. by rewrite Hp. }
  unfold kvm_processor.
  destruct (String.eqb kvm_name ""); [done|].
  destruct (match query_first _ (maintenance db) with Some _ => _ | None => _ end);
    [done|].
  destruct (conn_open env); simpl; [|done].
  destruct (vm_found env); simpl; [|done].
  destruct (vm_shutoff env); simpl; [by rewrite Hselect|].
  unfold check_running. destruct (query_first _ (kvm db)) as [status|].
  - destruct (_ <=? _); [|done].
    destruct (destroy_result env =? -1); simpl; [by eexists|].
    rewrite Hselect. simpl. by eexists.
  - destruct (destroy_result env =? -1); simpl; [done|]. by rewrite Hselect.
Qed.

(** X28: a finished test stays finished and is never run again.  An event
    in the store is still there after any progress report and after any
    pass of the scheduler, whether they return or raise; and a pass never
    goes on to prepare a test for which the store holds a completed or
    canceled event. *)
Theorem finished_test_never_prepared `{ProgressStep} (config : Config) (db : Db)
    (e : TestProgress.t) :
  e ∈ progress db ->
  (forall test request now stamp,
     e ∈ progress (db_of (progress_type_request config db test request now stamp)))
  /\ (forall kvm_name platform env,
        e ∈ progress (db_of (snd (kvm_processor config db kvm_name platform env))))
  /\ (is_terminal (TestProgress.status e) = true ->
      forall kvm_name platform env calls db' test,
        kvm_processor config db kvm_name platform env = (calls, Ok db' (Prepare test)) ->
        Test.id test <> TestProgress.test_id e).
Proof.
  intros He. split; [|split].
  - intros test request now stamp. rewrite progress_type_request_progress.
    destruct (record_progress_keeps db test request now stamp) as [new ->].
    apply elem_of_app. by left.
  - intros kvm_name platform env.
    destruct (kvm_processor_keeps_events config db kvm_name platform env) as [new ->].
    apply elem_of_app. by left.
  - intros Hterm kvm_name platform env calls db' test Hrun Hid.
    destruct (kvm_processor_selection config db db' kvm_name platform env calls
                (Prepare test) Hrun) as (db1 & Hsel & _ & Hprogress & _); [done|].
    destruct (select_step_selected config db1 db' platform (Prepare test) Hsel)
      as [?|(chosen & (_ & _ & Hunf) & _ & [(_ & ? & _)|(_ & [= <-] & ->)])]; try done.
    assert (He1 : e ∈ progress db1).
    { destruct Hprogress as [->|(k & ->)]; [done|]. apply elem_of_app. by left. }
    destruct (Hunf e He1) as [Hc Hx]; [done|].
    by destruct (TestProgress.status e).
Qed.

Lemma finished_test_never_prepared_witness :
  event 3 completed 10
  ∈ progress (db_of (snd (kvm_processor sample_config queue_db "linux-vm" linux
                            (running_env 0))))
  /\ Test.id (sample_test 5 linux TestType.commit 1 0)
     <> TestProgress.test_id (event 3 completed 10).
Proof.
  assert (Hin : event 3 completed 10 ∈ progress queue_db) by (right; by left).
  destruct (finished_test_never_prepared (H := member_steps) sample_config queue_db
              (event 3 completed 10) Hin) as (_ & Hkept & Hnever).
  split; [apply Hkept|].
  exact (Hnever eq_refl "linux-vm" linux (mkVmEnv true true true 0 0 (datetime.naive 0)) []
                (with_kvm queue_db []) (sample_test 5 linux TestType.commit 1 0) eq_refl).
Defined.

(** X29: results are written once.  When a finish report of a test for a
    regression test has been stored, any later finish report of the test
    for that regression test is refused by the key of the table, whatever
    run time and exit code it carries: the error of the commit leaves the
    handler, and the store stays as it was, so that the result stored
    first decides the outcome. *)
Theorem finish_report_is_final `{ProgressStep} (config : Config) (db db1 : Db)
    (test : Test.t) (request again : Request) (now : Z) (stamp : datetime.t) :
  query_first (fun t => Test.id t =? Test.id test) (tests db) = Some test ->
  form_type request = Some "finish" ->
  progress_reporter config db (Test.id test) (Test.token test) request now stamp
  = Ok db1 (OK, []) ->
  form_type again = Some "finish" ->
  form_test_id again = form_test_id request ->
  form_runTime again <> None -> form_exitCode again <> None ->
  forall now' stamp',
    progress_reporter config db1 (Test.id test) (Test.token test) again now' stamp'
    = Raise db1 IntegrityError.
Proof.
  intros Htest Htype Hrun Htype' Hsame Htime Hcode now' stamp'.
  revert Hrun. unfold progress_reporter. rewrite Htest, String.eqb_refl, Htype. simpl.
  unfold finish_type_request.
  destruct (form_test_id request) as [rt_id|] eqn:Hrt; [|done].
  destruct (query_first _ (regression_tests db)) as [rt|] eqn:Hknown; [|done].
  destruct (form_runTime request) as [run_time|]; [|done].
  destruct (form_exitCode request) as [exit_code|]; [|done].
  destruct (form_runTime again) as [run_time'|]; [|done].
  destruct (form_exitCode again) as [exit_code'|]; [|done].
  destruct (existsb _ (results db)) eqn:Hduplicate; simpl; [done|]. intros [= <-].
  simpl. rewrite Htest, String.eqb_refl, Htype', Hsame. simpl. rewrite Hknown.
  rewrite existsb_app. simpl. rewrite !Z.eqb_refl. simpl.
  by rewrite orb_true_r.
Qed.

Lemma finish_report_is_final_witness :
  exists db1,
    progress_reporter (H := member_steps) sample_config clean_db 7 "secret"
      (finish_request 5 12 0) 0 (datetime.naive 0) = Ok db1 (OK, [])
    /\ progress_reporter (H := member_steps) sample_config db1 7 "secret"
         (finish_request 5 99 1) 1 (datetime.naive 1) = Raise db1 IntegrityError.
Proof.
  eexists. split; [reflexivity|].
  refine (finish_report_is_final (H := member_steps) sample_config clean_db _
            (sample_test 7 linux TestType.pull_request 2 12)
            (finish_request 5 12 0) (finish_request 5 99 1) 0 (datetime.naive 0)
            eq_refl eq_refl eq_refl eq_refl eq_refl _ _ 1 (datetime.naive 1));
    discriminate.
Defined.
